(** * CAP-UI usage collector: delta engine, rate-limit reconciler, scheduler
    and control surface, embedded from the TypeScript sources
    ([collector.ts], [pricing.ts], [db.ts], [rate-limiter.ts],
    [scheduler.ts], [index.ts], [server.ts], [types.ts]).

    Conventions of the embedding.
    - JavaScript numbers that hold counters (requests, tokens, ids,
      millisecond time values) are integers of [Z]; numbers that hold money
      or ratios are exact rationals of [Q], compared with [==]: the rounding
      of the IEEE doubles is not modelled.
    - A JavaScript object used as a dictionary, and a [Map], is an
      association list in insertion order ([Obj]); keys are assumed not to
      be integer-like and not to name a property of [Object.prototype]. The
      one lookup that is modelled with the prototype chain is that of
      [findPricingForModel], whose key is a model name in lower case.
    - The SQLite tables are lists of rows. Their operations do not throw,
      except in [resetLimit], where [DbFault] says which one does, and in
      [storeUsageData], where the bulk insert of a NaN cost does.
      [JSON.stringify] and [JSON.parse] of the breakdown column cancel out.
      A report has its [apis], [models] and [details] members.
    - A [Date] is its time value in milliseconds and the process runs in the
      UTC zone, so that [setHours(0,0,0,0)] truncates to a multiple of one
      day. A stored timestamp is the time value that its text denotes, a
      whole second for the column default [CURRENT_TIMESTAMP]. Where a query
      compares a stored timestamp with a bound it compares the two texts
      ([Db.textGe], [Db.textLt]), and where it orders by a timestamp the
      rows of one second come as the access path of the query yields them
      ([Db.order_by], [Db.by_collected_at]). *)

From Stdlib Require Import ZArith QArith Qround Qabs Qminmax List String Ascii Bool.
From Stdlib Require Import DecimalString Lia Lqa Sorted.
Import ListNotations.

Local Open Scope string_scope.
Local Open Scope list_scope.
Local Open Scope Z_scope.

(** ** JavaScript helpers *)

Module JS.

(** Strict comparison of rationals as a boolean. *)
Definition Qlt_bool (x y : Q) : bool := negb (Qle_bool y x).

(** An object used as a dictionary, keys in insertion order. *)
Definition Obj (V : Type) : Type := list (string * V).

Fixpoint obj_get {V : Type} (o : Obj V) (k : string) : option V :=
  match o with
  | [] => None
  | (k', v) :: o' => if String.eqb k' k then Some v else obj_get o' k
  end.

(** [o[k] = v] and [Map.prototype.set]: an existing key keeps its place. *)
Fixpoint obj_set {V : Type} (o : Obj V) (k : string) (v : V) : Obj V :=
  match o with
  | [] => [(k, v)]
  | (k', v') :: o' =>
      if String.eqb k' k then (k', v) :: o' else (k', v') :: obj_set o' k v
  end.

(** [if (!o[k]) o[k] = dflt; o[k] = f(o[k])]. *)
Fixpoint obj_upd {V : Type} (o : Obj V) (k : string) (f : V -> V) (dflt : V)
  : Obj V :=
  match o with
  | [] => [(k, f dflt)]
  | (k', v) :: o' =>
      if String.eqb k' k then (k', f v) :: o'
      else (k', v) :: obj_upd o' k f dflt
  end.

Definition obj_keys {V : Type} (o : Obj V) : list string := map fst o.
Definition obj_values {V : Type} (o : Obj V) : list V := map snd o.

Definition mem (k : string) (l : list string) : bool :=
  existsb (String.eqb k) l.

(** [new Set([...l])]: first occurrences, in order. *)
Definition set_of (l : list string) : list string :=
  fold_left (fun acc k => if mem k acc then acc else (acc ++ [k])%list) l [].

(** [s.split(sep)] for a one-character separator. *)
Fixpoint split (sep : ascii) (s : string) : list string :=
  match s with
  | EmptyString => [EmptyString]
  | String c s' =>
      if Ascii.eqb c sep then EmptyString :: split sep s'
      else match split sep s' with
           | [] => [String c EmptyString]
           | h :: t => String c h :: t
           end
  end.

(** Array destructuring reads [undefined] past the end. *)
Definition at_index (l : list string) (n : nat) : string :=
  nth n l "undefined".

Fixpoint prefix (p s : string) : bool :=
  match p, s with
  | EmptyString, _ => true
  | String a p', String b s' => Ascii.eqb a b && prefix p' s'
  | String _ _, EmptyString => false
  end.

(** [s.includes(sub)]. *)
Fixpoint includes (s sub : string) : bool :=
  prefix sub s ||
  match s with
  | EmptyString => false
  | String _ s' => includes s' sub
  end.

Definition lower_ascii (c : ascii) : ascii :=
  let n := nat_of_ascii c in
  if (65 <=? n)%nat && (n <=? 90)%nat then ascii_of_nat (n + 32) else c.

(** [s.toLowerCase()] on ASCII text. *)
Fixpoint toLowerCase (s : string) : string :=
  match s with
  | EmptyString => EmptyString
  | String c s' => String (lower_ascii c) (toLowerCase s')
  end.

(** [Math.floor] and [Math.round] (halves go up). *)
Definition Math_floor (x : Q) : Z := Qfloor x.
Definition Math_round (x : Q) : Z := Qfloor (x + (1 # 2)).

Definition is_space (c : ascii) : bool :=
  let n := nat_of_ascii c in
  (n =? 32)%nat || ((9 <=? n)%nat && (n <=? 13)%nat).

Fixpoint trim_start (s : string) : string :=
  match s with
  | String c s' => if is_space c then trim_start s' else s
  | EmptyString => EmptyString
  end.

Definition digit_value (c : ascii) : option Z :=
  let n := nat_of_ascii c in
  if (48 <=? n)%nat && (n <=? 57)%nat then Some (Z.of_nat (n - 48))
  else if (97 <=? n)%nat && (n <=? 122)%nat then Some (Z.of_nat (n - 87))
  else if (65 <=? n)%nat && (n <=? 90)%nat then Some (Z.of_nat (n - 55))
  else None.

(** Longest prefix of digits of the radix, most significant first. *)
Fixpoint digits (radix : Z) (acc : option Z) (s : string) : option Z :=
  match s with
  | EmptyString => acc
  | String c s' =>
      match digit_value c with
      | Some d =>
          if d <? radix
          then digits radix
                 (Some (match acc with Some a => a * radix + d | None => d end))
                 s'
          else acc
      | None => acc
      end
  end.

(** [parseInt(s)] without a radix argument; [None] is [NaN]. *)
Definition parseInt (s : string) : option Z :=
  let s1 := trim_start s in
  let '(sign, s2) :=
    match s1 with
    | String "-" r => (-1, r)
    | String "+" r => (1, r)
    | _ => (1, s1)
    end in
  let '(radix, s3) :=
    match s2 with
    | String "0" (String "x" r) => (16, r)
    | String "0" (String "X" r) => (16, r)
    | _ => (10, s2)
    end in
  match digits radix None s3 with
  | Some n => Some (sign * n)
  | None => None
  end.

End JS.
Import JS.

(** ** Types of [types.ts] *)

Module ModelPricing.
Record t : Type := mk { input : Q; output : Q }.
End ModelPricing.

Definition PricingMap : Type := Obj ModelPricing.t.

Module TokenUsage.
Record t : Type := mk { input_tokens : Z; output_tokens : Z }.
End TokenUsage.

Module ModelDetail.
Record t : Type := mk { tokens : option TokenUsage.t }.
End ModelDetail.

Module ModelData.
Record t : Type := mk {
  total_requests : Z;
  total_tokens : Z;
  details : list ModelDetail.t }.
End ModelData.

Module ApiData.
Record t : Type := mk { models : Obj ModelData.t }.
End ApiData.

Module UsageData.
Record t : Type := mk {
  total_requests : Z;
  success_count : Z;
  failure_count : Z;
  total_tokens : Z;
  apis : Obj ApiData.t }.
End UsageData.

Module UsageSnapshot.
Record t : Type := mk {
  id : Z;
  collected_at : Z;
  total_requests : Z;
  success_count : Z;
  failure_count : Z;
  total_tokens : Z;
  cumulative_cost_usd : Q }.
End UsageSnapshot.

Module ModelUsage.
Record t : Type := mk {
  snapshot_id : Z;
  model_name : string;
  estimated_cost_usd : Q;
  request_count : Z;
  input_tokens : Z;
  output_tokens : Z;
  total_tokens : Z;
  api_endpoint : string;
  created_at : Z }.
End ModelUsage.

Module ModelBreakdown.
Record t : Type := mk {
  requests : Z;
  tokens : Z;
  cost : Q;
  input_tokens : Z;
  output_tokens : Z }.
Definition zero : t := mk 0 0 0%Q 0 0.
End ModelBreakdown.

Module EndpointModel.
Record t : Type := mk { requests : Z; tokens : Z; cost : Q }.
Definition zero : t := mk 0 0 0%Q.
End EndpointModel.

Module EndpointBreakdown.
Record t : Type := mk {
  requests : Z;
  tokens : Z;
  cost : Q;
  models : Obj EndpointModel.t }.
Definition zero : t := mk 0 0 0%Q [].
End EndpointBreakdown.

Module DailyStatsBreakdown.
Record t : Type := mk {
  models : Obj ModelBreakdown.t;
  endpoints : Obj EndpointBreakdown.t }.
Definition empty : t := mk [] [].
End DailyStatsBreakdown.

(** [stat_date] is the day number of the ISO date string. *)
Module DailyStats.
Record t : Type := mk {
  stat_date : Z;
  total_requests : Z;
  success_count : Z;
  failure_count : Z;
  total_tokens : Z;
  estimated_cost_usd : Q;
  breakdown : DailyStatsBreakdown.t }.
End DailyStats.

(** What [new Date(str)] makes of a stored timestamp string. *)
Inductive DateValue : Type :=
| Instant (ms : Z)
| InvalidDate.

Module RateLimitConfig.
Record t : Type := mk {
  id : Z;
  model_pattern : string;
  window_minutes : Z;
  reset_strategy : string;
  token_limit : option Z;
  request_limit : option Z;
  reset_anchor_timestamp : option DateValue }.
End RateLimitConfig.

(** The template of [status_label] with the numbers it prints; [LabelNA] is
    the initial value of [updateStatus], which every branch overwrites. *)
Inductive StatusLabel : Type :=
| LabelNA
| LabelTokens (used limit : Z)
| LabelRequests (used limit : Z)
| LabelUsed (usedTokens usedRequests : Z)
| LabelUnlimited.

Module RateLimitStatus.
Record t : Type := mk {
  config_id : Z;
  remaining_tokens : Z;
  remaining_requests : Z;
  used_tokens : Z;
  used_requests : Z;
  percentage : Z;
  status_label : StatusLabel;
  window_start : Z;
  last_updated : Z;
  next_reset : option Z }.
End RateLimitStatus.

Module Config.
Record t : Type := mk { timezoneOffset : Z }.
End Config.

Module UsageCalculation.
Record t : Type := mk { total_tokens : Z; request_count : Z }.
Definition zero : t := mk 0 0.
End UsageCalculation.

Definition SnapshotMap : Type := Obj UsageCalculation.t.

(** ** [pricing.ts] *)

Module Pricing.

(** The built-in table, in the order of the object literal. *)
Definition DEFAULT_PRICING : PricingMap :=
  [ ("gpt-4o", ModelPricing.mk (5 # 2) 10);
    ("gpt-4o-mini", ModelPricing.mk (15 # 100) (6 # 10));
    ("gpt-4-turbo", ModelPricing.mk 10 30);
    ("gpt-4", ModelPricing.mk 30 60);
    ("gpt-3.5-turbo", ModelPricing.mk (1 # 2) (3 # 2));
    ("o1", ModelPricing.mk 15 60);
    ("o1-mini", ModelPricing.mk 3 12);
    ("o1-preview", ModelPricing.mk 15 60);
    ("o3", ModelPricing.mk 15 60);
    ("o3-mini", ModelPricing.mk (11 # 10) (44 # 10));
    ("claude-sonnet-4", ModelPricing.mk 3 15);
    ("claude-4-sonnet", ModelPricing.mk 3 15);
    ("claude-opus-4", ModelPricing.mk 15 75);
    ("claude-4-opus", ModelPricing.mk 15 75);
    ("claude-3-5-sonnet", ModelPricing.mk 3 15);
    ("claude-3.5-sonnet", ModelPricing.mk 3 15);
    ("claude-3-5-haiku", ModelPricing.mk (8 # 10) 4);
    ("claude-3.5-haiku", ModelPricing.mk (8 # 10) 4);
    ("claude-3-sonnet", ModelPricing.mk 3 15);
    ("claude-3-opus", ModelPricing.mk 15 75);
    ("claude-3-haiku", ModelPricing.mk (1 # 4) (5 # 4));
    ("claude-sonnet", ModelPricing.mk 3 15);
    ("claude-opus", ModelPricing.mk 15 75);
    ("claude-haiku", ModelPricing.mk (8 # 10) 4);
    ("gemini-2.5-pro", ModelPricing.mk (5 # 4) 10);
    ("gemini-2.5-flash", ModelPricing.mk (75 # 1000) (3 # 10));
    ("gemini-2.5-flash-preview", ModelPricing.mk (75 # 1000) (3 # 10));
    ("gemini-2.0-flash", ModelPricing.mk (1 # 10) (4 # 10));
    ("gemini-2.0-flash-lite", ModelPricing.mk (75 # 1000) (3 # 10));
    ("gemini-2.0-flash-exp", ModelPricing.mk (1 # 10) (4 # 10));
    ("gemini-1.5-pro", ModelPricing.mk (5 # 4) 5);
    ("gemini-1.5-flash", ModelPricing.mk (75 # 1000) (3 # 10));
    ("_default", ModelPricing.mk (15 # 100) (6 # 10)) ].

(** The literal of the last resort in [findPricingForModel]. *)
Definition fallback_price : ModelPricing.t := ModelPricing.mk (15 # 100) (6 # 10).

(** The loop over [Object.entries(pricing)] looking for a partial match. *)
Fixpoint partialMatch (modelLower : string) (entries : PricingMap)
  : option ModelPricing.t :=
  match entries with
  | [] => None
  | (pattern, prices) :: rest =>
      if String.eqb pattern "_default" then partialMatch modelLower rest
      else if includes pattern modelLower || includes modelLower pattern
           then Some prices
           else partialMatch modelLower rest
  end.

(** What [findPricingForModel] hands back as [pricing]: a row, or a member
    of [Object.prototype], which has no [input] and no [output]. *)
Inductive Found : Type :=
| Priced (p : ModelPricing.t)
| Inherited.

(** The lower-case names that [pricing[modelLower]] finds on the prototype
    of a table that has no such key of its own: [Object.prototype.constructor]
    and [Object.prototype] itself. Every other member of [Object.prototype]
    has a capital letter in its name, and [modelLower] has none. *)
Definition inherited (modelLower : string) : bool :=
  String.eqb modelLower "constructor" || String.eqb modelLower "__proto__".

(** [findPricingForModel(modelName, pricing).pricing]. The test
    [if (pricing[modelLower])] follows the prototype chain, and what it
    finds there is truthy. *)
Definition findPricingForModel (modelName : string) (pricing : PricingMap)
  : Found :=
  let modelLower := toLowerCase modelName in
  match obj_get pricing modelLower with
  | Some p => Priced p
  | None =>
      if inherited modelLower then Inherited
      else
        match partialMatch modelLower pricing with
        | Some p => Priced p
        | None =>
            match obj_get pricing "_default" with
            | Some p => Priced p
            | None => Priced fallback_price
            end
        end
  end.

Definition calculateCost (inputTokens outputTokens : Z) (pricing : ModelPricing.t)
  : Q :=
  (inject_Z inputTokens / 1000000) * ModelPricing.input pricing +
  (inject_Z outputTokens / 1000000) * ModelPricing.output pricing.

End Pricing.

(** ** [db.ts]: the store and its queries *)

Module Db.

(** The five tables. [usage_snapshots] is kept in the reverse of the
    insertion order, the row of the highest id first; [model_usage] is in
    insertion order. *)
Record Store : Type := mkStore {
  usage_snapshots : list UsageSnapshot.t;
  model_usage : list ModelUsage.t;
  daily_stats : list DailyStats.t;
  rate_limit_configs : list RateLimitConfig.t;
  rate_limit_status : list RateLimitStatus.t }.

Definition empty : Store := mkStore [] [] [] [] [].

Definition with_snapshots (s : Store) (l : list UsageSnapshot.t) : Store :=
  mkStore l (model_usage s) (daily_stats s) (rate_limit_configs s)
    (rate_limit_status s).
Definition with_model_usage (s : Store) (l : list ModelUsage.t) : Store :=
  mkStore (usage_snapshots s) l (daily_stats s) (rate_limit_configs s)
    (rate_limit_status s).
Definition with_daily_stats (s : Store) (l : list DailyStats.t) : Store :=
  mkStore (usage_snapshots s) (model_usage s) l (rate_limit_configs s)
    (rate_limit_status s).
Definition with_configs (s : Store) (l : list RateLimitConfig.t) : Store :=
  mkStore (usage_snapshots s) (model_usage s) (daily_stats s) l
    (rate_limit_status s).
Definition with_status (s : Store) (l : list RateLimitStatus.t) : Store :=
  mkStore (usage_snapshots s) (model_usage s) (daily_stats s)
    (rate_limit_configs s) l.

(** The row id of the next snapshot (AUTOINCREMENT, nothing is deleted). *)
Definition next_snapshot_id (s : Store) : Z :=
  Z.of_nat (List.length (usage_snapshots s)) + 1.

(** The column default [CURRENT_TIMESTAMP]: the UTC text
    [YYYY-MM-DD HH:MM:SS] of the clock, which has no fraction of a second.
    A stored timestamp is the time value that text denotes. *)
Definition CURRENT_TIMESTAMP (now : Z) : Z := now / 1000 * 1000.

(** [insertUsageSnapshot] at clock [now]: the new row, with the column
    default in [collected_at], and its id. *)
Definition insertUsageSnapshot (s : Store) (now : Z)
  (total_requests success_count failure_count total_tokens : Z)
  (cumulative_cost_usd : Q) : Z * Store :=
  let id := next_snapshot_id s in
  (id,
   with_snapshots s
     (UsageSnapshot.mk id (CURRENT_TIMESTAMP now) total_requests success_count
        failure_count total_tokens cumulative_cost_usd :: usage_snapshots s)).

Definition updateSnapshotCost (s : Store) (id : Z) (cost : Q) : Store :=
  with_snapshots s
    (map (fun r =>
            if UsageSnapshot.id r =? id
            then UsageSnapshot.mk (UsageSnapshot.id r)
                   (UsageSnapshot.collected_at r)
                   (UsageSnapshot.total_requests r)
                   (UsageSnapshot.success_count r)
                   (UsageSnapshot.failure_count r)
                   (UsageSnapshot.total_tokens r) cost
            else r)
       (usage_snapshots s)).

(** The place of a snapshot in front of the sorted later ones under
    [ORDER BY collected_at DESC]: before the first one that is not after
    it. *)
Fixpoint insert_snapshot (r : UsageSnapshot.t) (l : list UsageSnapshot.t)
  : list UsageSnapshot.t :=
  match l with
  | [] => [r]
  | x :: l' =>
      if UsageSnapshot.collected_at x <=? UsageSnapshot.collected_at r
      then r :: l
      else x :: insert_snapshot r l'
  end.

(** [ORDER BY collected_at DESC] over the table. No index covers
    [collected_at]: the rows are read in the order of their ids and sorted,
    and the snapshots of one second stay in that order, the oldest first. *)
Definition by_collected_at (rows : list UsageSnapshot.t) : list UsageSnapshot.t :=
  fold_right insert_snapshot [] (rev rows).

(** [getLatestSnapshots]: [ORDER BY collected_at DESC LIMIT ?]. *)
Definition getLatestSnapshots (s : Store) (limit : nat) : list UsageSnapshot.t :=
  firstn limit (by_collected_at (usage_snapshots s)).

Definition insertModelUsageBulk (s : Store) (usages : list ModelUsage.t) : Store :=
  with_model_usage s (model_usage s ++ usages).

Definition getModelUsageBySnapshot (s : Store) (snapshotId : Z)
  : list ModelUsage.t :=
  filter (fun r => ModelUsage.snapshot_id r =? snapshotId) (model_usage s).

Definition getDailyStats (s : Store) (date : Z) : option DailyStats.t :=
  find (fun r => DailyStats.stat_date r =? date) (daily_stats s).

Fixpoint upsert_daily (rows : list DailyStats.t) (stats : DailyStats.t)
  : list DailyStats.t :=
  match rows with
  | [] => [stats]
  | r :: rows' =>
      if DailyStats.stat_date r =? DailyStats.stat_date stats
      then stats :: rows'
      else r :: upsert_daily rows' stats
  end.

Definition upsertDailyStats (s : Store) (stats : DailyStats.t) : Store :=
  with_daily_stats s (upsert_daily (daily_stats s) stats).

Definition getAllRateLimitConfigs (s : Store) : list RateLimitConfig.t :=
  rate_limit_configs s.

Definition getRateLimitConfig (s : Store) (id : Z) : option RateLimitConfig.t :=
  find (fun c => RateLimitConfig.id c =? id) (rate_limit_configs s).

Fixpoint upsert_status (rows : list RateLimitStatus.t) (status : RateLimitStatus.t)
  : list RateLimitStatus.t :=
  match rows with
  | [] => [status]
  | r :: rows' =>
      if RateLimitStatus.config_id r =? RateLimitStatus.config_id status
      then status :: rows'
      else r :: upsert_status rows' status
  end.

Definition upsertRateLimitStatus (s : Store) (status : RateLimitStatus.t) : Store :=
  with_status s (upsert_status (rate_limit_status s) status).

Definition getRateLimitStatus (s : Store) (configId : Z)
  : option RateLimitStatus.t :=
  find (fun r => RateLimitStatus.config_id r =? configId) (rate_limit_status s).

Definition updateRateLimitConfigAnchor (s : Store) (configId : Z) (timestamp : Z)
  : Store :=
  with_configs s
    (map (fun c =>
            if RateLimitConfig.id c =? configId
            then RateLimitConfig.mk (RateLimitConfig.id c)
                   (RateLimitConfig.model_pattern c)
                   (RateLimitConfig.window_minutes c)
                   (RateLimitConfig.reset_strategy c)
                   (RateLimitConfig.token_limit c)
                   (RateLimitConfig.request_limit c)
                   (Some (Instant timestamp))
            else c)
       (rate_limit_configs s)).

(** SQLite's [LIKE]: [%] is any run of characters, [_] any one character,
    letters compare without case. *)
Fixpoint like (pattern : string) : string -> bool :=
  match pattern with
  | EmptyString =>
      fun s => match s with EmptyString => true | String _ _ => false end
  | String c p' =>
      if Ascii.eqb c "%"
      then fix star (s : string) : bool :=
             like p' s ||
             match s with
             | EmptyString => false
             | String _ s' => star s'
             end
      else if Ascii.eqb c "_"
      then fun s =>
             match s with
             | EmptyString => false
             | String _ s' => like p' s'
             end
      else fun s =>
             match s with
             | EmptyString => false
             | String d s' =>
                 Ascii.eqb (lower_ascii c) (lower_ascii d) && like p' s'
             end
  end.

Inductive Order : Type := ASC | DESC.

(** The UTC date of a time value as a day number: what the first ten
    characters of a stored timestamp and of [toISOString()] spell (years of
    four digits). *)
Definition dateOf (t : Z) : Z := t / 86400000.

(** [created_at >= ?] and [created_at < ?] with a bound made by
    [toISOString()]. SQLite compares the two texts byte by byte: a stored
    [YYYY-MM-DD HH:MM:SS] with a bound [YYYY-MM-DDTHH:MM:SS.sssZ]. Different
    dates decide the comparison; on one date the eleventh character does,
    and the space of the stored text is below the [T] of the bound. A row is
    thus at or after the bound exactly when its date is after the bound's,
    and before the bound exactly when its date is the bound's or an earlier
    one, whatever the times of day are. *)
Definition textGe (created_at bound : Z) : bool :=
  dateOf bound <? dateOf created_at.
Definition textLt (created_at bound : Z) : bool :=
  dateOf created_at <=? dateOf bound.

Definition before (orderBy : Order) (a b : ModelUsage.t) : bool :=
  match orderBy with
  | ASC => ModelUsage.created_at a <=? ModelUsage.created_at b
  | DESC => ModelUsage.created_at b <=? ModelUsage.created_at a
  end.

(** The place of a row in [idx_model_usage_created_at], the index on
    [created_at DESC] that the queries walk: later rows first, rows of one
    second in the order of their ids. *)
Fixpoint insert_by (r : ModelUsage.t) (l : list ModelUsage.t)
  : list ModelUsage.t :=
  match l with
  | [] => [r]
  | x :: l' =>
      if before DESC r x then r :: l else x :: insert_by r l'
  end.

(** [ORDER BY created_at]: [DESC] walks the index forwards and [ASC] walks
    it backwards, so that rows of one second come in insertion order under
    [DESC] and in the reverse of it under [ASC]. *)
Definition order_by (orderBy : Order) (l : list ModelUsage.t) : list ModelUsage.t :=
  let indexed := fold_right insert_by [] l in
  match orderBy with
  | DESC => indexed
  | ASC => rev indexed
  end.

Definition matchesPattern (pattern : string) (r : ModelUsage.t) : bool :=
  like ("%" ++ pattern ++ "%")%string (ModelUsage.model_name r).

(** [getModelUsageByPattern]; an absent bound or limit is [None], and a
    limit of 0 is no limit. A bound is the [Date] whose [toISOString()] the
    caller passes. *)
Definition getModelUsageByPattern (s : Store) (pattern : string)
  (sinceTime beforeTime : option Z) (orderBy : Order) (limit : option nat)
  : list ModelUsage.t :=
  let selected :=
    filter
      (fun r =>
         matchesPattern pattern r &&
         match sinceTime with
         | Some t => textGe (ModelUsage.created_at r) t
         | None => true
         end &&
         match beforeTime with
         | Some t => textLt (ModelUsage.created_at r) t
         | None => true
         end)
      (model_usage s) in
  let ordered := order_by orderBy selected in
  match limit with
  | Some (S n) => firstn (S n) ordered
  | _ => ordered
  end.

End Db.

(** ** [collector.ts]: the delta engine *)

Module Collector.

Import Db.

(** The five running increments of [calculateDailyDelta]. *)
Record Incs : Type := mkIncs {
  incRequests : Z;
  incSuccess : Z;
  incFailure : Z;
  incTokens : Z;
  incCost : Q }.

(** The per-key delta tuple [dReq, dTok, dCost, dIn, dOut]. *)
Record KeyDelta : Type := mkKeyDelta {
  dReq : Z;
  dTok : Z;
  dCost : Q;
  dIn : Z;
  dOut : Z }.

Definition FALSE_START_COST_THRESHOLD : Q := 10.

(** [getLocalDate]: the day number of the local date. *)
Definition getLocalDate (config : Config.t) (now : Z) : Z :=
  (now + Config.timezoneOffset config * 60 * 60 * 1000) / 86400000.

(** The two [reduce] calls over [details]. *)
Definition sumInputTokens (details : list ModelDetail.t) : Z :=
  fold_left
    (fun sum d =>
       sum + match ModelDetail.tokens d with
             | Some t => TokenUsage.input_tokens t
             | None => 0
             end)
    details 0.

Definition sumOutputTokens (details : list ModelDetail.t) : Z :=
  fold_left
    (fun sum d =>
       sum + match ModelDetail.tokens d with
             | Some t => TokenUsage.output_tokens t
             | None => 0
             end)
    details 0.

(** [calculateCost(inputTok, outputTok, modelPrice)] as the number a stored
    row can hold. On a member of [Object.prototype] the products with the
    missing [input] and [output] are NaN, which no row holds:
    [storeUsageData] leaves before a record of such a cost is read (see
    [costIsNaN]), and the cost stands as 0 in the record. *)
Definition costOf (inputTok outputTok : Z) (modelPrice : Pricing.Found) : Q :=
  match modelPrice with
  | Pricing.Priced p => Pricing.calculateCost inputTok outputTok p
  | Pricing.Inherited => 0%Q
  end.

(** One pushed element of [modelRecords]; [created_at] is the column default
    the row gets when it is inserted at clock [now]. *)
Definition modelRecord (pricing : PricingMap) (snapshotId now : Z)
  (apiEndpoint modelName : string) (modelData : ModelData.t) : ModelUsage.t :=
  let inputTok := sumInputTokens (ModelData.details modelData) in
  let outputTok := sumOutputTokens (ModelData.details modelData) in
  let modelPrice := Pricing.findPricingForModel modelName pricing in
  let cost := costOf inputTok outputTok modelPrice in
  ModelUsage.mk snapshotId modelName cost (ModelData.total_requests modelData)
    inputTok outputTok (ModelData.total_tokens modelData) apiEndpoint
    (CURRENT_TIMESTAMP now).

(** The nested loop over [usage.apis] and [apiData.models]. *)
Definition modelRecordsOf (pricing : PricingMap) (snapshotId now : Z)
  (usage : UsageData.t) : list ModelUsage.t :=
  flat_map
    (fun api : string * ApiData.t =>
       map (fun m : string * ModelData.t =>
              modelRecord pricing snapshotId now (fst api) (fst m) (snd m))
         (ApiData.models (snd api)))
    (UsageData.apis usage).

(** Some [cost] of the nested loop is NaN: the price of some model of the
    report is a member of [Object.prototype]. *)
Definition costIsNaN (pricing : PricingMap) (usage : UsageData.t) : bool :=
  existsb
    (fun api : string * ApiData.t =>
       existsb
         (fun m : string * ModelData.t =>
            match Pricing.findPricingForModel (fst m) pricing with
            | Pricing.Inherited => true
            | Pricing.Priced _ => false
            end)
         (ApiData.models (snd api)))
    (UsageData.apis usage).

(** [totalCost], accumulated record by record. *)
Definition totalCostOf (records : list ModelUsage.t) : Q :=
  fold_left (fun total r => total + ModelUsage.estimated_cost_usd r)%Q records 0%Q.

(** Step 3: the coarse delta, with the upstream-restart reset. *)
Definition coarseDelta (prevSnap : option UsageSnapshot.t)
  (currentRequests currentSuccess currentFailure currentTokens : Z)
  (cumulativeCost totalCost : Q) : Incs :=
  match prevSnap with
  | Some p =>
      let incRequests := currentRequests - UsageSnapshot.total_requests p in
      let incSuccess := currentSuccess - UsageSnapshot.success_count p in
      let incFailure := currentFailure - UsageSnapshot.failure_count p in
      let incTokens := currentTokens - UsageSnapshot.total_tokens p in
      let incCost := (cumulativeCost - UsageSnapshot.cumulative_cost_usd p)%Q in
      if (incRequests <? 0) || (incTokens <? 0)
      then mkIncs currentRequests currentSuccess currentFailure currentTokens
             totalCost
      else mkIncs incRequests incSuccess incFailure incTokens incCost
  | None =>
      mkIncs currentRequests currentSuccess currentFailure currentTokens totalCost
  end.

(** [r.api_endpoint || "unknown"]. *)
Definition endpointOf (r : ModelUsage.t) : string :=
  if String.eqb (ModelUsage.api_endpoint r) "" then "unknown"
  else ModelUsage.api_endpoint r.

Definition keyOf (r : ModelUsage.t) : string :=
  (ModelUsage.model_name r ++ "|" ++ endpointOf r)%string.

(** [prevUsageMap] and [currUsageMap]. *)
Definition usageMap (records : list ModelUsage.t) : Obj ModelUsage.t :=
  fold_left (fun m r => obj_set m (keyOf r) r) records [].

Definition allKeys (prevUsageMap currUsageMap : Obj ModelUsage.t) : list string :=
  set_of (obj_keys prevUsageMap ++ obj_keys currUsageMap).

(** [rec?.field || 0]. *)
Definition fieldZ (r : option ModelUsage.t) (f : ModelUsage.t -> Z) : Z :=
  match r with Some x => f x | None => 0 end.
Definition fieldQ (r : option ModelUsage.t) (f : ModelUsage.t -> Q) : Q :=
  match r with Some x => f x | None => 0%Q end.

Definition currentTuple (curr : option ModelUsage.t) : KeyDelta :=
  mkKeyDelta (fieldZ curr ModelUsage.request_count)
    (fieldZ curr ModelUsage.total_tokens)
    (fieldQ curr ModelUsage.estimated_cost_usd)
    (fieldZ curr ModelUsage.input_tokens)
    (fieldZ curr ModelUsage.output_tokens).

(** The delta tuple of one key after granular restart detection. *)
Definition keyDelta (prev curr : option ModelUsage.t) : KeyDelta :=
  let p := currentTuple prev in
  let c := currentTuple curr in
  let d := mkKeyDelta (dReq c - dReq p) (dTok c - dTok p) (dCost c - dCost p)%Q
             (dIn c - dIn p) (dOut c - dOut p) in
  if (dReq d <? 0) || (dTok d <? 0) then c else d.

(** The false-start test on a delta and the key's current cost. *)
Definition isFalseStart (d : KeyDelta) (cCost : Q) : bool :=
  Qlt_bool FALSE_START_COST_THRESHOLD (dCost d) &&
  Qlt_bool (Qabs (dCost d - cCost)) (1 # 10).

Definition addToModel (d : KeyDelta) (m : ModelBreakdown.t) : ModelBreakdown.t :=
  ModelBreakdown.mk (ModelBreakdown.requests m + dReq d)
    (ModelBreakdown.tokens m + dTok d)
    (ModelBreakdown.cost m + dCost d)%Q
    (ModelBreakdown.input_tokens m + dIn d)
    (ModelBreakdown.output_tokens m + dOut d).

Definition addToEndpointModel (d : KeyDelta) (m : EndpointModel.t)
  : EndpointModel.t :=
  EndpointModel.mk (EndpointModel.requests m + dReq d)
    (EndpointModel.tokens m + dTok d) (EndpointModel.cost m + dCost d)%Q.

Definition addToEndpoint (modelName : string) (d : KeyDelta)
  (e : EndpointBreakdown.t) : EndpointBreakdown.t :=
  EndpointBreakdown.mk (EndpointBreakdown.requests e + dReq d)
    (EndpointBreakdown.tokens e + dTok d)
    (EndpointBreakdown.cost e + dCost d)%Q
    (obj_upd (EndpointBreakdown.models e) modelName (addToEndpointModel d)
       EndpointModel.zero).

(** "Add to Models", "Add to Endpoints" and the nested models of the
    endpoint, as both branches of the source do it. *)
Definition addDelta (bd : DailyStatsBreakdown.t) (modelName endpoint : string)
  (d : KeyDelta) : DailyStatsBreakdown.t :=
  DailyStatsBreakdown.mk
    (obj_upd (DailyStatsBreakdown.models bd) modelName (addToModel d)
       ModelBreakdown.zero)
    (obj_upd (DailyStatsBreakdown.endpoints bd) endpoint
       (addToEndpoint modelName d) EndpointBreakdown.zero).

Definition subtractSkipped (inc : Incs) (d : KeyDelta) : Incs :=
  mkIncs (incRequests inc - dReq d) (incSuccess inc) (incFailure inc)
    (incTokens inc - dTok d) (incCost inc - dCost d)%Q.

(** The body of [for (const key of allKeys)]. *)
Definition granularStep (prevUsageMap currUsageMap : Obj ModelUsage.t)
  (acc : Incs * DailyStatsBreakdown.t) (key : string)
  : Incs * DailyStatsBreakdown.t :=
  let prev := obj_get prevUsageMap key in
  let curr := obj_get currUsageMap key in
  let cCost := fieldQ curr ModelUsage.estimated_cost_usd in
  let d := keyDelta prev curr in
  if isFalseStart d cCost then (subtractSkipped (fst acc) d, snd acc)
  else if (0 <? dReq d) || Qlt_bool 0 (dCost d)
       then let parts := split "|" key in
            (fst acc, addDelta (snd acc) (at_index parts 0) (at_index parts 1) d)
       else acc.

(** Step 4 and 5 when a previous snapshot exists. *)
Definition granularDeltas (prevUsageRecords modelRecords : list ModelUsage.t)
  (inc : Incs) : Incs * DailyStatsBreakdown.t :=
  let prevUsageMap := usageMap prevUsageRecords in
  let currUsageMap := usageMap modelRecords in
  fold_left (granularStep prevUsageMap currUsageMap)
    (allKeys prevUsageMap currUsageMap) (inc, DailyStatsBreakdown.empty).

(** "First snapshot ever - treat current as delta". *)
Definition firstSnapshotDeltas (modelRecords : list ModelUsage.t)
  : DailyStatsBreakdown.t :=
  fold_left
    (fun bd r =>
       addDelta bd (ModelUsage.model_name r) (endpointOf r)
         (currentTuple (Some r)))
    modelRecords DailyStatsBreakdown.empty.

Definition sumCost (ms : Obj ModelBreakdown.t) : Q :=
  fold_left (fun sum m => sum + ModelBreakdown.cost m)%Q (obj_values ms) 0%Q.
Definition sumTokens (ms : Obj ModelBreakdown.t) : Z :=
  fold_left (fun sum m => sum + ModelBreakdown.tokens m) (obj_values ms) 0.
Definition sumRequests (ms : Obj ModelBreakdown.t) : Z :=
  fold_left (fun sum m => sum + ModelBreakdown.requests m) (obj_values ms) 0.

(** Step 6: scale success and failure, then let the breakdown sums override
    the global increments. *)
Definition reconcile (hasPrev : bool) (inc : Incs)
  (breakdownDeltas : DailyStatsBreakdown.t) : Incs :=
  let safeIncCost := sumCost (DailyStatsBreakdown.models breakdownDeltas) in
  let safeIncTokens := sumTokens (DailyStatsBreakdown.models breakdownDeltas) in
  let safeIncRequests := sumRequests (DailyStatsBreakdown.models breakdownDeltas) in
  if hasPrev then
    let ratio := (inject_Z safeIncRequests / inject_Z (incRequests inc))%Q in
    let scaled := (0 <? incRequests inc) && Qlt_bool ratio (99 # 100) in
    mkIncs safeIncRequests
      (if scaled then Math_floor (inject_Z (incSuccess inc) * ratio)
       else incSuccess inc)
      (if scaled then Math_floor (inject_Z (incFailure inc) * ratio)
       else incFailure inc)
      safeIncTokens safeIncCost
  else inc.

Definition mergeModel (data existing : ModelBreakdown.t) : ModelBreakdown.t :=
  ModelBreakdown.mk
    (ModelBreakdown.requests existing + ModelBreakdown.requests data)
    (ModelBreakdown.tokens existing + ModelBreakdown.tokens data)
    (ModelBreakdown.cost existing + ModelBreakdown.cost data)%Q
    (ModelBreakdown.input_tokens existing + ModelBreakdown.input_tokens data)
    (ModelBreakdown.output_tokens existing + ModelBreakdown.output_tokens data).

(** "Merge Models". *)
Definition mergeModels (existing deltas : Obj ModelBreakdown.t)
  : Obj ModelBreakdown.t :=
  fold_left
    (fun ex md => obj_upd ex (fst md) (mergeModel (snd md)) ModelBreakdown.zero)
    deltas existing.

Definition mergeEndpointModel (mData existing : EndpointModel.t)
  : EndpointModel.t :=
  EndpointModel.mk
    (EndpointModel.requests existing + EndpointModel.requests mData)
    (EndpointModel.tokens existing + EndpointModel.tokens mData)
    (EndpointModel.cost existing + EndpointModel.cost mData)%Q.

Definition mergeEndpoint (data existing : EndpointBreakdown.t)
  : EndpointBreakdown.t :=
  EndpointBreakdown.mk
    (EndpointBreakdown.requests existing + EndpointBreakdown.requests data)
    (EndpointBreakdown.tokens existing + EndpointBreakdown.tokens data)
    (EndpointBreakdown.cost existing + EndpointBreakdown.cost data)%Q
    (fold_left
       (fun ex md =>
          obj_upd ex (fst md) (mergeEndpointModel (snd md)) EndpointModel.zero)
       (EndpointBreakdown.models data) (EndpointBreakdown.models existing)).

(** "Merge Endpoints". *)
Definition mergeEndpoints (existing deltas : Obj EndpointBreakdown.t)
  : Obj EndpointBreakdown.t :=
  fold_left
    (fun ex ed =>
       obj_upd ex (fst ed) (mergeEndpoint (snd ed)) EndpointBreakdown.zero)
    deltas existing.

Definition mergeBreakdown (existing deltas : DailyStatsBreakdown.t)
  : DailyStatsBreakdown.t :=
  DailyStatsBreakdown.mk
    (mergeModels (DailyStatsBreakdown.models existing)
       (DailyStatsBreakdown.models deltas))
    (mergeEndpoints (DailyStatsBreakdown.endpoints existing)
       (DailyStatsBreakdown.endpoints deltas)).

(** Step 7: the row written by [upsertDailyStats]. *)
Definition dailyData (todayIso : Z) (existingDaily : option DailyStats.t)
  (inc : Incs) (breakdownDeltas : DailyStatsBreakdown.t) : DailyStats.t :=
  let existingBreakdown :=
    match existingDaily with
    | Some e => DailyStats.breakdown e
    | None => DailyStatsBreakdown.empty
    end in
  let merged := mergeBreakdown existingBreakdown breakdownDeltas in
  let existingZ (f : DailyStats.t -> Z) :=
    match existingDaily with Some e => f e | None => 0 end in
  let existingCost :=
    match existingDaily with
    | Some e => DailyStats.estimated_cost_usd e
    | None => 0%Q
    end in
  let totalCostFromBreakdown := sumCost (DailyStatsBreakdown.models merged) in
  let totalTokensFromBreakdown := sumTokens (DailyStatsBreakdown.models merged) in
  let totalRequestsFromBreakdown :=
    sumRequests (DailyStatsBreakdown.models merged) in
  let finalCost :=
    if Qlt_bool 0 totalCostFromBreakdown then totalCostFromBreakdown
    else (existingCost + incCost inc)%Q in
  let finalTokens :=
    if 0 <? totalTokensFromBreakdown then totalTokensFromBreakdown
    else existingZ DailyStats.total_tokens + incTokens inc in
  let finalRequests :=
    if 0 <? totalRequestsFromBreakdown then totalRequestsFromBreakdown
    else existingZ DailyStats.total_requests + incRequests inc in
  DailyStats.mk todayIso finalRequests
    (existingZ DailyStats.success_count + incSuccess inc)
    (existingZ DailyStats.failure_count + incFailure inc)
    finalTokens finalCost merged.

(** [calculateDailyDelta], run after the new snapshot and its rows are in
    the store. *)
Definition calculateDailyDelta (config : Config.t) (now : Z) (s : Store)
  (currentRequests currentSuccess currentFailure currentTokens : Z)
  (cumulativeCost totalCost : Q) (modelRecords : list ModelUsage.t) : Store :=
  let todayIso := getLocalDate config now in
  let prevSnap := nth_error (getLatestSnapshots s 2) 1 in
  let inc0 :=
    coarseDelta prevSnap currentRequests currentSuccess currentFailure
      currentTokens cumulativeCost totalCost in
  let '(inc1, breakdownDeltas) :=
    match prevSnap with
    | Some p =>
        granularDeltas (getModelUsageBySnapshot s (UsageSnapshot.id p))
          modelRecords inc0
    | None => (inc0, firstSnapshotDeltas modelRecords)
    end in
  let inc2 :=
    reconcile (match prevSnap with Some _ => true | None => false end)
      inc1 breakdownDeltas in
  upsertDailyStats s
    (dailyData todayIso (getDailyStats s todayIso) inc2 breakdownDeltas).

(** [storeUsageData] at clock [now]: [None] is a response without [usage].
    A NaN cost is bound as NULL and [estimated_cost_usd] is NOT NULL:
    [insertModelUsageBulk] throws, its transaction is rolled back, and the
    [catch] returns false with the new snapshot, under its placeholder cost,
    as the only row written. *)
Definition storeUsageData (config : Config.t) (pricing : PricingMap) (now : Z)
  (s : Store) (data : option UsageData.t) : bool * Store :=
  match data with
  | None => (false, s)
  | Some usage =>
      let currentRequests := UsageData.total_requests usage in
      let currentSuccess := UsageData.success_count usage in
      let currentFailure := UsageData.failure_count usage in
      let currentTokens := UsageData.total_tokens usage in
      let lastCostTotal :=
        match getLatestSnapshots s 1 with
        | latest :: _ => UsageSnapshot.cumulative_cost_usd latest
        | [] => 0%Q
        end in
      let '(snapshotId, s1) :=
        insertUsageSnapshot s now currentRequests currentSuccess currentFailure
          currentTokens lastCostTotal in
      let modelRecords := modelRecordsOf pricing snapshotId now usage in
      if costIsNaN pricing usage then (false, s1)
      else
        let totalCost := totalCostOf modelRecords in
        let s2 := insertModelUsageBulk s1 modelRecords in
        let cumulativeCost := (lastCostTotal + totalCost)%Q in
        let s3 := updateSnapshotCost s2 snapshotId cumulativeCost in
        (true,
         calculateDailyDelta config now s3 currentRequests currentSuccess
           currentFailure currentTokens cumulativeCost totalCost modelRecords)
  end.

End Collector.


(** ** [rate-limiter.ts]: the reconciler *)

Module RateLimiter.

Import Db.

Definition GAP_THRESHOLD_SECONDS : Q := 1800.
Definition FALSE_START_TOKEN_THRESHOLD : Z := 100000.

Definition msPerMinute : Z := 60000.
Definition msPerDay : Z := 86400000.

(** The [Date] methods the reconciler calls. *)
Definition setHours0 (d : Z) : Z := d - d mod msPerDay.
Definition getDay (d : Z) : Z := (d / msPerDay + 4) mod 7.
Definition addDays (d n : Z) : Z := d + n * msPerDay.
Definition addMinutes (d n : Z) : Z := d + n * msPerMinute.

Definition getLocalDateTime (config : Config.t) (now : Z) : Z :=
  now + Config.timezoneOffset config * 60 * 60 * 1000.

(** [calculatedWindowStart] and [nextReset] of a strategy; [None] is the
    unsupported strategy. *)
Definition naturalWindow (resetStrategy : string) (windowMinutes now : Z)
  : option (Z * Z) :=
  if String.eqb resetStrategy "daily" then
    let calculatedWindowStart := setHours0 now in
    Some (calculatedWindowStart, addDays calculatedWindowStart 1)
  else if String.eqb resetStrategy "weekly" then
    let startOfToday := setHours0 now in
    let daysSinceMonday :=
      if getDay startOfToday =? 0 then 6 else getDay startOfToday - 1 in
    let calculatedWindowStart := addDays startOfToday (- daysSinceMonday) in
    Some (calculatedWindowStart, addDays calculatedWindowStart 7)
  else if String.eqb resetStrategy "rolling" then
    Some (addMinutes now (- windowMinutes), addMinutes now 1)
  else None.

(** "Adjust window_start if a manual reset has occurred". *)
Definition effectiveWindowStart (calculatedWindowStart : Z)
  (resetAnchor : option DateValue) : Z :=
  match resetAnchor with
  | Some (Instant resetAnchorDt) =>
      if calculatedWindowStart <? resetAnchorDt then resetAnchorDt
      else calculatedWindowStart
  | Some InvalidDate => calculatedWindowStart
  | None => calculatedWindowStart
  end.

Definition addRecord (rec : ModelUsage.t) (e : UsageCalculation.t)
  : UsageCalculation.t :=
  UsageCalculation.mk
    (UsageCalculation.total_tokens e + ModelUsage.total_tokens rec)
    (UsageCalculation.request_count e + ModelUsage.request_count rec).

Definition buildSnapshotMap (s : Store) (modelPattern : string) (snapshotTime : Z)
  : SnapshotMap :=
  fold_left
    (fun snapshotMap rec =>
       if ModelUsage.created_at rec =? snapshotTime
       then obj_upd snapshotMap (ModelUsage.model_name rec) (addRecord rec)
              UsageCalculation.zero
       else snapshotMap)
    (getModelUsageByPattern s modelPattern None None DESC None) [].

Definition interpolateRecord (baselineMap firstInnerMap : SnapshotMap)
  (ratio : Q) (modelName : string) : UsageCalculation.t :=
  let baselineRec :=
    match obj_get baselineMap modelName with
    | Some r => r
    | None => UsageCalculation.zero
    end in
  let innerRec :=
    match obj_get firstInnerMap modelName with
    | Some r => r
    | None => baselineRec
    end in
  let startTokens := UsageCalculation.total_tokens baselineRec in
  let endTokens := UsageCalculation.total_tokens innerRec in
  let startRequests := UsageCalculation.request_count baselineRec in
  let endRequests := UsageCalculation.request_count innerRec in
  let interpTokens :=
    (inject_Z startTokens + ratio * inject_Z (endTokens - startTokens))%Q in
  let interpRequests :=
    (inject_Z startRequests + ratio * inject_Z (endRequests - startRequests))%Q in
  UsageCalculation.mk (Math_round interpTokens) (Math_round interpRequests).

Definition interpolateSnapshotMap (baselineMap firstInnerMap : SnapshotMap)
  (ratio : Q) : SnapshotMap :=
  fold_left
    (fun interpolated modelName =>
       obj_set interpolated modelName
         (interpolateRecord baselineMap firstInnerMap ratio modelName))
    (set_of (obj_keys baselineMap ++ obj_keys firstInnerMap)) [].

(** The body of the loop of [calculateDeltaFromSnapshots]. *)
Definition deltaStep (currentMap baselineMap : SnapshotMap)
  (acc : UsageCalculation.t) (modelName : string) : UsageCalculation.t :=
  let currentRec :=
    match obj_get currentMap modelName with
    | Some r => r
    | None => UsageCalculation.zero
    end in
  let baselineRec :=
    match obj_get baselineMap modelName with
    | Some r => r
    | None => UsageCalculation.zero
    end in
  let currentTokens := UsageCalculation.total_tokens currentRec in
  let currentReqs := UsageCalculation.request_count currentRec in
  let baselineTokens := UsageCalculation.total_tokens baselineRec in
  let baselineReqs := UsageCalculation.request_count baselineRec in
  let restart :=
    (currentTokens - baselineTokens <? 0) || (currentReqs - baselineReqs <? 0) in
  let deltaTokens := if restart then currentTokens else currentTokens - baselineTokens in
  let deltaReqs := if restart then currentReqs else currentReqs - baselineReqs in
  let isNewModel :=
    match obj_get baselineMap modelName with
    | None => true
    | Some _ => (baselineTokens =? 0) && (baselineReqs =? 0)
    end in
  if isNewModel && (FALSE_START_TOKEN_THRESHOLD <? deltaTokens) &&
     ((baselineTokens =? 0) || (Z.abs (deltaTokens - currentTokens) <? 100))
  then acc
  else UsageCalculation.mk
         (UsageCalculation.total_tokens acc + Z.max 0 deltaTokens)
         (UsageCalculation.request_count acc + Z.max 0 deltaReqs).

Definition calculateDeltaFromSnapshots (s : Store) (modelPattern : string)
  (latestTime baselineTime : Z) (baselineOverride : option SnapshotMap)
  : UsageCalculation.t :=
  let currentMap := buildSnapshotMap s modelPattern latestTime in
  let baselineMap :=
    match baselineOverride with
    | Some m => m
    | None => buildSnapshotMap s modelPattern baselineTime
    end in
  fold_left (deltaStep currentMap baselineMap)
    (set_of (obj_keys currentMap ++ obj_keys baselineMap))
    UsageCalculation.zero.

Definition firstTime (rows : list ModelUsage.t) : option Z :=
  match rows with
  | r :: _ => Some (ModelUsage.created_at r)
  | [] => None
  end.

(** The interpolation ratio of the gap branch. *)
Definition gapRatio (since baselineTime firstInnerTime : Z) : Q :=
  let gapSeconds := (inject_Z (firstInnerTime - baselineTime) / 1000)%Q in
  let ratioSeconds := (inject_Z (since - baselineTime) / 1000)%Q in
  let windowSpan := if Qlt_bool 0 gapSeconds then gapSeconds else 1%Q in
  Qmax 0 (Qmin 1 (ratioSeconds / windowSpan)).

Definition calculateUsage (s : Store) (modelPattern : string) (since : Z)
  : UsageCalculation.t :=
  match firstTime (getModelUsageByPattern s modelPattern None None DESC (Some 1%nat)) with
  | None => UsageCalculation.zero
  | Some latestTime =>
      if latestTime <? since then UsageCalculation.zero
      else
        let firstInnerSnapshotTime :=
          firstTime
            (getModelUsageByPattern s modelPattern (Some since) None ASC
               (Some 1%nat)) in
        let baselineTime :=
          firstTime
            (getModelUsageByPattern s modelPattern None (Some since) DESC
               (Some 1%nat)) in
        match baselineTime, firstInnerSnapshotTime with
        | None, None => UsageCalculation.zero
        | None, Some firstInner =>
            calculateDeltaFromSnapshots s modelPattern latestTime firstInner None
        | Some baseline, Some firstInner =>
            let gapSeconds := (inject_Z (firstInner - baseline) / 1000)%Q in
            if Qlt_bool GAP_THRESHOLD_SECONDS gapSeconds
            then
              let ratio := gapRatio since baseline firstInner in
              let baselineMap := buildSnapshotMap s modelPattern baseline in
              let firstInnerMap := buildSnapshotMap s modelPattern firstInner in
              let interpolatedMap :=
                interpolateSnapshotMap baselineMap firstInnerMap ratio in
              calculateDeltaFromSnapshots s modelPattern latestTime baseline
                (Some interpolatedMap)
            else
              calculateDeltaFromSnapshots s modelPattern latestTime baseline None
        | Some baseline, None =>
            calculateDeltaFromSnapshots s modelPattern latestTime baseline None
        end
  end.

Definition positiveLimit (limit : option Z) : option Z :=
  match limit with
  | Some l => if 0 <? l then Some l else None
  | None => None
  end.

Definition clampPercentage (percentage : Z) : Z :=
  Z.max 0 (Z.min 100 percentage).

(** The row [updateStatus] upserts. *)
Definition statusOf (now configId usedTokens usedRequests windowStart : Z)
  (nextReset : option Z) (tokenLimit requestLimit : option Z)
  : RateLimitStatus.t :=
  match positiveLimit tokenLimit, positiveLimit requestLimit with
  | Some tl, _ =>
      let remTokens := Z.max 0 (tl - usedTokens) in
      let percentage :=
        Math_floor (inject_Z remTokens / inject_Z tl * 100) in
      RateLimitStatus.mk configId remTokens 0 usedTokens usedRequests
        (clampPercentage percentage) (LabelTokens usedTokens tl) windowStart now
        nextReset
  | None, Some rl =>
      let remRequests := Z.max 0 (rl - usedRequests) in
      let percentage :=
        Math_floor (inject_Z remRequests / inject_Z rl * 100) in
      RateLimitStatus.mk configId 0 remRequests usedTokens usedRequests
        (clampPercentage percentage) (LabelRequests usedRequests rl) windowStart
        now nextReset
  | None, None =>
      RateLimitStatus.mk configId 0 0 usedTokens usedRequests
        (clampPercentage 100) (LabelUsed usedTokens usedRequests) windowStart now
        nextReset
  end.

Definition updateStatus (config : Config.t) (now : Z) (s : Store)
  (configId usedTokens usedRequests windowStart : Z) (nextReset : option Z)
  (tokenLimit requestLimit : option Z) : Store :=
  upsertRateLimitStatus s
    (statusOf (getLocalDateTime config now) configId usedTokens usedRequests
       windowStart nextReset tokenLimit requestLimit).

(** The guard "Skipping incomplete config". *)
Definition incomplete (c : RateLimitConfig.t) : bool :=
  (RateLimitConfig.id c =? 0) ||
  String.eqb (RateLimitConfig.model_pattern c) "" ||
  (RateLimitConfig.window_minutes c =? 0) ||
  String.eqb (RateLimitConfig.reset_strategy c) "".

(** [processConfig] at UTC instant [now]. *)
Definition processConfig (config : Config.t) (now : Z) (s : Store)
  (c : RateLimitConfig.t) : Store :=
  if incomplete c then s
  else
    match naturalWindow (RateLimitConfig.reset_strategy c)
            (RateLimitConfig.window_minutes c) (getLocalDateTime config now) with
    | None => s
    | Some (calculatedWindowStart, nextReset) =>
        let windowStart :=
          effectiveWindowStart calculatedWindowStart
            (RateLimitConfig.reset_anchor_timestamp c) in
        let usage := calculateUsage s (RateLimitConfig.model_pattern c) windowStart in
        updateStatus config now s (RateLimitConfig.id c)
          (UsageCalculation.total_tokens usage)
          (UsageCalculation.request_count usage) windowStart (Some nextReset)
          (RateLimitConfig.token_limit c) (RateLimitConfig.request_limit c)
    end.

(** [syncLimits]: every configuration in turn. *)
Definition syncLimits (config : Config.t) (now : Z) (s : Store) : Store :=
  fold_left (processConfig config now) (getAllRateLimitConfigs s) s.

(** Where a store operation of [resetLimit] throws, if it does. *)
Inductive DbFault : Type :=
| NoFault
| GetConfigFails
| UpsertStatusFails
| UpdateAnchorFails.

Record ResetResult : Type := mkResetResult {
  success : bool;
  message : string;
  newStatus : option (Z * StatusLabel) }.

Definition decimal (n : Z) : string := NilZero.string_of_int (Z.to_int n).

Definition internalError : ResetResult :=
  mkResetResult false "An internal error occurred." None.

Definition resetLabel (tokenLimit requestLimit : Z) : StatusLabel :=
  if 0 <? tokenLimit then LabelTokens 0 tokenLimit
  else if 0 <? requestLimit then LabelRequests 0 requestLimit
  else LabelUnlimited.

Definition orZero (limit : option Z) : Z :=
  match limit with Some l => l | None => 0 end.

Definition resetLimit (config : Config.t) (fault : DbFault) (now : Z) (s : Store)
  (configId : Z) : ResetResult * Store :=
  match fault with
  | GetConfigFails => (internalError, s)
  | _ =>
      match getRateLimitConfig s configId with
      | None =>
          (mkResetResult false
             ("Configuration with id " ++ decimal configId ++ " not found.")%string
             None,
           s)
      | Some c =>
          let tokenLimit := orZero (RateLimitConfig.token_limit c) in
          let requestLimit := orZero (RateLimitConfig.request_limit c) in
          let label := resetLabel tokenLimit requestLimit in
          let currentTime := getLocalDateTime config now in
          let statusData :=
            RateLimitStatus.mk configId tokenLimit requestLimit 0 0 100 label
              currentTime currentTime None in
          match fault with
          | UpsertStatusFails => (internalError, s)
          | _ =>
              let s1 := upsertRateLimitStatus s statusData in
              match fault with
              | UpdateAnchorFails => (internalError, s1)
              | _ =>
                  (mkResetResult true
                     ("Successfully reset rate limit for config id " ++
                      decimal configId ++ ".")%string
                     (Some (100, label)),
                   updateRateLimitConfigAnchor s1 configId currentTime)
              end
          end
      end
  end.

End RateLimiter.

(** ** [scheduler.ts], [index.ts] and the control routes of [server.ts] *)

Module Scheduler.

(** The scheduler and the passes it shares the event loop with. [intervalId]
    holds the time at which the interval timer fires next; [inFlight] counts
    the calls of [runFullSync] whose promise has not settled yet, [started]
    all calls so far. *)
Record t : Type := mk {
  intervalId : option Z;
  intervalMs : Z;
  inFlight : nat;
  started : nat }.

(** [new Scheduler(intervalSeconds, task)]. *)
Definition create (intervalSeconds : Z) : t := mk None (intervalSeconds * 1000) 0 0.

(** A call of [task()], that is of [runFullSync()]: the pass begins at once
    and its promise is pending. *)
Definition callTask (sch : t) : t :=
  mk (intervalId sch) (intervalMs sch) (S (inFlight sch)) (S (started sch)).

(** [start()] at time [now]. *)
Definition start (now : Z) (sch : t) : t :=
  match intervalId sch with
  | Some _ => sch
  | None =>
      let sch' := callTask sch in
      mk (Some (now + intervalMs sch')) (intervalMs sch') (inFlight sch')
        (started sch')
  end.

(** The callback of [setInterval] runs; the timer is re-armed one interval
    after the time it fired at. *)
Definition tick (sch : t) : t :=
  match intervalId sch with
  | Some fireAt =>
      let sch' := callTask sch in
      mk (Some (fireAt + intervalMs sch')) (intervalMs sch') (inFlight sch')
        (started sch')
  | None => sch
  end.

(** [stop()]. *)
Definition stop (sch : t) : t :=
  mk None (intervalMs sch) (inFlight sch) (started sch).

(** The promise of one pass settles. *)
Definition settle (sch : t) : t :=
  mk (intervalId sch) (intervalMs sch) (Nat.pred (inFlight sch)) (started sch).

End Scheduler.

Module Server.

Import Db RateLimiter.

Inductive Body : Type :=
| HealthBody
| MessageBody (message : string)
| ErrorBody (error : string)
| ResetBody (message : string) (new_status : option (Z * StatusLabel)).

Record Response : Type := mkResponse { status : Z; body : Body }.

(** [POST /api/collector/trigger]. *)
Definition postTrigger (sch : Scheduler.t) : Response * Scheduler.t :=
  (mkResponse 202
     (MessageBody "Full data collection and rate limit sync process triggered."),
   Scheduler.callTask sch).

(** [POST /api/collector/reset/:config_id]. *)
Definition postReset (config : Config.t) (fault : DbFault) (now : Z) (s : Store)
  (config_id : string) : Response * Store :=
  match parseInt config_id with
  | None => (mkResponse 400 (ErrorBody "Invalid config_id"), s)
  | Some configId =>
      let result := resetLimit config fault now s configId in
      if success (fst result)
      then (mkResponse 200
              (ResetBody (message (fst result)) (newStatus (fst result))),
            snd result)
      else (mkResponse
              (if includes (message (fst result)) "not found" then 404 else 500)
              (ErrorBody (message (fst result))),
            snd result)
  end.

(** What reaches the event loop. *)
Inductive Event : Type :=
| Start (now : Z)
| TimerFires
| Trigger
| PassSettles
| Stop.

Definition handle (sch : Scheduler.t) (e : Event) : Scheduler.t :=
  match e with
  | Start now => Scheduler.start now sch
  | TimerFires => Scheduler.tick sch
  | Trigger => snd (postTrigger sch)
  | PassSettles => Scheduler.settle sch
  | Stop => Scheduler.stop sch
  end.

Definition run (sch : Scheduler.t) (events : list Event) : Scheduler.t :=
  fold_left handle events sch.

End Server.

(** ** Runs of the delta engine, and the vocabulary of the properties *)

Module Runs.

Import Db Collector.

(** One pass of [storeUsageData] on a report. *)
Definition pass (config : Config.t) (pricing : PricingMap) (now : Z) (s : Store)
  (usage : UsageData.t) : Store :=
  snd (storeUsageData config pricing now s (Some usage)).

(** [lastCostTotal]: [cumulative_cost_usd] of the snapshot that
    [getLatestSnapshots(1)] returns, 0 when there is none. *)
Definition lastCostTotal (s : Store) : Q :=
  match getLatestSnapshots s 1 with
  | latest :: _ => UsageSnapshot.cumulative_cost_usd latest
  | [] => 0%Q
  end.

(** The cost of a whole report under a pricing table. *)
Definition reportCost (pricing : PricingMap) (usage : UsageData.t) : Q :=
  totalCostOf (modelRecordsOf pricing 0 0 usage).

(** Row ids are the ones AUTOINCREMENT hands out. *)
Definition StoreOk (s : Store) : Prop :=
  (forall x, In x (usage_snapshots s) ->
     UsageSnapshot.id x <= Z.of_nat (List.length (usage_snapshots s))) /\
  (forall r, In r (model_usage s) ->
     ModelUsage.snapshot_id r <= Z.of_nat (List.length (usage_snapshots s))) /\
  (forall x rest, usage_snapshots s = x :: rest ->
     UsageSnapshot.id x = Z.of_nat (List.length (usage_snapshots s))) /\
  (usage_snapshots s = [] -> daily_stats s = []).

Definition pricingNonneg (pricing : PricingMap) : Prop :=
  forall k p, In (k, p) pricing ->
    (0 <= ModelPricing.input p)%Q /\ (0 <= ModelPricing.output p)%Q.

Definition detailNonneg (d : ModelDetail.t) : Prop :=
  match ModelDetail.tokens d with
  | Some t => 0 <= TokenUsage.input_tokens t /\ 0 <= TokenUsage.output_tokens t
  | None => True
  end.

(** The model entries of a report, endpoint by endpoint. *)
Definition modelsOf (usage : UsageData.t) : list ModelData.t :=
  flat_map (fun api : string * ApiData.t => map snd (ApiData.models (snd api)))
    (UsageData.apis usage).

Definition tokensNonneg (usage : UsageData.t) : Prop :=
  forall m d, In m (modelsOf usage) -> In d (ModelData.details m) -> detailNonneg d.






(** The counters of a daily row, 0 for a date without a row. *)
Definition requestsOn (s : Store) (date : Z) : Z :=
  match getDailyStats s date with
  | Some d => DailyStats.total_requests d
  | None => 0
  end.
Definition tokensOn (s : Store) (date : Z) : Z :=
  match getDailyStats s date with
  | Some d => DailyStats.total_tokens d
  | None => 0
  end.
Definition costOn (s : Store) (date : Z) : Q :=
  match getDailyStats s date with
  | Some d => DailyStats.estimated_cost_usd d
  | None => 0%Q
  end.


(** The rows of the snapshot stored last. *)
Definition latestRecords (s : Store) : list ModelUsage.t :=
  match usage_snapshots s with
  | latest :: _ => getModelUsageBySnapshot s (UsageSnapshot.id latest)
  | [] => []
  end.



(** The sum of one field over the values of a dictionary. *)
Definition sumZby {V : Type} (g : V -> Z) (o : Obj V) : Z :=
  fold_left (fun sum m => sum + g m) (obj_values o) 0.

Definition sumQby {V : Type} (g : V -> Q) (o : Obj V) : Q :=
  fold_left (fun sum m => sum + g m)%Q (obj_values o) 0%Q.

Definition passRecords (pricing : PricingMap) (now : Z) (s : Store)
  (usage : UsageData.t) : list ModelUsage.t :=
  modelRecordsOf pricing (next_snapshot_id s) now usage.

(** The snapshot row of a stored report. *)
Definition passSnapshot (pricing : PricingMap) (now : Z) (s : Store)
  (usage : UsageData.t) : UsageSnapshot.t :=
  UsageSnapshot.mk (next_snapshot_id s) (CURRENT_TIMESTAMP now)
    (UsageData.total_requests usage) (UsageData.success_count usage)
    (UsageData.failure_count usage) (UsageData.total_tokens usage)
    (lastCostTotal s + totalCostOf (passRecords pricing now s usage))%Q.

(** The store when [calculateDailyDelta] starts: the snapshot of the report,
    with its cumulative cost, and the rows of the report are in. *)
Definition stored (pricing : PricingMap) (now : Z) (s : Store)
  (usage : UsageData.t) : Store :=
  mkStore (passSnapshot pricing now s usage :: usage_snapshots s)
    (model_usage s ++ passRecords pricing now s usage)
    (daily_stats s) (rate_limit_configs s) (rate_limit_status s).

(** The snapshot [calculateDailyDelta] finds as the previous one: the second
    of [getLatestSnapshots(2)], read when the new snapshot is in. *)
Definition prevOf (s3 : Store) : option UsageSnapshot.t :=
  nth_error (getLatestSnapshots s3 2) 1.

(** The rows the granular loop compares the report with, none when no
    previous snapshot is found. *)
Definition prevRecordsOf (s3 : Store) : list ModelUsage.t :=
  match prevOf s3 with
  | Some p => getModelUsageBySnapshot s3 (UsageSnapshot.id p)
  | None => []
  end.

(** The increments and breakdown delta a pass hands to step 7, from the
    store [s3] that [calculateDailyDelta] reads. *)
Definition passDeltas (s3 : Store) (usage : UsageData.t)
  (cumulativeCost totalCost : Q) (modelRecords : list ModelUsage.t)
  : Incs * DailyStatsBreakdown.t :=
  let inc0 :=
    coarseDelta (prevOf s3) (UsageData.total_requests usage)
      (UsageData.success_count usage) (UsageData.failure_count usage)
      (UsageData.total_tokens usage) cumulativeCost totalCost in
  match prevOf s3 with
  | Some p =>
      let gd :=
        granularDeltas (getModelUsageBySnapshot s3 (UsageSnapshot.id p))
          modelRecords inc0 in
      (reconcile true (fst gd) (snd gd), snd gd)
  | None => (inc0, firstSnapshotDeltas modelRecords)
  end.


(** The step of the granular loop when the delta of a key is its current
    tuple and nothing is skipped. *)
Definition addCurrent (currUsageMap : Obj ModelUsage.t)
  (bd : DailyStatsBreakdown.t) (key : string) : DailyStatsBreakdown.t :=
  let c := currentTuple (obj_get currUsageMap key) in
  if (0 <? dReq c) || Qlt_bool 0 (dCost c)
  then addDelta bd (at_index (split "|" key) 0) (at_index (split "|" key) 1) c
  else bd.

(** Every key the previous snapshot knows rolled back in requests or tokens. *)
Definition rolledBack (prevRecords currRecords : list ModelUsage.t) : Prop :=
  forall key p,
    obj_get (usageMap prevRecords) key = Some p ->
    let curr := obj_get (usageMap currRecords) key in
    fieldZ curr ModelUsage.request_count < ModelUsage.request_count p \/
    fieldZ curr ModelUsage.total_tokens < ModelUsage.total_tokens p.

(** No key of the current rows has a negative counter, and none costs more
    than the false-start threshold. *)
Definition currentSmall (currRecords : list ModelUsage.t) : Prop :=
  forall key,
    let curr := obj_get (usageMap currRecords) key in
    0 <= fieldZ curr ModelUsage.request_count /\
    0 <= fieldZ curr ModelUsage.total_tokens /\
    (0 <= fieldQ curr ModelUsage.estimated_cost_usd)%Q /\
    (fieldQ curr ModelUsage.estimated_cost_usd <= FALSE_START_COST_THRESHOLD)%Q.

(** The three sums over [breakdown.models] are not negative. *)
Definition sumsNonneg (bd : DailyStatsBreakdown.t) : Prop :=
  0 <= sumRequests (DailyStatsBreakdown.models bd) /\
  0 <= sumTokens (DailyStatsBreakdown.models bd) /\
  (0 <= sumCost (DailyStatsBreakdown.models bd))%Q.

End Runs.

(** ** The vocabulary of the reconciler properties *)

Module Windows.

Import Db RateLimiter.

(** The counters of a model in a snapshot map, 0 when it is absent. *)
Definition countersOf (m : SnapshotMap) (modelName : string) : UsageCalculation.t :=
  match obj_get m modelName with
  | Some r => r
  | None => UsageCalculation.zero
  end.


(** The three times [calculateUsage] asks the store for. *)
Definition latestTimeOf (s : Store) (modelPattern : string) : option Z :=
  firstTime (getModelUsageByPattern s modelPattern None None DESC (Some 1%nat)).
Definition firstInnerTimeOf (s : Store) (modelPattern : string) (since : Z)
  : option Z :=
  firstTime (getModelUsageByPattern s modelPattern (Some since) None ASC (Some 1%nat)).
Definition baselineTimeOf (s : Store) (modelPattern : string) (since : Z)
  : option Z :=
  firstTime (getModelUsageByPattern s modelPattern None (Some since) DESC (Some 1%nat)).

End Windows.

(** ** Counting the events of the loop *)

Module Loop.

Import Server.

Definition isTimerFires (e : Event) : bool :=
  match e with TimerFires => true | _ => false end.
Definition isTrigger (e : Event) : bool :=
  match e with Trigger => true | _ => false end.
(** Neither a call of [start()] nor of [stop()]. *)
Definition keepsTimer (e : Event) : bool :=
  match e with Start _ | Stop => false | _ => true end.

Definition ticks (events : list Event) : Z :=
  Z.of_nat (List.length (filter isTimerFires events)).
Definition triggers (events : list Event) : Z :=
  Z.of_nat (List.length (filter isTrigger events)).

End Loop.

(** ** The scenarios of the specification *)

Module Scenarios.

Import Db Collector Runs.

Definition config7 : Config.t := Config.mk 7.

(** The instant of the first pass; later passes follow every 300 s. *)
Definition t0 : Z := 1700000000000.
Definition t1 : Z := t0 + 300000.
Definition t2 : Z := t1 + 300000.

Definition today : Z := getLocalDate config7 t0.

Definition detail (input output : Z) : ModelDetail.t :=
  ModelDetail.mk (Some (TokenUsage.mk input output)).

(** S1: the first snapshot. *)
Definition reportS1 : UsageData.t :=
  UsageData.mk 10 10 0 1000
    [("chat", ApiData.mk [("gpt-4", ModelData.mk 10 1000 [detail 600 400])])].

(** S2: a normal increment. *)
Definition reportS2 : UsageData.t :=
  UsageData.mk 15 15 0 1600
    [("chat", ApiData.mk [("gpt-4", ModelData.mk 15 1600 [detail 960 640])])].

(** S3: the upstream restarted. *)
Definition reportS3 : UsageData.t :=
  UsageData.mk 2 2 0 200
    [("chat", ApiData.mk [("gpt-4", ModelData.mk 2 200 [detail 120 80])])].

(** S4: claude-opus appears with its whole history; the global counters
    count its 50 successful requests and its tokens too. *)
Definition reportS4 : UsageData.t :=
  UsageData.mk 65 65 0 1001600
    [("chat",
      ApiData.mk
        [("gpt-4", ModelData.mk 15 1600 [detail 960 640]);
         ("claude-opus", ModelData.mk 50 1000000 [detail 500000 500000])])].

(** A report with a model whose name in lower case is a member of
    [Object.prototype]. *)
Definition reportConstructor : UsageData.t :=
  UsageData.mk 1 1 0 10
    [("chat", ApiData.mk [("Constructor", ModelData.mk 1 10 [detail 6 4])])].


Definition afterS1 : Store :=
  pass config7 Pricing.DEFAULT_PRICING t0 Db.empty reportS1.
Definition afterS2 : Store :=
  pass config7 Pricing.DEFAULT_PRICING t1 afterS1 reportS2.
Definition afterS3 : Store :=
  pass config7 Pricing.DEFAULT_PRICING t2 afterS2 reportS3.
Definition afterS4 : Store :=
  pass config7 Pricing.DEFAULT_PRICING t2 afterS2 reportS4.
(** The pass after S2 when nothing happened upstream. *)
Definition afterS2again : Store :=
  pass config7 Pricing.DEFAULT_PRICING t2 afterS2 reportS2.

(** A busy upstream, and the report after it restarted and served 200
    requests worth 18 USD before the next pass. *)
Definition reportBusy : UsageData.t :=
  UsageData.mk 1000 1000 0 2000000
    [("chat", ApiData.mk [("gpt-4", ModelData.mk 1000 2000000 [detail 1000000 1000000])])].
Definition reportAfterRestart : UsageData.t :=
  UsageData.mk 200 200 0 400000
    [("chat", ApiData.mk [("gpt-4", ModelData.mk 200 400000 [detail 200000 200000])])].
Definition afterBusy : Store :=
  pass config7 Pricing.DEFAULT_PRICING t0 Db.empty reportBusy.
Definition afterRestart : Store :=
  pass config7 Pricing.DEFAULT_PRICING t1 afterBusy reportAfterRestart.

(** Two passes within one second, the second one started by the manual
    trigger half a second after the first, and the pass 300 s later, when
    the upstream has restarted. *)
Definition afterSameSecond : Store :=
  pass config7 Pricing.DEFAULT_PRICING (t0 + 500) afterS1 reportS2.
Definition afterRestartSameSecond : Store :=
  pass config7 Pricing.DEFAULT_PRICING t1 afterSameSecond reportS3.

(** The rows of S2 and S3 as the pass after S2 sees them. *)
Definition rowsS2 : list ModelUsage.t := latestRecords afterS2.
Definition rowsS3 : list ModelUsage.t :=
  modelRecordsOf Pricing.DEFAULT_PRICING (next_snapshot_id afterS2) t2 reportS3.

(** S5: a rolling window of 300 minutes that starts at [windowS5]; the
    baseline row is 240 minutes before it, the first inner row 10 minutes
    after it, the latest row at the time of the pass. *)
Definition windowS5 : Z := 1700000000000.
Definition passS5 : Z := windowS5 + 300 * 60000.
Definition rowS5 (created_at total_tokens request_count : Z) : ModelUsage.t :=
  ModelUsage.mk 1 "gpt-4" 0%Q request_count 0 0 total_tokens "chat" created_at.
Definition configS5 : RateLimitConfig.t :=
  RateLimitConfig.mk 5 "gpt" 300 "rolling" (Some 1000000) None None.
Definition storeS5 : Store :=
  mkStore []
    [ rowS5 (windowS5 - 240 * 60000) 10000 10;
      rowS5 (windowS5 + 10 * 60000) 10100 11;
      rowS5 passS5 10200 12 ]
    [] [configS5] [].
(** A deployment whose local time is UTC. *)
Definition configUtc : Config.t := Config.mk 0.

(** S6: configuration 5 with a daily window of 10000 tokens, a row of 50000
    tokens ten minutes before midnight and one of 58000 an hour after it. *)
Definition configS6 : RateLimitConfig.t :=
  RateLimitConfig.mk 5 "gpt" 1440 "daily" (Some 10000) None None.
Definition midnightS6 : Z := 1700006400000.
Definition storeS6 : Store :=
  mkStore []
    [ rowS5 (midnightS6 - 600000) 50000 100;
      rowS5 (midnightS6 + 3600000) 58000 180 ]
    [] [configS6] [].
Definition resetTimeS6 : Z := midnightS6 + 2 * 3600000.
(** The next pass stores a snapshot with unchanged counters first. *)
Definition nextPassS6 : Z := resetTimeS6 + 300000.

End Scenarios.

(** ** More of the sources: the pricing table in force, the fallback
    handler of the server and the full sync of [index.ts] *)

Module PricingTable.

(** [{ ...a, ...b }]: the keys of [a] keep their place, those of [b] that
    are new come after them, and [b] wins where both have a key. *)
Definition spread {V : Type} (a b : Obj V) : Obj V :=
  fold_left (fun acc kv => obj_set acc (fst kv) (snd kv)) b a.

(** [getModelPricing], on the table [fetchRemotePricing] came back with
    (empty when the fetch failed). *)
Definition getModelPricing (remotePricing : PricingMap) : PricingMap :=
  match remotePricing with
  | [] => Pricing.DEFAULT_PRICING
  | _ :: _ => spread Pricing.DEFAULT_PRICING remotePricing
  end.

End PricingTable.

(** A change of prices between two passes: the first pass runs while the
    remote prices cannot be fetched, the second once they are in. *)
Module PriceChange.

Import Db Runs Scenarios.

Definition remotePrices : PricingMap :=
  PricingTable.getModelPricing [("gpt-4", ModelPricing.mk 1 2)].

Definition afterS2 : Store :=
  pass config7 remotePrices t1 afterS1 reportS2.

End PriceChange.

Module FullSync.

Import Db.

(** [runFullSync] of [index.ts]. [data] is what [fetchUsageData] returned:
    [None] for [null], [Some None] for a body without [usage]. The report is
    stored at [nowStore], the limits are reconciled at [nowSync]. *)
Definition runFullSync (config : Config.t) (remotePricing : PricingMap)
  (nowStore nowSync : Z) (s : Store) (data : option (option UsageData.t))
  : Store :=
  let s1 :=
    match data with
    | Some d =>
        snd (Collector.storeUsageData config
               (PricingTable.getModelPricing remotePricing) nowStore s d)
    | None => s
    end in
  RateLimiter.syncLimits config nowSync s1.

End FullSync.

Module Fallback.

Import Db RateLimiter Server.

Inductive Method : Type := GET | POST | OtherMethod.

Definition isPost (m : Method) : bool :=
  match m with POST => true | _ => false end.
Definition isGet (m : Method) : bool :=
  match m with GET => true | _ => false end.

Definition isDigit (c : ascii) : bool :=
  let n := nat_of_ascii c in (48 <=? n)%nat && (n <=? 57)%nat.

(** [\d+] up to the end of the string. *)
Fixpoint allDigits (s : string) : bool :=
  match s with
  | EmptyString => false
  | String c EmptyString => isDigit c
  | String c s' => isDigit c && allDigits s'
  end.

Fixpoint stripPrefix (p s : string) : option string :=
  match p, s with
  | EmptyString, _ => Some s
  | String a p', String b s' => if Ascii.eqb a b then stripPrefix p' s' else None
  | String _ _, EmptyString => None
  end.

(** [url.pathname.match(/^\/api\/collector\/reset\/(\d+)$/)]: the captured
    group. *)
Definition resetMatch (pathname : string) : option string :=
  match stripPrefix "/api/collector/reset/" pathname with
  | Some rest => if allDigits rest then Some rest else None
  | None => None
  end.

Definition notFound : Response := mkResponse 404 (ErrorBody "Not found").

(** [resetLimit(NaN)]: no row has that id. *)
Definition resetLimitNaN (fault : DbFault) : ResetResult :=
  match fault with
  | GetConfigFails => internalError
  | _ => mkResetResult false "Configuration with id NaN not found." None
  end.

(** The [fetch] handler of [createServer], for the requests the routes did
    not take. *)
Definition fetch (config : Config.t) (fault : DbFault) (now : Z)
  (sch : Scheduler.t) (s : Store) (method : Method) (pathname : string)
  : Response * Scheduler.t * Store :=
  if String.eqb pathname "/api/collector/health" && isGet method
  then (mkResponse 200 HealthBody, sch, s)
  else if String.eqb pathname "/api/collector/trigger" && isPost method
  then (fst (postTrigger sch), snd (postTrigger sch), s)
  else
    match resetMatch pathname with
    | Some digits =>
        if isPost method then
          let result :=
            match parseInt digits with
            | Some configId => resetLimit config fault now s configId
            | None => (resetLimitNaN fault, s)
            end in
          if success (fst result)
          then (mkResponse 200
                  (ResetBody (message (fst result)) (newStatus (fst result))),
                sch, snd result)
          else (mkResponse
                  (if includes (message (fst result)) "not found" then 404
                   else 500)
                  (ErrorBody (message (fst result))),
                sch, snd result)
        else (notFound, sch, s)
    | None => (notFound, sch, s)
    end.

End Fallback.

(** ** The vocabulary of the further properties *)

Module Shapes.

Import Db Collector Runs.

Fixpoint hasChar (c : ascii) (s : string) : bool :=
  match s with
  | EmptyString => false
  | String d s' => Ascii.eqb d c || hasChar c s'
  end.



(** Stores reached from the empty store by completed passes on any reports. *)
Inductive Passed (config : Config.t) : Store -> Prop :=
| Passed_empty : Passed config Db.empty
| Passed_pass (s : Store) (pricing : PricingMap) (now : Z) (usage : UsageData.t) :
    Passed config s -> Passed config (pass config pricing now s usage).




End Shapes.

(** ** [data-api.ts]: the rate-limit configuration of the UI *)

Module DataApi.

Import Db.

(** [LimitConfig.id]: [string | number]. *)
Inductive LimitId : Type :=
| IdNumber (n : Z)
| IdText (s : string).

(** [limit.limit]: a number, or the text of an input field. *)
Inductive LimitValue : Type :=
| NumberValue (n : Z)
| TextValue (s : string).

Module BackendStatus.
Record t : Type := mk {
  percentage : Z;
  nextReset : option (option Z);
  label : string }.
End BackendStatus.

Module UiLimit.
Record t : Type := mk {
  id : LimitId;
  name : string;
  limit : LimitValue;
  unit : string;
  resetType : string;
  windowHours : Z;
  backendStatus : option BackendStatus.t }.
End UiLimit.

(** A provider without [limits] is one with no limit: [saveRateLimits]
    skips both. *)
Module UiProvider.
Record t : Type := mk {
  name : string;
  icon : string;
  enabled : bool;
  limits : list UiLimit.t }.
End UiProvider.

Definition Providers : Type := Obj UiProvider.t.

(** The icons, as the bytes of their UTF-8 encoding. *)
Definition bytes (l : list nat) : string :=
  fold_right (fun n s => String (ascii_of_nat n) s) EmptyString l.
Definition iconOpenai : string := bytes [240; 159; 164; 150]%nat.
Definition iconAnthropic : string := bytes [240; 159; 159; 163]%nat.
Definition iconGoogle : string := bytes [240; 159; 146; 142]%nat.
Definition iconOther : string := bytes [240; 159; 148; 140]%nat.

Definition defaultProviders : Providers :=
  [ ("openai", UiProvider.mk "OpenAI Plus" iconOpenai true []);
    ("anthropic", UiProvider.mk "Anthropic Pro" iconAnthropic true []);
    ("google", UiProvider.mk "Google AI Pro" iconGoogle true []) ].

(** [s || dflt] on a text, and a number column that is neither [NULL] nor 0. *)
Definition orText (s dflt : string) : string :=
  if String.eqb s "" then dflt else s.
Definition truthy (v : option Z) : option Z :=
  match v with
  | Some n => if n =? 0 then None else Some n
  | None => None
  end.

Definition providerKeyOf (model_pattern : string) : string :=
  let p := toLowerCase (orText model_pattern "unknown") in
  if includes p "gpt" then "openai"
  else if includes p "claude" then "anthropic"
  else if includes p "gemini" then "google"
  else "unknown".

(** [statusMap.get(conf.id)]: in a [Map] the last entry of a key wins. *)
Definition statusFor (statuses : list RateLimitStatus.t) (id : Z)
  : option RateLimitStatus.t :=
  find (fun st => RateLimitStatus.config_id st =? id) (rev statuses).

Definition backendStatusOf (conf : RateLimitConfig.t)
  (status : option RateLimitStatus.t) : BackendStatus.t :=
  let nextReset :=
    match status with
    | Some st => Some (RateLimitStatus.next_reset st)
    | None => None
    end in
  match truthy (RateLimitConfig.token_limit conf), status with
  | Some token_limit, Some st =>
      let remaining := RateLimitStatus.remaining_tokens st in
      let percentage :=
        Math_round (inject_Z remaining / inject_Z token_limit * 100) in
      let used := token_limit - remaining in
      BackendStatus.mk percentage nextReset
        (RateLimiter.decimal (Math_round (inject_Z used / 1000)) ++ "k / " ++
         RateLimiter.decimal (Math_round (inject_Z token_limit / 1000)) ++ "k")
  | _, _ =>
      match truthy (RateLimitConfig.request_limit conf), status with
      | Some request_limit, Some st =>
          let remaining := RateLimitStatus.remaining_requests st in
          let percentage :=
            Math_round (inject_Z remaining / inject_Z request_limit * 100) in
          let used := request_limit - remaining in
          BackendStatus.mk percentage nextReset
            (RateLimiter.decimal used ++ " / " ++ RateLimiter.decimal request_limit)
      | _, _ => BackendStatus.mk 100 nextReset "Unknown"
      end
  end.

(** The element pushed on [limits]. *)
Definition uiLimitOf (conf : RateLimitConfig.t) (status : option RateLimitStatus.t)
  : UiLimit.t :=
  UiLimit.mk (IdNumber (RateLimitConfig.id conf))
    (orText (RateLimitConfig.model_pattern conf) "All Models")
    (NumberValue
       match truthy (RateLimitConfig.token_limit conf) with
       | Some token_limit => token_limit
       | None =>
           match truthy (RateLimitConfig.request_limit conf) with
           | Some request_limit => request_limit
           | None => 0
           end
       end)
    (match truthy (RateLimitConfig.token_limit conf) with
     | Some _ => "tokens"
     | None => "requests"
     end)
    (RateLimitConfig.reset_strategy conf)
    (Math_round (inject_Z (RateLimitConfig.window_minutes conf) / 60))
    (Some (backendStatusOf conf status)).

Definition pushLimit (l : UiLimit.t) (p : UiProvider.t) : UiProvider.t :=
  UiProvider.mk (UiProvider.name p) (UiProvider.icon p) (UiProvider.enabled p)
    (UiProvider.limits p ++ [l]).

(** The body of [configs.forEach]. *)
Definition addConfig (statuses : list RateLimitStatus.t) (providers : Providers)
  (conf : RateLimitConfig.t) : Providers :=
  obj_upd providers (providerKeyOf (RateLimitConfig.model_pattern conf))
    (pushLimit (uiLimitOf conf (statusFor statuses (RateLimitConfig.id conf))))
    (UiProvider.mk (orText (RateLimitConfig.model_pattern conf) "Unknown")
       iconOther true []).

(** [getRateLimits]: the [providers] of the answer. *)
Definition getRateLimits (s : Store) : Providers :=
  fold_left (addConfig (rate_limit_status s)) (rate_limit_configs s)
    defaultProviders.

End DataApi.

(** ** [data-api.ts]: saving the configuration *)

Module SaveLimits.

Import Db DataApi.

(** [{ success: true }] or [{ success: false, error }]; the text of the
    error is the driver's. *)
Inductive SaveResult : Type :=
| SaveOk
| SaveFailed.

(** The column values of a row; [id] and [reset_anchor_timestamp] are not
    among them. *)
Record Row : Type := mkRow {
  model_pattern : string;
  reset_strategy : string;
  window_minutes : Z;
  token_limit : option Z;
  request_limit : option Z }.

(** [parseInt(limit.limit) || 0]. *)
Definition parseLimit (v : LimitValue) : Z :=
  match v with
  | NumberValue n => n
  | TextValue s =>
      match parseInt s with
      | Some n => n
      | None => 0
      end
  end.

Definition rowOf (limit : UiLimit.t) : Row :=
  let parsed := parseLimit (UiLimit.limit limit) in
  let tokens := String.eqb (UiLimit.unit limit) "tokens" in
  mkRow (orText (UiLimit.name limit) "All Models")
    (orText (UiLimit.resetType limit) "rolling")
    ((if UiLimit.windowHours limit =? 0 then 1 else UiLimit.windowHours limit) * 60)
    (if tokens then Some parsed else None)
    (if tokens then None else Some parsed).

(** The [CHECK] constraint of [rate_limit_configs]. *)
Definition validStrategy (reset_strategy : string) : bool :=
  String.eqb reset_strategy "daily" || String.eqb reset_strategy "weekly" ||
  String.eqb reset_strategy "rolling".

Definition hasId (id : Z) (rows : list RateLimitConfig.t) : bool :=
  existsb (fun c => RateLimitConfig.id c =? id) rows.

Definition setRow (row : Row) (c : RateLimitConfig.t) : RateLimitConfig.t :=
  RateLimitConfig.mk (RateLimitConfig.id c) (model_pattern row)
    (window_minutes row) (reset_strategy row) (token_limit row)
    (request_limit row) (RateLimitConfig.reset_anchor_timestamp c).

(** The [UPDATE] statement; [None] is the constraint failure, which leaves
    the table as it was. An id that no row has fails nothing. *)
Definition updateConfig (s : Store) (id : Z) (row : Row) : option Store :=
  if hasId id (rate_limit_configs s) then
    if validStrategy (reset_strategy row)
    then Some (with_configs s
                 (map (fun c => if RateLimitConfig.id c =? id then setRow row c else c)
                    (rate_limit_configs s)))
    else None
  else Some s.

Definition maxId (rows : list RateLimitConfig.t) : Z :=
  fold_left (fun m c => Z.max m (RateLimitConfig.id c)) rows 0.

(** The [INSERT] statement. [seq] is the largest id the table ever gave
    out ([AUTOINCREMENT]); the result holds [lastInsertRowid]. *)
Definition insertConfig (seq : Z) (s : Store) (row : Row)
  : option (Z * Z * Store) :=
  if validStrategy (reset_strategy row) then
    let id := Z.max seq (maxId (rate_limit_configs s)) + 1 in
    Some (id, id,
          with_configs s
            (rate_limit_configs s ++
             [RateLimitConfig.mk id (model_pattern row) (window_minutes row)
                (reset_strategy row) (token_limit row) (request_limit row) None]))
  else None.

(** The body of [provider.limits.forEach]; [None] is a statement that
    threw. *)
Definition saveLimit (limit : UiLimit.t) (seq : Z) (s : Store) (keptIds : list Z)
  : option (Z * Store * list Z) :=
  match UiLimit.id limit with
  | IdNumber id =>
      match updateConfig s id (rowOf limit) with
      | Some s' => Some (seq, s', (keptIds ++ [id])%list)
      | None => None
      end
  | IdText _ =>
      match insertConfig seq s (rowOf limit) with
      | Some (lastInsertRowid, seq', s') =>
          Some (seq', s', (keptIds ++ [lastInsertRowid])%list)
      | None => None
      end
  end.

(** The two nested [forEach], up to the first statement that throws. *)
Fixpoint saveLimits (limits : list UiLimit.t) (seq : Z) (s : Store)
  (keptIds : list Z) : bool * Z * Store * list Z :=
  match limits with
  | [] => (true, seq, s, keptIds)
  | limit :: rest =>
      match saveLimit limit seq s keptIds with
      | Some (seq', s', keptIds') => saveLimits rest seq' s' keptIds'
      | None => (false, seq, s, keptIds)
      end
  end.

(** [DELETE FROM rate_limit_configs WHERE id = ?], with the cascade on
    [rate_limit_status]. *)
Definition deleteConfig (s : Store) (id : Z) : Store :=
  mkStore (usage_snapshots s) (model_usage s) (daily_stats s)
    (filter (fun c => negb (RateLimitConfig.id c =? id)) (rate_limit_configs s))
    (filter (fun st => negb (RateLimitStatus.config_id st =? id))
       (rate_limit_status s)).

Definition hasZ (id : Z) (ids : list Z) : bool := existsb (Z.eqb id) ids.

(** [saveRateLimits] on a payload with a [providers] object whose keys are
    not array indices. *)
Definition saveRateLimits (seq : Z) (s : Store) (config : Providers)
  : SaveResult * Z * Store :=
  let existingIds := map RateLimitConfig.id (rate_limit_configs s) in
  let limits := flat_map (fun p => UiProvider.limits (snd p)) config in
  match saveLimits limits seq s [] with
  | (true, seq', s', keptIds) =>
      let idsToDelete := filter (fun id => negb (hasZ id keptIds)) existingIds in
      (SaveOk, seq', fold_left deleteConfig idsToDelete s')
  | (false, seq', s', _) => (SaveFailed, seq', s')
  end.

End SaveLimits.

(** ** The vocabulary of the properties of [saveRateLimits] *)

Module SaveShapes.

Import Db DataApi SaveLimits.

(** The limits of a payload, provider by provider. *)
Definition payloadLimits (config : Providers) : list UiLimit.t :=
  flat_map (fun p => UiProvider.limits (snd p)) config.

(** The payload has a limit with the numeric id [n]. *)
Definition mentioned (limits : list UiLimit.t) (n : Z) : Prop :=
  exists l, In l limits /\ UiLimit.id l = IdNumber n.

(** Every row of [rows] is still in [rows'], under its id and with its
    reset anchor. *)
Definition rowsPersist (rows rows' : list RateLimitConfig.t) : Prop :=
  forall c, In c rows ->
    exists c', In c' rows' /\ RateLimitConfig.id c' = RateLimitConfig.id c /\
      RateLimitConfig.reset_anchor_timestamp c' =
        RateLimitConfig.reset_anchor_timestamp c.

(** Every row of [rows'] continues a row of [rows], or is new: without an
    anchor and under an id above every id of [rows]. *)
Definition rowsFrom (rows rows' : list RateLimitConfig.t) : Prop :=
  forall c', In c' rows' ->
    (exists c, In c rows /\ RateLimitConfig.id c = RateLimitConfig.id c' /\
       RateLimitConfig.reset_anchor_timestamp c =
         RateLimitConfig.reset_anchor_timestamp c') \/
    (RateLimitConfig.reset_anchor_timestamp c' = None /\
     forall c, In c rows -> RateLimitConfig.id c < RateLimitConfig.id c').

(** The row a limit asks for passes the [CHECK] constraint. *)
Definition limitValid (l : UiLimit.t) : bool :=
  validStrategy (reset_strategy (rowOf l)).

(** The id of a limit that has a numeric one. *)
Definition numberOf (l : UiLimit.t) : Z :=
  match UiLimit.id l with
  | IdNumber n => n
  | IdText _ => 0
  end.

(** What the [UPDATE] for a limit does to one row, and what those for a
    list of limits do, one after the other. *)
Definition applyLimit (c : RateLimitConfig.t) (l : UiLimit.t) : RateLimitConfig.t :=
  if RateLimitConfig.id c =? numberOf l then setRow (rowOf l) c else c.
Definition applyLimits (limits : list UiLimit.t) (c : RateLimitConfig.t)
  : RateLimitConfig.t :=
  fold_left applyLimit limits c.

(** A row after the UI showed it and sent it back as it was. *)
Definition viaUi (statuses : list RateLimitStatus.t) (c : RateLimitConfig.t)
  : RateLimitConfig.t :=
  setRow (rowOf (uiLimitOf c (statusFor statuses (RateLimitConfig.id c)))) c.

End SaveShapes.

(** * Properties *)

(** ** Sums over dictionaries *)

Module Sums.

Import Db Collector Runs.

Lemma Qlt_bool_iff (x y : Q) : Qlt_bool x y = true <-> (x < y)%Q.
Proof.
  unfold Qlt_bool. rewrite negb_true_iff. split; intro H.
  - apply Qnot_le_lt. intro L. apply Qle_bool_iff in L. congruence.
  - destruct (Qle_bool y x) eqn:E; [|reflexivity].
    apply Qle_bool_iff in E. exfalso. apply (Qlt_not_le _ _ H E).
Qed.

Lemma Qlt_bool_false (x y : Q) : Qlt_bool x y = false <-> (y <= x)%Q.
Proof.
  unfold Qlt_bool. rewrite negb_false_iff. apply Qle_bool_iff.
Qed.

Section ByField.

Context {V : Type}.

Lemma fold_add_acc (g : V -> Z) (l : list V) (a : Z) :
  fold_left (fun sum m => sum + g m) l a =
  a + fold_left (fun sum m => sum + g m) l 0.
Proof.
  revert a. induction l as [|v l IH]; intro a; cbn [fold_left]; [lia|].
  rewrite IH, (IH (0 + g v)). lia.
Qed.

Lemma fold_addQ_acc (g : V -> Q) (l : list V) (a : Q) :
  (fold_left (fun sum m => sum + g m)%Q l a ==
   a + fold_left (fun sum m => sum + g m)%Q l 0)%Q.
Proof.
  revert a. induction l as [|v l IH]; intro a; cbn [fold_left]; [ring|].
  rewrite IH, (IH (0 + g v)%Q). ring.
Qed.

Lemma sumZby_cons (g : V -> Z) (k : string) (v : V) (o : Obj V) :
  sumZby g ((k, v) :: o) = g v + sumZby g o.
Proof.
  unfold sumZby. simpl. rewrite fold_add_acc. lia.
Qed.

Lemma sumQby_cons (g : V -> Q) (k : string) (v : V) (o : Obj V) :
  (sumQby g ((k, v) :: o) == g v + sumQby g o)%Q.
Proof.
  unfold sumQby. simpl. rewrite fold_addQ_acc. ring.
Qed.

Lemma sumZby_upd (g : V -> Z) (f : V -> V) (dflt : V) (delta : Z)
  (o : Obj V) (k : string) :
  (forall v, g (f v) = g v + delta) -> g dflt = 0 ->
  sumZby g (obj_upd o k f dflt) = sumZby g o + delta.
Proof.
  intros Hf Hd. induction o as [|[k' v] o IH]; simpl.
  - rewrite sumZby_cons, Hf, Hd. unfold sumZby. simpl. lia.
  - destruct (String.eqb k' k).
    + rewrite !sumZby_cons, Hf. lia.
    + rewrite !sumZby_cons, IH. lia.
Qed.

Lemma sumQby_upd (g : V -> Q) (f : V -> V) (dflt : V) (delta : Q)
  (o : Obj V) (k : string) :
  (forall v, g (f v) == g v + delta)%Q -> (g dflt == 0)%Q ->
  (sumQby g (obj_upd o k f dflt) == sumQby g o + delta)%Q.
Proof.
  intros Hf Hd. induction o as [|[k' v] o IH]; simpl.
  - rewrite sumQby_cons, Hf, Hd. unfold sumQby. simpl. ring.
  - destruct (String.eqb k' k).
    + rewrite !sumQby_cons, Hf. ring.
    + rewrite !sumQby_cons, IH. ring.
Qed.

End ByField.

(** What [addDelta] does to the three sums over [breakdown.models]. *)
Lemma sumRequests_addDelta bd m e d :
  sumRequests (DailyStatsBreakdown.models (addDelta bd m e d)) =
  sumRequests (DailyStatsBreakdown.models bd) + dReq d.
Proof.
  unfold addDelta. simpl.
  apply (sumZby_upd ModelBreakdown.requests); reflexivity.
Qed.

Lemma sumTokens_addDelta bd m e d :
  sumTokens (DailyStatsBreakdown.models (addDelta bd m e d)) =
  sumTokens (DailyStatsBreakdown.models bd) + dTok d.
Proof.
  unfold addDelta. simpl.
  apply (sumZby_upd ModelBreakdown.tokens); reflexivity.
Qed.

Lemma sumCost_addDelta bd m e d :
  (sumCost (DailyStatsBreakdown.models (addDelta bd m e d)) ==
   sumCost (DailyStatsBreakdown.models bd) + dCost d)%Q.
Proof.
  unfold addDelta. simpl.
  apply (sumQby_upd ModelBreakdown.cost); intros; simpl; reflexivity.
Qed.




End Sums.

(** ** The shape of a pass and the invariants of the store *)

Module PassFacts.

Import Db Collector Runs Sums.

Lemma fold_recordsQ (records : list ModelUsage.t) (a : Q) :
  (fold_left (fun total r => total + ModelUsage.estimated_cost_usd r)%Q records a
   == a + totalCostOf records)%Q.
Proof.
  unfold totalCostOf. revert a.
  induction records as [|r records IH]; intro a; cbn [fold_left]; [ring|].
  rewrite IH, (IH (0 + _)%Q). ring.
Qed.

Lemma totalCostOf_cons r records :
  (totalCostOf (r :: records) ==
   ModelUsage.estimated_cost_usd r + totalCostOf records)%Q.
Proof.
  unfold totalCostOf at 1. cbn [fold_left]. rewrite fold_recordsQ. ring.
Qed.




Lemma filter_app_none (l1 l2 : list ModelUsage.t) (id : Z) :
  (forall r, In r l2 -> ModelUsage.snapshot_id r <> id) ->
  filter (fun r => ModelUsage.snapshot_id r =? id) (l1 ++ l2) =
  filter (fun r => ModelUsage.snapshot_id r =? id) l1.
Proof.
  intro H. rewrite filter_app.
  replace (filter _ l2) with (@nil ModelUsage.t); [apply app_nil_r|].
  symmetry. induction l2 as [|r l2 IH]; simpl; [reflexivity|].
  destruct (Z.eqb_spec (ModelUsage.snapshot_id r) id) as [E|E].
  - exfalso. apply (H r); [left; reflexivity | exact E].
  - apply IH. intros r' Hr'. apply H. right. exact Hr'.
Qed.

Lemma records_snapshot_id pricing id now usage r :
  In r (modelRecordsOf pricing id now usage) -> ModelUsage.snapshot_id r = id.
Proof.
  unfold modelRecordsOf. intro H. apply in_flat_map in H.
  destruct H as (api & _ & H). apply in_map_iff in H.
  destruct H as (m & <- & _). reflexivity.
Qed.

Lemma update_other_ids (l : list UsageSnapshot.t) (id : Z) (cost : Q) :
  (forall x, In x l -> UsageSnapshot.id x <> id) ->
  map (fun r =>
         if UsageSnapshot.id r =? id
         then UsageSnapshot.mk (UsageSnapshot.id r) (UsageSnapshot.collected_at r)
                (UsageSnapshot.total_requests r) (UsageSnapshot.success_count r)
                (UsageSnapshot.failure_count r) (UsageSnapshot.total_tokens r) cost
         else r) l = l.
Proof.
  intro H. induction l as [|x l IH]; simpl; [reflexivity|].
  destruct (Z.eqb_spec (UsageSnapshot.id x) id) as [E|E].
  - exfalso. apply (H x); [left; reflexivity | exact E].
  - f_equal. apply IH. intros y Hy. apply H. right. exact Hy.
Qed.











(** [calculateDailyDelta] upserts the row that step 7 makes of the deltas of
    the pass. *)
Lemma calculateDailyDelta_shape config now s3 usage cumulativeCost totalCost records :
  let pd := passDeltas s3 usage cumulativeCost totalCost records in
  let today := getLocalDate config now in
  calculateDailyDelta config now s3 (UsageData.total_requests usage)
    (UsageData.success_count usage) (UsageData.failure_count usage)
    (UsageData.total_tokens usage) cumulativeCost totalCost records =
  upsertDailyStats s3 (dailyData today (getDailyStats s3 today) (fst pd) (snd pd)).
Proof.
  unfold calculateDailyDelta, passDeltas, prevOf. cbv zeta.
  destruct (nth_error (getLatestSnapshots s3 2) 1) as [p|]; [|reflexivity].
  match goal with
  | |- context [granularDeltas ?a ?b ?c] =>
      destruct (granularDeltas a b c) as [inc1 bd]
  end.
  reflexivity.
Qed.

(** A pass that stores its report, on a store with sound row ids: one
    snapshot more, the rows of the report appended, and one daily row
    upserted. *)
Lemma pass_shape config pricing now s usage :
  StoreOk s -> costIsNaN pricing usage = false ->
  let records := passRecords pricing now s usage in
  let totalCost := totalCostOf records in
  let cumulativeCost := (lastCostTotal s + totalCost)%Q in
  let pd :=
    passDeltas (stored pricing now s usage) usage cumulativeCost totalCost records in
  let today := getLocalDate config now in
  let s' := pass config pricing now s usage in
  usage_snapshots s' = passSnapshot pricing now s usage :: usage_snapshots s /\
  model_usage s' = model_usage s ++ records /\
  daily_stats s' =
    upsert_daily (daily_stats s)
      (dailyData today (getDailyStats s today) (fst pd) (snd pd)) /\
  rate_limit_configs s' = rate_limit_configs s /\
  rate_limit_status s' = rate_limit_status s.
Proof.
  intros (Hids & Hrows & Hhead & Hdaily) Hnan.
  assert (Hmap : forall cost,
    map (fun r =>
         if UsageSnapshot.id r =? next_snapshot_id s
         then UsageSnapshot.mk (UsageSnapshot.id r) (UsageSnapshot.collected_at r)
                (UsageSnapshot.total_requests r) (UsageSnapshot.success_count r)
                (UsageSnapshot.failure_count r) (UsageSnapshot.total_tokens r) cost
         else r) (usage_snapshots s) = usage_snapshots s).
  { intro cost. apply update_other_ids. intros x Hx.
    specialize (Hids x Hx). unfold next_snapshot_id. lia. }
  cbv zeta. unfold pass, storeUsageData. rewrite Hnan.
  fold (lastCostTotal s). unfold insertUsageSnapshot.
  rewrite calculateDailyDelta_shape. cbv zeta.
  fold (passRecords pricing now s usage).
  assert (Es3 :
    updateSnapshotCost
      (insertModelUsageBulk
         (with_snapshots s
            (UsageSnapshot.mk (next_snapshot_id s) (CURRENT_TIMESTAMP now)
               (UsageData.total_requests usage) (UsageData.success_count usage)
               (UsageData.failure_count usage) (UsageData.total_tokens usage)
               (lastCostTotal s) :: usage_snapshots s))
         (passRecords pricing now s usage))
      (next_snapshot_id s)
      (lastCostTotal s + totalCostOf (passRecords pricing now s usage)) =
    stored pricing now s usage).
  { unfold updateSnapshotCost, insertModelUsageBulk, with_snapshots,
      with_model_usage, stored, passSnapshot.
    cbn [usage_snapshots model_usage daily_stats rate_limit_configs
         rate_limit_status map UsageSnapshot.id UsageSnapshot.collected_at
         UsageSnapshot.total_requests UsageSnapshot.success_count
         UsageSnapshot.failure_count UsageSnapshot.total_tokens].
    rewrite Z.eqb_refl, Hmap. reflexivity. }
  cbn [snd]. rewrite Es3.
  unfold upsertDailyStats, with_daily_stats, getDailyStats, stored.
  cbn [usage_snapshots model_usage daily_stats rate_limit_configs
       rate_limit_status].
  repeat split; reflexivity.
Qed.

(** A pass whose bulk insert fails leaves the new snapshot, under the
    cumulative cost it read, and nothing else. *)
Lemma pass_failed config pricing now s usage :
  costIsNaN pricing usage = true ->
  pass config pricing now s usage =
  with_snapshots s
    (UsageSnapshot.mk (next_snapshot_id s) (CURRENT_TIMESTAMP now)
       (UsageData.total_requests usage) (UsageData.success_count usage)
       (UsageData.failure_count usage) (UsageData.total_tokens usage)
       (lastCostTotal s) :: usage_snapshots s).
Proof.
  intro Hnan. unfold pass, storeUsageData. rewrite Hnan. reflexivity.
Qed.

(** What every pass does to the tables other than [daily_stats]. *)
Lemma pass_tables config pricing now s usage :
  StoreOk s ->
  let s' := pass config pricing now s usage in
  (exists snap,
     usage_snapshots s' = snap :: usage_snapshots s /\
     UsageSnapshot.id snap = next_snapshot_id s) /\
  model_usage s' =
    (model_usage s ++
     (if costIsNaN pricing usage then []
      else passRecords pricing now s usage))%list /\
  rate_limit_configs s' = rate_limit_configs s /\
  rate_limit_status s' = rate_limit_status s.
Proof.
  intros Hok s'. subst s'. destruct (costIsNaN pricing usage) eqn:Hnan.
  - rewrite (pass_failed _ _ _ _ _ Hnan). unfold with_snapshots.
    cbn [usage_snapshots model_usage rate_limit_configs rate_limit_status].
    rewrite app_nil_r. repeat split. eexists. split; reflexivity.
  - destruct (pass_shape config pricing now s usage Hok Hnan)
      as (Hs & Hm & _ & Hc & Hst).
    cbv zeta in Hs, Hm, Hc, Hst. rewrite Hs, Hm, Hc, Hst.
    repeat split. eexists. split; reflexivity.
Qed.

(** A failed pass leaves the daily rows alone. *)
Lemma pass_failed_daily config pricing now s usage :
  costIsNaN pricing usage = true ->
  daily_stats (pass config pricing now s usage) = daily_stats s.
Proof.
  intro Hnan. rewrite (pass_failed _ _ _ _ _ Hnan). reflexivity.
Qed.

Lemma pass_StoreOk config pricing now s usage :
  StoreOk s -> StoreOk (pass config pricing now s usage).
Proof.
  intro Hok.
  destruct (pass_tables config pricing now s usage Hok)
    as ((snap & Hs & Hid) & Hm & _).
  cbv zeta in Hs, Hm.
  destruct Hok as (Hids & Hrows & Hhead & Hdaily).
  unfold StoreOk. rewrite Hs, Hm. cbn [List.length].
  repeat split.
  - intros x [<-|Hx].
    + rewrite Hid. unfold next_snapshot_id. lia.
    + specialize (Hids x Hx). lia.
  - intros r Hr. apply in_app_or in Hr. destruct Hr as [Hr|Hr].
    + specialize (Hrows r Hr). lia.
    + destruct (costIsNaN pricing usage); [destruct Hr|].
      apply records_snapshot_id in Hr. rewrite Hr. unfold next_snapshot_id. lia.
  - intros x rest E. injection E as <- _. rewrite Hid.
    unfold next_snapshot_id. lia.
  - intro E. discriminate E.
Qed.

Lemma empty_StoreOk : StoreOk Db.empty.
Proof.
  unfold StoreOk, Db.empty. simpl. repeat split; intros; try contradiction;
    try discriminate; reflexivity.
Qed.



Lemma filter_all (l : list ModelUsage.t) (id : Z) :
  (forall r, In r l -> ModelUsage.snapshot_id r = id) ->
  filter (fun r => ModelUsage.snapshot_id r =? id) l = l.
Proof.
  intro H. induction l as [|r l IH]; simpl; [reflexivity|].
  rewrite (H r (or_introl eq_refl)), Z.eqb_refl. f_equal.
  apply IH. intros r' Hr'. apply H. right. exact Hr'.
Qed.

Lemma filter_none (l : list ModelUsage.t) (id : Z) :
  (forall r, In r l -> ModelUsage.snapshot_id r <> id) ->
  filter (fun r => ModelUsage.snapshot_id r =? id) l = [].
Proof.
  intro H. induction l as [|r l IH]; simpl; [reflexivity|].
  destruct (Z.eqb_spec (ModelUsage.snapshot_id r) id) as [E|E].
  - exfalso. exact (H r (or_introl eq_refl) E).
  - apply IH. intros r' Hr'. apply H. right. exact Hr'.
Qed.





End PassFacts.

(** ** The self-healing sum of the daily row (C1) *)

Module SelfHealing.

Import Db Collector Runs Sums PassFacts Scenarios.

Lemma reconcile_true_sums inc bd :
  incRequests (reconcile true inc bd) = sumRequests (DailyStatsBreakdown.models bd) /\
  incTokens (reconcile true inc bd) = sumTokens (DailyStatsBreakdown.models bd) /\
  incCost (reconcile true inc bd) = sumCost (DailyStatsBreakdown.models bd).
Proof.
  unfold reconcile. cbn. repeat split.
Qed.



Lemma In_upsert_daily rows stats row :
  In row (upsert_daily rows stats) -> row = stats \/ In row rows.
Proof.
  induction rows as [|r rows IH]; simpl.
  - intros [<-|[]]. left. reflexivity.
  - destruct (DailyStats.stat_date r =? DailyStats.stat_date stats).
    + intros [<-|H]; [left; reflexivity | right; right; exact H].
    + intros [<-|H]; [right; left; reflexivity|].
      destruct (IH H) as [->|H']; [left; reflexivity | right; right; exact H'].
Qed.







End SelfHealing.

(** ** The cumulative cost of the snapshots (C10) *)

Module CumulativeCost.

Import Db Collector Runs Sums PassFacts Scenarios.

Lemma calculateCost_nonneg i o p :
  0 <= i -> 0 <= o ->
  (0 <= ModelPricing.input p)%Q -> (0 <= ModelPricing.output p)%Q ->
  (0 <= Pricing.calculateCost i o p)%Q.
Proof.
  intros Hi Ho Hpi Hpo. unfold Pricing.calculateCost.
  rewrite Zle_Qle in Hi. rewrite Zle_Qle in Ho.
  assert (Hm : (0 <= / 1000000)%Q) by (apply Qinv_le_0_compat; discriminate).
  unfold Qdiv.
  pose proof (Qmult_le_0_compat _ _ (Qmult_le_0_compat _ _ Hi Hm) Hpi).
  pose proof (Qmult_le_0_compat _ _ (Qmult_le_0_compat _ _ Ho Hm) Hpo).
  lra.
Qed.

Lemma obj_get_In {V : Type} (o : Obj V) k v : obj_get o k = Some v -> exists k', In (k', v) o.
Proof.
  induction o as [|[k' v'] o IH]; simpl; [discriminate|].
  destruct (String.eqb k' k).
  - intro H. injection H as ->. exists k'. left. reflexivity.
  - intro H. destruct (IH H) as (k'' & Hin). exists k''. right. exact Hin.
Qed.

Lemma partialMatch_In modelLower entries p :
  Pricing.partialMatch modelLower entries = Some p -> exists k, In (k, p) entries.
Proof.
  induction entries as [|[pattern prices] entries IH]; simpl; [discriminate|].
  destruct (String.eqb pattern "_default").
  - intro H. destruct (IH H) as (k & Hin). exists k. right. exact Hin.
  - destruct (includes pattern modelLower || includes modelLower pattern).
    + intro H. injection H as ->. exists pattern. left. reflexivity.
    + intro H. destruct (IH H) as (k & Hin). exists k. right. exact Hin.
Qed.

(** A row that [findPricingForModel] selects has non-negative rates when
    the table has. *)
Lemma findPricing_nonneg modelName pricing p :
  pricingNonneg pricing ->
  Pricing.findPricingForModel modelName pricing = Pricing.Priced p ->
  (0 <= ModelPricing.input p)%Q /\ (0 <= ModelPricing.output p)%Q.
Proof.
  intro Hp. unfold Pricing.findPricingForModel.
  destruct (obj_get pricing (toLowerCase modelName)) as [p1|] eqn:E1.
  { intro H. injection H as <-.
    apply obj_get_In in E1. destruct E1 as (k & Hin). exact (Hp k p1 Hin). }
  destruct (Pricing.inherited (toLowerCase modelName)); [discriminate|].
  destruct (Pricing.partialMatch (toLowerCase modelName) pricing) as [p2|] eqn:E2.
  { intro H. injection H as <-.
    apply partialMatch_In in E2. destruct E2 as (k & Hin). exact (Hp k p2 Hin). }
  destruct (obj_get pricing "_default") as [p3|] eqn:E3.
  { intro H. injection H as <-.
    apply obj_get_In in E3. destruct E3 as (k & Hin). exact (Hp k p3 Hin). }
  intro H. injection H as <-.
  unfold Pricing.fallback_price. simpl. split; discriminate.
Qed.

Lemma sumInputTokens_nonneg details :
  (forall d, In d details -> detailNonneg d) -> 0 <= sumInputTokens details.
Proof.
  unfold sumInputTokens. intro H.
  assert (G : forall a, 0 <= a ->
    0 <= fold_left
           (fun sum d =>
              sum + match ModelDetail.tokens d with
                    | Some t => TokenUsage.input_tokens t
                    | None => 0
                    end) details a).
  { induction details as [|d details IH]; intros a Ha; simpl; [exact Ha|].
    apply IH.
    - intros d' Hd'. apply H. right. exact Hd'.
    - specialize (H d (or_introl eq_refl)). unfold detailNonneg in H.
      destruct (ModelDetail.tokens d); lia. }
  apply G. lia.
Qed.

Lemma sumOutputTokens_nonneg details :
  (forall d, In d details -> detailNonneg d) -> 0 <= sumOutputTokens details.
Proof.
  unfold sumOutputTokens. intro H.
  assert (G : forall a, 0 <= a ->
    0 <= fold_left
           (fun sum d =>
              sum + match ModelDetail.tokens d with
                    | Some t => TokenUsage.output_tokens t
                    | None => 0
                    end) details a).
  { induction details as [|d details IH]; intros a Ha; simpl; [exact Ha|].
    apply IH.
    - intros d' Hd'. apply H. right. exact Hd'.
    - specialize (H d (or_introl eq_refl)). unfold detailNonneg in H.
      destruct (ModelDetail.tokens d); lia. }
  apply G. lia.
Qed.

Lemma In_modelRecordsOf pricing id now usage r :
  In r (modelRecordsOf pricing id now usage) ->
  exists ep name m,
    In m (modelsOf usage) /\ r = modelRecord pricing id now ep name m.
Proof.
  unfold modelRecordsOf, modelsOf. intro H. apply in_flat_map in H.
  destruct H as (api & Hapi & H). apply in_map_iff in H.
  destruct H as (m & <- & Hm).
  exists (fst api), (fst m), (snd m). split; [|reflexivity].
  apply in_flat_map. exists api. split; [exact Hapi|].
  apply in_map. exact Hm.
Qed.

Lemma record_cost_nonneg pricing id now usage r :
  pricingNonneg pricing -> tokensNonneg usage ->
  In r (modelRecordsOf pricing id now usage) ->
  (0 <= ModelUsage.estimated_cost_usd r)%Q.
Proof.
  intros Hp Ht Hr. apply In_modelRecordsOf in Hr.
  destruct Hr as (ep & name & m & Hm & ->).
  unfold modelRecord, costOf. cbn [ModelUsage.estimated_cost_usd].
  destruct (Pricing.findPricingForModel name pricing) as [p|] eqn:E;
    [|discriminate].
  destruct (findPricing_nonneg name pricing p Hp E) as (A & B).
  apply calculateCost_nonneg; try assumption.
  - apply sumInputTokens_nonneg. intros d Hd. exact (Ht m d Hm Hd).
  - apply sumOutputTokens_nonneg. intros d Hd. exact (Ht m d Hm Hd).
Qed.

Lemma totalCostOf_nonneg records :
  (forall r, In r records -> (0 <= ModelUsage.estimated_cost_usd r)%Q) ->
  (0 <= totalCostOf records)%Q.
Proof.
  induction records as [|r records IH]; intro H.
  - unfold totalCostOf. simpl. lra.
  - rewrite totalCostOf_cons.
    pose proof (H r (or_introl eq_refl)).
    assert (0 <= totalCostOf records)%Q
      by (apply IH; intros r' Hr'; apply H; right; exact Hr').
    lra.
Qed.

Lemma totalCostOf_costs l1 l2 :
  map ModelUsage.estimated_cost_usd l1 = map ModelUsage.estimated_cost_usd l2 ->
  totalCostOf l1 = totalCostOf l2.
Proof.
  unfold totalCostOf. generalize 0%Q.
  revert l2. induction l1 as [|a l1 IH]; intros [|b l2] q H; simpl in *;
    try discriminate; [reflexivity|].
  injection H as Hab Hl. rewrite Hab. apply IH. exact Hl.
Qed.

Lemma records_costs pricing id now id' now' usage :
  map ModelUsage.estimated_cost_usd (modelRecordsOf pricing id now usage) =
  map ModelUsage.estimated_cost_usd (modelRecordsOf pricing id' now' usage).
Proof.
  unfold modelRecordsOf.
  induction (UsageData.apis usage) as [|api apis IH]; simpl; [reflexivity|].
  rewrite !map_app, IH. f_equal. rewrite !map_map. reflexivity.
Qed.

(** A pass reports success exactly when no cost of the report is NaN. *)
Lemma storeUsageData_true config pricing now s usage s' :
  storeUsageData config pricing now s (Some usage) = (true, s') ->
  costIsNaN pricing usage = false /\ s' = pass config pricing now s usage.
Proof.
  intro H. split.
  - unfold storeUsageData in H. unfold insertUsageSnapshot in H.
    destruct (costIsNaN pricing usage); [discriminate H | reflexivity].
  - unfold pass. rewrite H. reflexivity.
Qed.

(** C10. A successful [storeUsageData] puts one snapshot in front of the
    older ones, which it leaves as they were; its [cumulative_cost_usd] is
    that of the snapshot that [getLatestSnapshots(1)] returns (0 when there
    is none) plus the cost of the current report; that cost is non-negative
    when the token counts of the report and the rates of the pricing table
    are. That snapshot is the first of [ORDER BY collected_at DESC], and
    [collected_at] has the resolution of one second: it need not be the
    previous snapshot. Two passes in one second store the snapshots 1 and 2
    (the reports S1 and S2, cumulative costs 0.042 and 0.1092); the pass
    after the upstream restarted (report S3, cost 0.0084) reads snapshot 1
    as the latest and stores 0.0504 as the cumulative cost of snapshot 3,
    which is below that of snapshot 2, the previous one. *)
Theorem cumulative_cost_same_second :
  (forall config pricing now s usage s',
     StoreOk s ->
     storeUsageData config pricing now s (Some usage) = (true, s') ->
     exists snap,
       usage_snapshots s' = snap :: usage_snapshots s /\
       (UsageSnapshot.cumulative_cost_usd snap ==
        lastCostTotal s + reportCost pricing usage)%Q /\
       (pricingNonneg pricing -> tokensNonneg usage ->
        (0 <= reportCost pricing usage)%Q /\
        (lastCostTotal s <= UsageSnapshot.cumulative_cost_usd snap)%Q)) /\
  (map (fun x => (UsageSnapshot.id x, UsageSnapshot.collected_at x,
                  Qred (UsageSnapshot.cumulative_cost_usd x)))
     (usage_snapshots afterRestartSameSecond) =
     [ (3, t1, (63 # 1250)%Q); (2, t0, (273 # 2500)%Q); (1, t0, (21 # 500)%Q) ] /\
   map UsageSnapshot.id (getLatestSnapshots afterSameSecond 1) = [1] /\
   Qred (lastCostTotal afterSameSecond) = (21 # 500)%Q /\
   Qred (reportCost Pricing.DEFAULT_PRICING reportS3) = (21 # 2500)%Q /\
   fst (storeUsageData config7 Pricing.DEFAULT_PRICING t1 afterSameSecond
          (Some reportS3)) = true /\
   (63 # 1250 < 273 # 2500)%Q).
Proof.
  split.
  - intros config pricing now s usage s' Hok Hstore.
    destruct (storeUsageData_true _ _ _ _ _ _ Hstore) as (Hnan & Hs').
    destruct (pass_shape config pricing now s usage Hok Hnan) as (Hsnap & _).
    cbv zeta in Hsnap. rewrite <- Hs' in Hsnap.
    eexists. split; [exact Hsnap|].
    cbn [UsageSnapshot.cumulative_cost_usd passSnapshot].
    assert (Hcost : totalCostOf (passRecords pricing now s usage) =
                    reportCost pricing usage).
    { unfold reportCost, passRecords. apply totalCostOf_costs, records_costs. }
    rewrite Hcost. split; [reflexivity|].
    intros Hp Ht.
    assert (0 <= reportCost pricing usage)%Q.
    { unfold reportCost. apply totalCostOf_nonneg. intros r Hr.
      exact (record_cost_nonneg pricing 0 0 usage r Hp Ht Hr). }
    split; [assumption | lra].
  - repeat split; vm_compute; reflexivity.
Qed.

End CumulativeCost.

(** ** Monotone daily counters within one upstream lifetime (C2) *)

Module Monotone.

Import Db Collector Runs Sums PassFacts Scenarios SelfHealing CumulativeCost.






Lemma addDelta_sumsNonneg bd m e d :
  sumsNonneg bd -> 0 <= dReq d -> 0 <= dTok d -> (0 <= dCost d)%Q ->
  sumsNonneg (addDelta bd m e d).
Proof.
  intros (A & B & C) Hr Ht Hc. unfold sumsNonneg.
  rewrite sumRequests_addDelta, sumTokens_addDelta, sumCost_addDelta.
  split; [lia | split; [lia | lra]].
Qed.






Lemma find_upsert_daily rows stats date :
  find (fun r => DailyStats.stat_date r =? date) (upsert_daily rows stats) =
  if DailyStats.stat_date stats =? date then Some stats
  else find (fun r => DailyStats.stat_date r =? date) rows.
Proof.
  induction rows as [|r rows IH]; simpl.
  - destruct (DailyStats.stat_date stats =? date); reflexivity.
  - destruct (Z.eqb_spec (DailyStats.stat_date r) (DailyStats.stat_date stats)) as [E|E];
      simpl.
    + destruct (Z.eqb_spec (DailyStats.stat_date stats) date) as [E'|E'];
        [reflexivity|].
      destruct (Z.eqb_spec (DailyStats.stat_date r) date) as [E''|E''];
        [congruence | reflexivity].
    + destruct (Z.eqb_spec (DailyStats.stat_date r) date) as [E''|E''].
      * destruct (Z.eqb_spec (DailyStats.stat_date stats) date) as [E'|E'];
          [congruence | reflexivity].
      * exact IH.
Qed.


End Monotone.

(** ** The scenarios S1 and S2 form one upstream lifetime *)

Module LifetimeS1S2.

Import Db Collector Runs Sums PassFacts Scenarios Monotone.

Lemma default_pricing_nonneg : pricingNonneg Pricing.DEFAULT_PRICING.
Proof.
  intros k p H. unfold Pricing.DEFAULT_PRICING in H.
  repeat (destruct H as [H|H];
          [injection H as <- <-; split; discriminate|]).
  destruct H.
Qed.

Ltac one_model :=
  repeat match goal with
         | H : In _ (modelsOf _) |- _ => cbv in H
         | H : In _ (ModelData.details _) |- _ => cbv in H
         | H : _ \/ _ |- _ => destruct H as [H|H]
         | H : False |- _ => destruct H
         | H : ?x = _ |- _ => subst x
         | H : _ = ?x |- _ => subst x
         end.










Lemma reportS3_tokensNonneg : tokensNonneg reportS3.
Proof.
  intros m d Hm Hd. one_model. cbv. split; discriminate.
Qed.

Lemma cumulative_cost_same_second_witness :
  exists snap,
    usage_snapshots afterS3 = snap :: usage_snapshots afterS2 /\
    (UsageSnapshot.cumulative_cost_usd snap ==
     lastCostTotal afterS2 + reportCost Pricing.DEFAULT_PRICING reportS3)%Q /\
    (0 <= reportCost Pricing.DEFAULT_PRICING reportS3)%Q /\
    (lastCostTotal afterS2 <= UsageSnapshot.cumulative_cost_usd snap)%Q.
Proof.
  destruct (proj1 CumulativeCost.cumulative_cost_same_second config7
              Pricing.DEFAULT_PRICING t2 afterS2 reportS3 afterS3)
    as (snap & A & B & C).
  - apply pass_StoreOk, pass_StoreOk, empty_StoreOk.
  - reflexivity.
  - exists snap. split; [exact A|]. split; [exact B|].
    exact (C default_pricing_nonneg reportS3_tokensNonneg).
Defined.

End LifetimeS1S2.

(** ** The false-start filter (C3) *)

Module FalseStart.

Import Db Collector Runs Sums PassFacts Scenarios.

(** The test of the filter is the one of the specification. *)
Lemma isFalseStart_iff d cCost :
  isFalseStart d cCost = true <->
  (10 < dCost d)%Q /\ (Qabs (dCost d - cCost) < 1 # 10)%Q.
Proof.
  unfold isFalseStart, FALSE_START_COST_THRESHOLD.
  rewrite andb_true_iff, !Qlt_bool_iff. reflexivity.
Qed.

(** A key that passes the test is left out of the breakdown delta and its
    [dReq], [dTok] and [dCost] are taken off the global increments. *)
Lemma false_start_skips_key prevUsageMap currUsageMap inc bd key :
  let d := keyDelta (obj_get prevUsageMap key) (obj_get currUsageMap key) in
  let cCost := fieldQ (obj_get currUsageMap key) ModelUsage.estimated_cost_usd in
  (10 < dCost d)%Q -> (Qabs (dCost d - cCost) < 1 # 10)%Q ->
  granularStep prevUsageMap currUsageMap (inc, bd) key =
  (mkIncs (incRequests inc - dReq d) (incSuccess inc) (incFailure inc)
     (incTokens inc - dTok d) (incCost inc - dCost d)%Q,
   bd).
Proof.
  intros d cCost H1 H2. unfold granularStep. fold d. fold cCost.
  assert (E : isFalseStart d cCost = true) by (apply isFalseStart_iff; split; assumption).
  rewrite E. reflexivity.
Qed.

(** C3, failing input. After S1 and S2 the upstream reports claude-opus
    for the first time, with 50 requests, a million tokens and 45 USD, all
    counted in the global counters. The key is skipped: requests, tokens,
    cost and breakdown of the daily row are those of a pass on which nothing
    happened upstream. But the 50 requests of the skipped model are added to
    [success_count], which ends at 65 with [total_requests] at 15: after the
    subtraction from [incRequests] the ratio that should scale success and
    failure down is not below 0.99, and the scaling does not happen. *)
Theorem false_start_leaks_into_success_count :
  exists withOpus without,
    getDailyStats afterS4 today = Some withOpus /\
    getDailyStats afterS2again today = Some without /\
    DailyStats.breakdown withOpus = DailyStats.breakdown without /\
    DailyStats.total_requests withOpus = 15 /\
    DailyStats.total_requests without = 15 /\
    DailyStats.total_tokens withOpus = DailyStats.total_tokens without /\
    DailyStats.estimated_cost_usd withOpus = DailyStats.estimated_cost_usd without /\
    DailyStats.success_count without = 15 /\
    DailyStats.success_count withOpus = 65.
Proof.
  eexists. eexists.
  split; [vm_compute; reflexivity|].
  split; [vm_compute; reflexivity|].
  repeat split.
Qed.

End FalseStart.

(** ** Restart recovery (C4) *)

Module Restart.

Import Db Collector Runs Sums PassFacts Scenarios SelfHealing Monotone.

Lemma Qminus_0_r_eq (q : Q) : (q - 0)%Q = q.
Proof.
  destruct q as [n d]. unfold Qminus, Qplus, Qopp. simpl.
  rewrite Z.mul_1_r, Z.add_0_r, Pos.mul_1_r. reflexivity.
Qed.

Lemma coarse_restart p curReq curSucc curFail curTok cum tot :
  curReq - UsageSnapshot.total_requests p < 0 \/
  curTok - UsageSnapshot.total_tokens p < 0 ->
  coarseDelta (Some p) curReq curSucc curFail curTok cum tot =
  mkIncs curReq curSucc curFail curTok tot.
Proof.
  intro H. unfold coarseDelta.
  destruct (Z.ltb_spec (curReq - UsageSnapshot.total_requests p) 0);
    [reflexivity|].
  destruct (Z.ltb_spec (curTok - UsageSnapshot.total_tokens p) 0);
    [reflexivity | lia].
Qed.

Lemma keyDelta_restart prev curr :
  fieldZ curr ModelUsage.request_count - fieldZ prev ModelUsage.request_count < 0 \/
  fieldZ curr ModelUsage.total_tokens - fieldZ prev ModelUsage.total_tokens < 0 ->
  keyDelta prev curr = currentTuple curr.
Proof.
  intro H. unfold keyDelta, currentTuple. cbn [dReq dTok].
  destruct (Z.ltb_spec
              (fieldZ curr ModelUsage.request_count -
               fieldZ prev ModelUsage.request_count) 0); [reflexivity|].
  destruct (Z.ltb_spec
              (fieldZ curr ModelUsage.total_tokens -
               fieldZ prev ModelUsage.total_tokens) 0); [reflexivity | lia].
Qed.

(** A key the previous snapshot does not know has its current tuple as its
    delta. *)
Lemma keyDelta_new curr : keyDelta None curr = currentTuple curr.
Proof.
  unfold keyDelta. destruct (_ || _); [reflexivity|].
  unfold currentTuple. cbn [fieldZ fieldQ dReq dTok dCost dIn dOut].
  rewrite !Z.sub_0_r, Qminus_0_r_eq. reflexivity.
Qed.

Lemma keyDelta_rolledBack prevRecords currRecords key :
  rolledBack prevRecords currRecords ->
  keyDelta (obj_get (usageMap prevRecords) key) (obj_get (usageMap currRecords) key)
  = currentTuple (obj_get (usageMap currRecords) key).
Proof.
  intro Hrb. destruct (obj_get (usageMap prevRecords) key) as [p|] eqn:E.
  - apply keyDelta_restart. specialize (Hrb key p E). cbv zeta in Hrb.
    cbn [fieldZ]. lia.
  - apply keyDelta_new.
Qed.

Lemma granularStep_rolledBack prevRecords currRecords acc key :
  rolledBack prevRecords currRecords -> currentSmall currRecords ->
  granularStep (usageMap prevRecords) (usageMap currRecords) acc key =
  (fst acc, addCurrent (usageMap currRecords) (snd acc) key).
Proof.
  intros Hrb Hsmall. unfold granularStep, addCurrent.
  rewrite (keyDelta_rolledBack _ _ key Hrb).
  destruct (Hsmall key) as (_ & _ & _ & Hc). cbv zeta in Hc.
  assert (E : isFalseStart (currentTuple (obj_get (usageMap currRecords) key))
                (fieldQ (obj_get (usageMap currRecords) key)
                   ModelUsage.estimated_cost_usd) = false).
  { unfold isFalseStart. apply andb_false_iff. left.
    apply Qlt_bool_false. exact Hc. }
  rewrite E. destruct (_ || _); [reflexivity|]. destruct acc; reflexivity.
Qed.

Lemma addCurrent_sumsNonneg currRecords bd key :
  currentSmall currRecords -> sumsNonneg bd ->
  sumsNonneg (addCurrent (usageMap currRecords) bd key).
Proof.
  intros Hsmall Hbd. unfold addCurrent.
  destruct (_ || _); [|exact Hbd].
  destruct (Hsmall key) as (A & B & C & _). cbv zeta in A, B, C.
  apply addDelta_sumsNonneg; assumption.
Qed.

Lemma granularDeltas_rolledBack prevRecords currRecords inc :
  rolledBack prevRecords currRecords -> currentSmall currRecords ->
  granularDeltas prevRecords currRecords inc =
  (inc,
   fold_left (addCurrent (usageMap currRecords))
     (allKeys (usageMap prevRecords) (usageMap currRecords))
     DailyStatsBreakdown.empty).
Proof.
  intros Hrb Hsmall. unfold granularDeltas.
  generalize (allKeys (usageMap prevRecords) (usageMap currRecords)) as keys.
  generalize DailyStatsBreakdown.empty as bd.
  intros bd keys. revert bd.
  induction keys as [|k keys IH]; intro bd; simpl; [reflexivity|].
  rewrite granularStep_rolledBack by assumption. apply IH.
Qed.

Lemma fold_addCurrent_sumsNonneg currRecords keys : forall bd,
  currentSmall currRecords -> sumsNonneg bd ->
  sumsNonneg (fold_left (addCurrent (usageMap currRecords)) keys bd).
Proof.
  induction keys as [|k keys IH]; intros bd Hsmall Hbd; simpl; [exact Hbd|].
  apply IH; [exact Hsmall|]. apply addCurrent_sumsNonneg; assumption.
Qed.

(** C4. With a previous snapshot and a negative coarse delta of requests or
    of tokens, every global increment is set to the value of the current
    snapshot, the cost increment to the cost of the current report; a key
    with negative [dReq] or [dTok] gets its current tuple as its delta. In
    the pass after an upstream reset (every key of the previous snapshot
    rolled back), if no key has a negative current counter or a current cost
    above 10 USD, the delta of every key is its current tuple, the breakdown
    delta is built from the current tuples alone, those of the keys with a
    request or a cost, and the daily increments of requests, tokens and cost
    are the sums of that breakdown delta and are not negative. But the
    false-start filter, which is meant for a new model with a large history,
    runs after the restart rule and does not ask whether the key is new:
    when the upstream restarts after 1000 requests and has served 200
    requests worth 18 USD at the next pass, the delta of the key is its
    current tuple, the filter takes it for a false start, and the day keeps
    its 1000 requests and its tokens instead of growing by the current
    values. *)
Theorem restart_recovery :
  (forall p curReq curSucc curFail curTok cum tot,
     curReq - UsageSnapshot.total_requests p < 0 \/
     curTok - UsageSnapshot.total_tokens p < 0 ->
     coarseDelta (Some p) curReq curSucc curFail curTok cum tot =
     mkIncs curReq curSucc curFail curTok tot) /\
  (forall prev curr,
     fieldZ curr ModelUsage.request_count - fieldZ prev ModelUsage.request_count < 0 \/
     fieldZ curr ModelUsage.total_tokens - fieldZ prev ModelUsage.total_tokens < 0 ->
     keyDelta prev curr = currentTuple curr) /\
  (forall prevRecords currRecords inc,
     rolledBack prevRecords currRecords -> currentSmall currRecords ->
     let gd := granularDeltas prevRecords currRecords inc in
     let daily := reconcile true (fst gd) (snd gd) in
     (forall key,
        let d := keyDelta (obj_get (usageMap prevRecords) key)
                   (obj_get (usageMap currRecords) key) in
        d = currentTuple (obj_get (usageMap currRecords) key) /\
        0 <= dReq d /\ 0 <= dTok d /\ (0 <= dCost d)%Q) /\
     snd gd =
       fold_left (addCurrent (usageMap currRecords))
         (allKeys (usageMap prevRecords) (usageMap currRecords))
         DailyStatsBreakdown.empty /\
     incRequests daily = sumRequests (DailyStatsBreakdown.models (snd gd)) /\
     incTokens daily = sumTokens (DailyStatsBreakdown.models (snd gd)) /\
     incCost daily = sumCost (DailyStatsBreakdown.models (snd gd)) /\
     0 <= incRequests daily /\ 0 <= incTokens daily /\ (0 <= incCost daily)%Q) /\
  (UsageData.total_requests reportAfterRestart <
     UsageData.total_requests reportBusy /\
   prevRecordsOf
     (stored Pricing.DEFAULT_PRICING t1 afterBusy reportAfterRestart) =
     latestRecords afterBusy /\
   map ModelUsage.request_count (latestRecords afterBusy) = [1000] /\
   map ModelUsage.request_count (latestRecords afterRestart) = [200] /\
   map ModelUsage.total_tokens (latestRecords afterRestart) = [400000] /\
   map (fun r => Qred (ModelUsage.estimated_cost_usd r))
     (latestRecords afterRestart) = [18%Q] /\
   (let prev := obj_get (usageMap (latestRecords afterBusy)) "gpt-4|chat" in
    let curr := obj_get (usageMap (latestRecords afterRestart)) "gpt-4|chat" in
    keyDelta prev curr = currentTuple curr /\
    isFalseStart (keyDelta prev curr)
      (fieldQ curr ModelUsage.estimated_cost_usd) = true) /\
   requestsOn afterBusy today = 1000 /\
   requestsOn afterRestart today = 1000 /\
   tokensOn afterBusy today = 2000000 /\
   tokensOn afterRestart today = 2000000 /\
   Qred (costOn afterRestart today) = Qred (costOn afterBusy today)).
Proof.
  split; [exact coarse_restart|]. split; [exact keyDelta_restart|].
  split; [|repeat split; vm_compute; reflexivity].
  intros prevRecords currRecords inc Hrb Hsmall gd daily.
  split.
  { intros key d. subst d. rewrite (keyDelta_rolledBack _ _ key Hrb).
    destruct (Hsmall key) as (A & B & C & _). cbv zeta in A, B, C.
    split; [reflexivity|]. split; [exact A | split; [exact B | exact C]]. }
  assert (Egd : snd gd =
    fold_left (addCurrent (usageMap currRecords))
      (allKeys (usageMap prevRecords) (usageMap currRecords))
      DailyStatsBreakdown.empty).
  { subst gd. rewrite granularDeltas_rolledBack by assumption. reflexivity. }
  split; [exact Egd|].
  destruct (reconcile_true_sums (fst gd) (snd gd)) as (R1 & R2 & R3).
  fold daily in R1, R2, R3.
  assert (N : sumsNonneg (snd gd)).
  { rewrite Egd. apply fold_addCurrent_sumsNonneg; [exact Hsmall|].
    unfold sumsNonneg, sumRequests, sumTokens, sumCost. simpl.
    split; [lia | split; [lia | lra]]. }
  destruct N as (N1 & N2 & N3).
  rewrite R1, R2, R3.
  split; [reflexivity|]. split; [reflexivity|]. split; [reflexivity|].
  split; [exact N1 | split; [exact N2 | exact N3]].
Qed.

Lemma rowsS2_rowsS3_rolledBack : rolledBack rowsS2 rowsS3.
Proof.
  intros key p. unfold rowsS2, rowsS3.
  intro H. cbv zeta.
  assert (Ek : obj_get (usageMap (latestRecords afterS2)) key =
               if String.eqb "gpt-4|chat" key
               then Some (ModelUsage.mk 2 "gpt-4" (Pricing.calculateCost 960 640 (ModelPricing.mk 30 60))
                            15 960 640 1600 "chat" t1)
               else None) by reflexivity.
  assert (Ec : obj_get
                 (usageMap
                    (modelRecordsOf Pricing.DEFAULT_PRICING
                       (next_snapshot_id afterS2) t2 reportS3)) key =
               if String.eqb "gpt-4|chat" key
               then Some (ModelUsage.mk 3 "gpt-4" (Pricing.calculateCost 120 80 (ModelPricing.mk 30 60))
                            2 120 80 200 "chat" t2)
               else None) by reflexivity.
  rewrite Ek in H. rewrite Ec.
  destruct (String.eqb "gpt-4|chat" key); [|discriminate H].
  injection H as <-. cbn. left. lia.
Qed.

Lemma rowsS3_currentSmall : currentSmall rowsS3.
Proof.
  intro key. cbv zeta.
  assert (Ec : obj_get (usageMap rowsS3) key =
               if String.eqb "gpt-4|chat" key
               then Some (ModelUsage.mk 3 "gpt-4" (Pricing.calculateCost 120 80 (ModelPricing.mk 30 60))
                            2 120 80 200 "chat" t2)
               else None) by reflexivity.
  rewrite Ec. destruct (String.eqb "gpt-4|chat" key); cbn.
  - repeat split; discriminate.
  - repeat split; discriminate.
Qed.

Lemma restart_recovery_witness :
  coarseDelta (Some (UsageSnapshot.mk 2 t1 15 15 0 1600 (273 # 2500))) 2 2 0 200
    (1 # 5) (1 # 10) = mkIncs 2 2 0 200 (1 # 10) /\
  keyDelta (Some (ModelUsage.mk 2 "gpt-4" (42 # 625) 15 960 640 1600 "chat" t1))
    (Some (ModelUsage.mk 3 "gpt-4" (21 # 2500) 2 120 80 200 "chat" t2)) =
  mkKeyDelta 2 200 (21 # 2500) 120 80 /\
  incRequests
    (reconcile true (fst (granularDeltas rowsS2 rowsS3 (mkIncs 2 2 0 200 (1 # 10))))
       (snd (granularDeltas rowsS2 rowsS3 (mkIncs 2 2 0 200 (1 # 10))))) =
  sumRequests
    (DailyStatsBreakdown.models
       (snd (granularDeltas rowsS2 rowsS3 (mkIncs 2 2 0 200 (1 # 10))))).
Proof.
  destruct restart_recovery as (A & B & C & _).
  split; [apply A; left; reflexivity|].
  split; [apply (B (Some (ModelUsage.mk 2 "gpt-4" (42 # 625) 15 960 640 1600 "chat" t1))
                   (Some (ModelUsage.mk 3 "gpt-4" (21 # 2500) 2 120 80 200 "chat" t2)));
          left; reflexivity|].
  destruct (C rowsS2 rowsS3 (mkIncs 2 2 0 200 (1 # 10)) rowsS2_rowsS3_rolledBack
              rowsS3_currentSmall) as (_ & _ & R & _).
  exact R.
Defined.

End Restart.

(** ** The queries of the reconciler *)

Module QueryFacts.

Import Db RateLimiter Windows Sums.

Lemma In_insert_by r l x : In x (insert_by r l) <-> x = r \/ In x l.
Proof.
  induction l as [|y l IH]; simpl.
  - split; [intros [<-|[]]; left; reflexivity | intros [->|[]]; left; reflexivity].
  - destruct (ModelUsage.created_at y <=? ModelUsage.created_at r); simpl.
    + split; [intros [<-|H]; [left; reflexivity | right; exact H]
             | intros [->|H]; [left; reflexivity | right; exact H]].
    + rewrite IH. split.
      * intros [<-|[->|H]]; [right; left | left | right; right]; trivial.
      * intros [->|[<-|H]]; [right; left | left | right; right]; trivial.
Qed.

Lemma In_indexed l x : In x (fold_right insert_by [] l) <-> In x l.
Proof.
  induction l as [|y l IH]; simpl; [reflexivity|].
  rewrite In_insert_by, IH. split; intros [H|H]; auto.
Qed.

Lemma In_order_by o l x : In x (order_by o l) <-> In x l.
Proof.
  unfold order_by. destruct o.
  - rewrite <- in_rev. apply In_indexed.
  - apply In_indexed.
Qed.

Lemma firstTime_firstn l : firstTime (firstn 1 l) = firstTime l.
Proof. destruct l; reflexivity. Qed.

(** The row selected by a query with [LIMIT 1] is a row of the table that
    matches the pattern and lies within the bounds, as the texts compare:
    its date is after the date of the lower bound, and at most the date of
    the upper bound. *)
Lemma firstTime_query_In s pattern sinceTime beforeTime o t :
  firstTime (getModelUsageByPattern s pattern sinceTime beforeTime o (Some 1%nat))
    = Some t ->
  exists r,
    In r (model_usage s) /\ matchesPattern pattern r = true /\
    ModelUsage.created_at r = t /\
    (forall lo, sinceTime = Some lo -> dateOf lo < dateOf t) /\
    (forall hi, beforeTime = Some hi -> dateOf t <= dateOf hi).
Proof.
  unfold getModelUsageByPattern. rewrite firstTime_firstn.
  destruct (order_by o _) as [|r rest] eqn:E; [discriminate|].
  intro Ht. injection Ht as <-.
  assert (Hin : In r (order_by o
    (filter
       (fun r0 =>
          matchesPattern pattern r0 &&
          match sinceTime with
          | Some t => textGe (ModelUsage.created_at r0) t
          | None => true
          end &&
          match beforeTime with
          | Some t => textLt (ModelUsage.created_at r0) t
          | None => true
          end) (model_usage s)))) by (rewrite E; left; reflexivity).
  apply In_order_by, filter_In in Hin. destruct Hin as (Hin & Hf).
  apply andb_true_iff in Hf. destruct Hf as (Hf & Hb).
  apply andb_true_iff in Hf. destruct Hf as (Hm & Hs).
  exists r. split; [exact Hin|]. split; [exact Hm|]. split; [reflexivity|].
  split.
  - intros lo ->. apply Z.ltb_lt. exact Hs.
  - intros hi ->. apply Z.leb_le. exact Hb.
Qed.







Lemma Qfloor_half z : Qfloor (inject_Z z + (1 # 2)) = z.
Proof.
  apply Z.le_antisymm.
  - assert (H : (inject_Z (Qfloor (inject_Z z + (1 # 2))) < inject_Z (z + 1))%Q).
    { eapply Qle_lt_trans; [apply Qfloor_le|].
      rewrite inject_Z_plus. apply Qplus_lt_r. reflexivity. }
    rewrite <- Zlt_Qlt in H. lia.
  - rewrite <- (Qfloor_Z z) at 1. apply Qfloor_resp_le.
    rewrite <- (Qplus_0_r (inject_Z z)) at 1. apply Qplus_le_r. discriminate.
Qed.

(** Interpolating between a value and itself gives the value back. *)
Lemma Math_round_same z ratio :
  Math_round (inject_Z z + ratio * inject_Z (z - z)) = z.
Proof.
  unfold Math_round. rewrite Z.sub_diag.
  assert (E : (inject_Z z + ratio * inject_Z 0 + (1 # 2) ==
               inject_Z z + (1 # 2))%Q) by (unfold inject_Z; ring).
  rewrite E. apply Qfloor_half.
Qed.

Lemma In_set_of_acc l : forall acc k,
  In k (fold_left (fun acc k => if mem k acc then acc else acc ++ [k]) l acc) <->
  In k acc \/ In k l.
Proof.
  induction l as [|a l IH]; intros acc k; simpl.
  - split; [intro H; left; exact H | intros [H|[]]; exact H].
  - rewrite IH. destruct (mem a acc) eqn:E.
    + split.
      * intros [H|H]; [left; exact H | right; right; exact H].
      * intros [H|[<-|H]]; [left; exact H | left | right; exact H].
        unfold mem in E. apply existsb_exists in E.
        destruct E as (x & Hx & Ex). apply String.eqb_eq in Ex. subst x. exact Hx.
    + rewrite in_app_iff. simpl. split.
      * intros [[H|[<-|[]]]|H]; [left; exact H | right; left; reflexivity
                                | right; right; exact H].
      * intros [H|[<-|H]]; [left; left; exact H | left; right; left; reflexivity
                           | right; exact H].
Qed.

Lemma In_set_of l k : In k (set_of l) <-> In k l.
Proof.
  unfold set_of. rewrite In_set_of_acc. simpl. split; [intros [[]|H]; exact H | auto].
Qed.

Lemma obj_get_set {V : Type} (o : Obj V) k v k' :
  obj_get (obj_set o k v) k' = if String.eqb k k' then Some v else obj_get o k'.
Proof.
  induction o as [|[k0 v0] o IH]; simpl.
  - reflexivity.
  - destruct (String.eqb_spec k0 k) as [->|Hne]; simpl.
    + destruct (String.eqb k k'); reflexivity.
    + destruct (String.eqb_spec k0 k') as [->|Hne'].
      * destruct (String.eqb_spec k k'); [congruence | reflexivity].
      * exact IH.
Qed.

Lemma obj_get_None_keys {V : Type} (o : Obj V) k :
  ~ In k (obj_keys o) -> obj_get o k = None.
Proof.
  induction o as [|[k0 v0] o IH]; simpl; [reflexivity|].
  intro H. destruct (String.eqb_spec k0 k) as [->|Hne].
  - exfalso. apply H. left. reflexivity.
  - apply IH. intro Hin. apply H. right. exact Hin.
Qed.

Lemma obj_get_Some_keys {V : Type} (o : Obj V) k v :
  obj_get o k = Some v -> In k (obj_keys o).
Proof.
  induction o as [|[k0 v0] o IH]; simpl; [discriminate|].
  destruct (String.eqb_spec k0 k) as [->|Hne].
  - intros _. left. reflexivity.
  - intro H. right. apply IH. exact H.
Qed.

(** What a loop of assignments [o[k] = f(k)] leaves under a key. *)
Lemma obj_get_fold_set {V : Type} (f : string -> V) keys : forall (o : Obj V) k,
  obj_get (fold_left (fun acc k => obj_set acc k (f k)) keys o) k =
  if mem k keys then Some (f k) else obj_get o k.
Proof.
  induction keys as [|a keys IH]; intros o k; simpl; [reflexivity|].
  rewrite IH, obj_get_set. rewrite (String.eqb_sym k a).
  destruct (String.eqb_spec a k) as [->|Hne]; simpl.
  - destruct (mem k keys); reflexivity.
  - reflexivity.
Qed.

Lemma mem_In k l : mem k l = true <-> In k l.
Proof.
  unfold mem. rewrite existsb_exists. split.
  - intros (x & Hx & E). apply String.eqb_eq in E. subst x. exact Hx.
  - intro H. exists k. split; [exact H | apply String.eqb_refl].
Qed.

End QueryFacts.

(** ** The reset anchor (C6) *)

Module ResetAnchor.

Import Db RateLimiter Windows Sums QueryFacts Scenarios.






Lemma find_upsert_status rows status :
  find (fun r => RateLimitStatus.config_id r =? RateLimitStatus.config_id status)
    (upsert_status rows status) = Some status.
Proof.
  induction rows as [|r rows IH]; simpl.
  - rewrite Z.eqb_refl. reflexivity.
  - destruct (Z.eqb_spec (RateLimitStatus.config_id r)
                (RateLimitStatus.config_id status)) as [E|E]; simpl.
    + rewrite Z.eqb_refl. reflexivity.
    + destruct (Z.eqb_spec (RateLimitStatus.config_id r)
                  (RateLimitStatus.config_id status)); [contradiction | exact IH].
Qed.



End ResetAnchor.

(** ** The scenario S6 *)

Module ResetS6.

Import Db RateLimiter Windows Scenarios.



End ResetS6.

(** ** The windows of the three strategies (C7) *)

Module WindowFacts.

Import Db RateLimiter Windows Scenarios ResetAnchor.

Lemma statusOf_window now configId usedTokens usedRequests windowStart nextReset
  tokenLimit requestLimit :
  let st := statusOf now configId usedTokens usedRequests windowStart nextReset
              tokenLimit requestLimit in
  RateLimitStatus.config_id st = configId /\
  RateLimitStatus.window_start st = windowStart /\
  RateLimitStatus.next_reset st = nextReset /\
  RateLimitStatus.used_tokens st = usedTokens /\
  RateLimitStatus.used_requests st = usedRequests.
Proof.
  unfold statusOf.
  destruct (positiveLimit tokenLimit); [|destruct (positiveLimit requestLimit)];
    cbn; repeat split; reflexivity.
Qed.

Lemma setHours0_midnight d :
  setHours0 d mod msPerDay = 0 /\ setHours0 d <= d < setHours0 d + msPerDay.
Proof.
  unfold setHours0, msPerDay. Z.div_mod_to_equations. lia.
Qed.

Lemma weekly_start d :
  let startOfToday := setHours0 d in
  let daysSinceMonday :=
    if getDay startOfToday =? 0 then 6 else getDay startOfToday - 1 in
  let ws := addDays startOfToday (- daysSinceMonday) in
  ws mod msPerDay = 0 /\ getDay ws = 1 /\ ws <= d < ws + 7 * msPerDay.
Proof.
  cbv zeta. unfold addDays, getDay, setHours0, msPerDay.
  destruct (Z.eqb_spec (((d - d mod 86400000) / 86400000 + 4) mod 7) 0) as [E|E];
    Z.div_mod_to_equations; lia.
Qed.

(** C7. With the local time of the pass at UTC plus the configured offset
    hours: the window of a daily configuration starts at the most recent
    local midnight and its next reset is 24 hours later; the window of a
    weekly configuration starts at the most recent Monday 00:00 local, six
    days before today's midnight on a Sunday, and its next reset is 7 days
    later; the window of a rolling configuration starts [window_minutes]
    before now and its next reset is one minute after now. A complete
    configuration gets that next reset in its status, and that window start
    unless a later reset anchor replaces it. *)
Theorem window_computation config now windowMinutes :
  let local := getLocalDateTime config now in
  local = now + Config.timezoneOffset config * 3600000 /\
  (exists ws,
     naturalWindow "daily" windowMinutes local = Some (ws, ws + 24 * 3600000) /\
     ws mod msPerDay = 0 /\ ws <= local < ws + msPerDay) /\
  (exists ws,
     naturalWindow "weekly" windowMinutes local = Some (ws, ws + 7 * msPerDay) /\
     ws mod msPerDay = 0 /\ getDay ws = 1 /\ ws <= local < ws + 7 * msPerDay /\
     (getDay (setHours0 local) = 0 -> ws = setHours0 local - 6 * msPerDay)) /\
  naturalWindow "rolling" windowMinutes local =
    Some (local - windowMinutes * 60000, local + 60000) /\
  (forall s c ws nextReset,
     incomplete c = false ->
     naturalWindow (RateLimitConfig.reset_strategy c)
       (RateLimitConfig.window_minutes c) local = Some (ws, nextReset) ->
     exists st,
       getRateLimitStatus (processConfig config now s c) (RateLimitConfig.id c)
         = Some st /\
       RateLimitStatus.window_start st =
         effectiveWindowStart ws (RateLimitConfig.reset_anchor_timestamp c) /\
       RateLimitStatus.next_reset st = Some nextReset).
Proof.
  intro local. split; [unfold local, getLocalDateTime; lia|].
  split.
  { exists (setHours0 local). split; [reflexivity|]. apply setHours0_midnight. }
  split.
  { pose proof (weekly_start local) as H. cbv zeta in H.
    eexists. split; [reflexivity|].
    destruct H as (A & B & C). split; [exact A|]. split; [exact B|].
    split; [exact C|].
    intro E. rewrite E. unfold addDays. cbn [Z.eqb]. lia. }
  split.
  { change (naturalWindow "rolling" windowMinutes local)
      with (Some (addMinutes local (- windowMinutes), addMinutes local 1)).
    unfold addMinutes, msPerMinute. f_equal. f_equal; lia. }
  intros s c ws nextReset Hc Hw.
  unfold processConfig. fold local. rewrite Hc, Hw.
  unfold updateStatus, getRateLimitStatus, upsertRateLimitStatus, with_status.
  cbn [rate_limit_status].
  match goal with
  | |- context [upsert_status _ (statusOf ?a ?b ?c ?d ?e ?f ?g ?h)] =>
      destruct (statusOf_window a b c d e f g h) as (W1 & W2 & W3 & _);
      remember (statusOf a b c d e f g h) as st eqn:Est
  end.
  exists st. split; [|split; [exact W2 | exact W3]].
  rewrite <- W1. apply find_upsert_status.
Qed.

Lemma window_computation_witness :
  exists st,
    getRateLimitStatus (processConfig configUtc passS5 storeS5 configS5) 5 = Some st /\
    RateLimitStatus.window_start st = windowS5 /\
    RateLimitStatus.next_reset st = Some (passS5 + 60000).
Proof.
  destruct (window_computation configUtc passS5 300) as (_ & _ & _ & _ & H).
  exact (H storeS5 configS5 windowS5 (passS5 + 60000) eq_refl eq_refl).
Defined.

End WindowFacts.

(** ** Gap interpolation (C5) *)

Module Gap.

Import Db RateLimiter Windows Sums QueryFacts Scenarios.

Lemma clip01 q : (0 <= q)%Q -> (q <= 1)%Q -> (Qmax 0 (Qmin 1 q) == q)%Q.
Proof.
  intros H0 H1.
  assert (E : (Qmin 1 q == q)%Q) by (apply Q.min_r; exact H1).
  rewrite Q.max_r; [exact E|]. rewrite E. exact H0.
Qed.

Lemma inject_Z_pos d : 0 < d -> (0 < inject_Z d)%Q.
Proof.
  intro H. rewrite Zlt_Qlt in H. exact H.
Qed.

Lemma gap_threshold d :
  1800000 < d -> Qlt_bool GAP_THRESHOLD_SECONDS (inject_Z d / 1000) = true.
Proof.
  intro H. apply Qlt_bool_iff. unfold GAP_THRESHOLD_SECONDS.
  apply Qlt_shift_div_l; [reflexivity|].
  rewrite Zlt_Qlt in H. exact H.
Qed.

(** The ratio of the gap branch is the quotient of the two time
    differences, clipped to [0,1]. *)
Lemma gapRatio_clipped since baseline firstInner :
  baseline < firstInner ->
  (gapRatio since baseline firstInner ==
   Qmax 0 (Qmin 1 (inject_Z (since - baseline) /
                   inject_Z (firstInner - baseline))))%Q.
Proof.
  intro Hf.
  assert (P2 : (0 < inject_Z (firstInner - baseline))%Q) by (apply inject_Z_pos; lia).
  assert (N2 : ~ (inject_Z (firstInner - baseline) == 0)%Q)
    by (intro E; rewrite E in P2; discriminate P2).
  assert (G : (0 < inject_Z (firstInner - baseline) / 1000)%Q)
    by (apply Qlt_shift_div_l; [reflexivity | rewrite Qmult_0_l; exact P2]).
  unfold gapRatio.
  apply Qlt_bool_iff in G. rewrite G.
  assert (E : (inject_Z (since - baseline) / 1000 /
               (inject_Z (firstInner - baseline) / 1000) ==
               inject_Z (since - baseline) / inject_Z (firstInner - baseline))%Q).
  { field. exact N2. }
  rewrite E. reflexivity.
Qed.

(** C5. When a baseline row exists and the first inner row comes more than
    30 minutes after it, the usage of the window is the delta between the
    latest snapshot and a baseline interpolated, model by model, between the
    maps of the baseline and of the first inner snapshot: each counter is the
    baseline counter plus ratio times its growth up to the first inner
    snapshot, rounded to an integer, with the ratio (window start - baseline
    time) / (first inner time - baseline time) clipped to [0,1]. The baseline
    and the first inner row are those the two queries select, and the
    queries compare the stored text of [created_at] with the text of
    [toISOString()]: in the scenario S5, with rows at 10000 tokens 240
    minutes before the start of the 300-minute rolling window, at 10100
    tokens 10 minutes after it and at 10200 tokens at the time of the pass,
    the row 10 minutes after the window start is on the date of the window
    start and is taken as the baseline, the latest row as the first inner
    row; the ratio is clipped to 0, the interpolated baseline is 10100
    tokens, and the status reports 100 used tokens, not 104. *)
Theorem gap_interpolation_S5 :
  (forall s modelPattern since latest baseline firstInner,
     latestTimeOf s modelPattern = Some latest -> since <= latest ->
     baselineTimeOf s modelPattern since = Some baseline ->
     firstInnerTimeOf s modelPattern since = Some firstInner ->
     30 * 60000 < firstInner - baseline ->
     let ratio := gapRatio since baseline firstInner in
     let baselineMap := buildSnapshotMap s modelPattern baseline in
     let firstInnerMap := buildSnapshotMap s modelPattern firstInner in
     let interpolated := interpolateSnapshotMap baselineMap firstInnerMap ratio in
     calculateUsage s modelPattern since =
       calculateDeltaFromSnapshots s modelPattern latest baseline
         (Some interpolated) /\
     (ratio == Qmax 0 (Qmin 1 (inject_Z (since - baseline) /
                               inject_Z (firstInner - baseline))))%Q /\
     (forall modelName b,
        obj_get baselineMap modelName = Some b ->
        let inner :=
          match obj_get firstInnerMap modelName with
          | Some f => f
          | None => b
          end in
        obj_get interpolated modelName =
        Some (UsageCalculation.mk
                (Math_round
                   (inject_Z (UsageCalculation.total_tokens b) +
                    ratio * inject_Z (UsageCalculation.total_tokens inner -
                                      UsageCalculation.total_tokens b)))
                (Math_round
                   (inject_Z (UsageCalculation.request_count b) +
                    ratio * inject_Z (UsageCalculation.request_count inner -
                                      UsageCalculation.request_count b)))))) /\
  (map ModelUsage.created_at (model_usage storeS5) =
     [windowS5 - 240 * 60000; windowS5 + 10 * 60000; passS5] /\
   map ModelUsage.total_tokens (model_usage storeS5) = [10000; 10100; 10200] /\
   dateOf (windowS5 + 10 * 60000) = dateOf windowS5 /\
   latestTimeOf storeS5 "gpt" = Some passS5 /\
   baselineTimeOf storeS5 "gpt" windowS5 = Some (windowS5 + 10 * 60000) /\
   firstInnerTimeOf storeS5 "gpt" windowS5 = Some passS5 /\
   Qred (gapRatio windowS5 (windowS5 + 10 * 60000) passS5) = 0%Q /\
   obj_get
     (interpolateSnapshotMap
        (buildSnapshotMap storeS5 "gpt" (windowS5 + 10 * 60000))
        (buildSnapshotMap storeS5 "gpt" passS5)
        (gapRatio windowS5 (windowS5 + 10 * 60000) passS5))
     "gpt-4" = Some (UsageCalculation.mk 10100 11) /\
   calculateUsage storeS5 "gpt" windowS5 = UsageCalculation.mk 100 1 /\
   option_map RateLimitStatus.used_tokens
     (getRateLimitStatus (syncLimits configUtc passS5 storeS5) 5) = Some 100 /\
   option_map RateLimitStatus.window_start
     (getRateLimitStatus (syncLimits configUtc passS5 storeS5) 5) = Some windowS5).
Proof.
  split.
  - intros s modelPattern since latest baseline firstInner Hl Hsl Hb Hf Hgap
      ratio baselineMap firstInnerMap interpolated.
    unfold latestTimeOf in Hl. unfold baselineTimeOf in Hb.
    unfold firstInnerTimeOf in Hf.
    split.
    { unfold calculateUsage. rewrite Hl, Hb, Hf.
      destruct (Z.ltb_spec latest since); [lia|].
      rewrite gap_threshold by lia. reflexivity. }
    split.
    { apply gapRatio_clipped. lia. }
    intros modelName b Hget inner. subst interpolated.
    unfold interpolateSnapshotMap. rewrite obj_get_fold_set.
    assert (M : mem modelName (set_of (obj_keys baselineMap ++ obj_keys firstInnerMap))
                = true).
    { apply mem_In, In_set_of, in_or_app. left.
      apply (obj_get_Some_keys _ _ _ Hget). }
    rewrite M. unfold interpolateRecord. rewrite Hget. reflexivity.
  - repeat split; vm_compute; reflexivity.
Qed.

Lemma gap_interpolation_S5_witness :
  calculateUsage storeS5 "gpt" windowS5 =
  calculateDeltaFromSnapshots storeS5 "gpt" passS5 (windowS5 + 10 * 60000)
    (Some
       (interpolateSnapshotMap
          (buildSnapshotMap storeS5 "gpt" (windowS5 + 10 * 60000))
          (buildSnapshotMap storeS5 "gpt" passS5)
          (gapRatio windowS5 (windowS5 + 10 * 60000) passS5))).
Proof.
  destruct gap_interpolation_S5 as (G & _).
  destruct (G storeS5 "gpt" windowS5 passS5 (windowS5 + 10 * 60000) passS5)
    as (E & _).
  - reflexivity.
  - discriminate.
  - reflexivity.
  - reflexivity.
  - reflexivity.
  - exact E.
Defined.

End Gap.

(** ** Passes in flight (C8) *)

Module InFlight.

Import Server Loop.

Lemma run_app sch l1 l2 : run sch (l1 ++ l2) = run (run sch l1) l2.
Proof. unfold run. apply fold_left_app. Qed.

(** C8, as amended. No gate limits the passes in flight. The manual trigger
    always answers 202 at once and starts a pass of its own, and a tick of
    the interval timer starts one too, whether or not an earlier pass is
    still running; the end of a pass leaves the timer alone. After
    [start()] at time [now] and any events other than [start()] and
    [stop()], the timer is due at [now] plus (1 + the number of ticks so far)
    intervals, and the passes started are one for [start()], one per tick
    and one per trigger. *)
Theorem trigger_never_coalesces :
  (forall sch,
     status (fst (postTrigger sch)) = 202 /\
     Scheduler.inFlight (snd (postTrigger sch)) = S (Scheduler.inFlight sch) /\
     Scheduler.started (snd (postTrigger sch)) = S (Scheduler.started sch)) /\
  (forall sch fireAt,
     Scheduler.intervalId sch = Some fireAt ->
     Scheduler.inFlight (Scheduler.tick sch) = S (Scheduler.inFlight sch) /\
     Scheduler.intervalId (Scheduler.tick sch) =
       Some (fireAt + Scheduler.intervalMs sch)) /\
  (forall sch,
     Scheduler.intervalId (Scheduler.settle sch) = Scheduler.intervalId sch) /\
  (forall intervalSeconds now events,
     forallb keepsTimer events = true ->
     let sch := run (Scheduler.start now (Scheduler.create intervalSeconds)) events in
     Scheduler.intervalId sch =
       Some (now + (1 + ticks events) * (intervalSeconds * 1000)) /\
     Z.of_nat (Scheduler.started sch) = 1 + ticks events + triggers events).
Proof.
  split; [intro sch; repeat split|].
  split.
  { intros sch fireAt H. unfold Scheduler.tick. rewrite H. split; reflexivity. }
  split; [reflexivity|].
  intros intervalSeconds now events.
  induction events as [|e events IH] using rev_ind; intros Hk sch.
  - subst sch. unfold ticks, triggers, run, Scheduler.start, Scheduler.create.
    cbn [fold_left Scheduler.intervalId Scheduler.callTask Scheduler.intervalMs
         Scheduler.started Scheduler.inFlight filter List.length Z.of_nat].
    split; [f_equal; lia | reflexivity].
  - rewrite forallb_app in Hk. apply andb_true_iff in Hk. destruct Hk as (Hk & He).
    specialize (IH Hk). cbv zeta in IH. destruct IH as (I1 & I2).
    subst sch. rewrite run_app.
    remember (run (Scheduler.start now (Scheduler.create intervalSeconds)) events)
      as sch0 eqn:E0.
    assert (Hms : Scheduler.intervalMs sch0 = intervalSeconds * 1000).
    { rewrite E0. clear. induction events as [|e' events IH'] using rev_ind.
      - reflexivity.
      - rewrite run_app. cbn [run fold_left handle].
        destruct e'; cbn [handle postTrigger snd]; try exact IH'.
        + unfold Scheduler.start. destruct (Scheduler.intervalId _); exact IH'.
        + unfold Scheduler.tick. destruct (Scheduler.intervalId _); exact IH'. }
    unfold ticks, triggers in *. rewrite !filter_app, !length_app.
    cbn [run fold_left handle].
    destruct e; cbn [keepsTimer forallb andb] in He; try discriminate He;
      cbn [handle postTrigger snd filter isTimerFires isTrigger List.length].
    + unfold Scheduler.tick. rewrite I1.
      cbn [Scheduler.intervalId Scheduler.started Scheduler.callTask
           Scheduler.intervalMs].
      rewrite Hms. split; [f_equal; lia | lia].
    + cbn [Scheduler.intervalId Scheduler.started Scheduler.callTask].
      rewrite I1. split; [f_equal; lia | lia].
    + cbn [Scheduler.intervalId Scheduler.started Scheduler.settle].
      rewrite I1. split; [f_equal; lia | lia].
Qed.

Lemma trigger_never_coalesces_witness :
  Scheduler.inFlight
    (Scheduler.tick (Scheduler.start 0 (Scheduler.create 300))) = 2%nat /\
  Scheduler.intervalId
    (run (Scheduler.start 0 (Scheduler.create 300))
       [Trigger; TimerFires; PassSettles]) = Some 600000.
Proof.
  destruct trigger_never_coalesces as (_ & T & _ & R).
  split.
  - exact (proj1 (T (Scheduler.start 0 (Scheduler.create 300)) 300000 eq_refl)).
  - exact (proj1 (R 300 0 [Trigger; TimerFires; PassSettles] eq_refl)).
Defined.

(** C8 as stated fails: a manual trigger that arrives while the pass begun
    by [start()] is still running starts a second pass, and so does a tick of
    the timer; with the first pass still running when the timer fires at
    300 s, the next tick is due at 600 s whenever the two passes end. *)
Lemma single_pass_in_flight_counterexample :
  Scheduler.inFlight (run (Scheduler.create 300) [Start 0; Trigger]) = 2%nat /\
  Scheduler.inFlight (run (Scheduler.create 300) [Start 0; TimerFires]) = 2%nat /\
  status (fst (postTrigger (run (Scheduler.create 300) [Start 0]))) = 202 /\
  Scheduler.intervalId
    (run (Scheduler.create 300) [Start 0; TimerFires; PassSettles; PassSettles])
    = Some 600000.
Proof.
  repeat split.
Qed.

End InFlight.

(** ** The reset route (C9) *)

Module ResetRoute.

Import Db RateLimiter Windows Server Scenarios ResetAnchor.

Lemma includes_app_r a b sub :
  includes b sub = true -> includes (a ++ b)%string sub = true.
Proof.
  intro H. induction a as [|c a IH]; simpl; [exact H|].
  rewrite IH. apply orb_true_r.
Qed.

Lemma not_found_message id :
  includes ("Configuration with id " ++ decimal id ++ " not found.")%string
    "not found" = true.
Proof.
  apply includes_app_r, includes_app_r. reflexivity.
Qed.

(** What the route answers: 400 when [parseInt] finds no number, 404 when no
    configuration has the parsed id, 500 when an operation of the store
    throws, and 200 with percentage 100 otherwise, after the status row and
    the anchor were written. *)
Lemma postReset_responses config now s config_id :
  (forall fault,
     parseInt config_id = None ->
     postReset config fault now s config_id =
     (mkResponse 400 (ErrorBody "Invalid config_id"), s)) /\
  (forall id c,
     parseInt config_id = Some id -> getRateLimitConfig s id = Some c ->
     let out := postReset config NoFault now s config_id in
     status (fst out) = 200 /\
     (exists message label, body (fst out) = ResetBody message (Some (100, label))) /\
     getRateLimitStatus (snd out) id =
       Some (RateLimitStatus.mk id (orZero (RateLimitConfig.token_limit c))
               (orZero (RateLimitConfig.request_limit c)) 0 0 100
               (resetLabel (orZero (RateLimitConfig.token_limit c))
                  (orZero (RateLimitConfig.request_limit c)))
               (getLocalDateTime config now) (getLocalDateTime config now) None) /\
     rate_limit_configs (snd out) =
       rate_limit_configs
         (updateRateLimitConfigAnchor s id (getLocalDateTime config now))) /\
  (forall id fault,
     parseInt config_id = Some id -> getRateLimitConfig s id = None ->
     fault <> GetConfigFails ->
     status (fst (postReset config fault now s config_id)) = 404 /\
     snd (postReset config fault now s config_id) = s) /\
  (forall id c fault,
     parseInt config_id = Some id -> getRateLimitConfig s id = Some c ->
     fault <> NoFault ->
     status (fst (postReset config fault now s config_id)) = 500).
Proof.
  split.
  { intros fault H. unfold postReset. rewrite H. reflexivity. }
  split.
  { intros id c Hp Hc out. subst out. unfold postReset, resetLimit.
    rewrite Hp, Hc. cbn [fst snd success message newStatus status body].
    split; [reflexivity|]. split; [eexists; eexists; reflexivity|].
    split; [|reflexivity].
    unfold getRateLimitStatus, updateRateLimitConfigAnchor, with_configs,
      upsertRateLimitStatus, with_status. cbn [rate_limit_status].
    match goal with
    | |- find _ (upsert_status ?rows ?rec) = _ =>
        exact (find_upsert_status rows rec)
    end. }
  split.
  { intros id fault Hp Hc Hf. unfold postReset, resetLimit. rewrite Hp, Hc.
    destruct fault; try contradiction;
      cbn [fst snd success message status]; rewrite not_found_message;
      split; reflexivity. }
  intros id c fault Hp Hc Hf. unfold postReset, resetLimit. rewrite Hp, Hc.
  destruct fault; try contradiction; reflexivity.
Qed.

(** C9, failing input. [POST /api/collector/reset/5abc] on a store that
    holds configuration 5: the id is not an integer, yet [parseInt] reads the
    leading 5, the route answers 200 and resets configuration 5, whose anchor
    and status row it writes. Only an id without a leading number, like
    [abc], is answered with 400. *)
Theorem reset_accepts_trailing_garbage :
  parseInt "5abc" = Some 5 /\
  status (fst (postReset configUtc NoFault resetTimeS6 storeS6 "5abc")) = 200 /\
  option_map RateLimitConfig.reset_anchor_timestamp
    (getRateLimitConfig
       (snd (postReset configUtc NoFault resetTimeS6 storeS6 "5abc")) 5)
    = Some (Some (Instant resetTimeS6)) /\
  option_map RateLimitStatus.percentage
    (getRateLimitStatus
       (snd (postReset configUtc NoFault resetTimeS6 storeS6 "5abc")) 5)
    = Some 100 /\
  getRateLimitStatus storeS6 5 = None /\
  status (fst (postReset configUtc NoFault resetTimeS6 storeS6 "abc")) = 400.
Proof.
  repeat split.
Qed.

End ResetRoute.

(** * Further properties of the sources *)

(** ** Prices *)

Module MorePricing.

Import Db Collector Runs Sums QueryFacts CumulativeCost LifetimeS1S2 PricingTable.

(** X1. At one price, the cost of a later token count minus the cost of an
    earlier one is the cost of the tokens in between; with non-negative
    rates the cost does not go down when neither token count does. *)
Theorem calculateCost_delta i o i' o' p :
  (Pricing.calculateCost i' o' p - Pricing.calculateCost i o p ==
   Pricing.calculateCost (i' - i) (o' - o) p)%Q /\
  (i <= i' -> o <= o' ->
   (0 <= ModelPricing.input p)%Q -> (0 <= ModelPricing.output p)%Q ->
   (Pricing.calculateCost i o p <= Pricing.calculateCost i' o' p)%Q).
Proof.
  assert (E : (Pricing.calculateCost i' o' p - Pricing.calculateCost i o p ==
               Pricing.calculateCost (i' - i) (o' - o) p)%Q).
  { unfold Pricing.calculateCost, Z.sub. rewrite !inject_Z_plus, !inject_Z_opp. field. }
  split; [exact E|].
  intros Hi Ho Hpi Hpo.
  assert (N : (0 <= Pricing.calculateCost (i' - i) (o' - o) p)%Q)
    by (apply calculateCost_nonneg; try assumption; lia).
  rewrite <- E in N. lra.
Qed.

Lemma calculateCost_delta_witness :
  (Pricing.calculateCost 600 400 (ModelPricing.mk 30 60) <=
   Pricing.calculateCost 960 640 (ModelPricing.mk 30 60))%Q.
Proof.
  apply (proj2 (calculateCost_delta 600 400 960 640 (ModelPricing.mk 30 60)));
    discriminate.
Defined.

Lemma obj_get_spread {V : Type} (b : Obj V) : forall (a : Obj V) k,
  NoDup (obj_keys b) ->
  obj_get (spread a b) k =
  match obj_get b k with
  | Some v => Some v
  | None => obj_get a k
  end.
Proof.
  induction b as [|[k1 v1] b IH]; intros a k Hnd; [reflexivity|].
  unfold spread in *. cbn [fold_left fst snd obj_get].
  inversion Hnd as [|x l Hnot Hnd' E]; subst.
  rewrite (IH (obj_set a k1 v1) k Hnd'), obj_get_set.
  destruct (String.eqb_spec k1 k) as [->|Hne]; [|reflexivity].
  rewrite (obj_get_None_keys b k Hnot). reflexivity.
Qed.

(** X2. In the table [getModelPricing] puts in force a remote price
    overrides the built-in one of the same key and every other built-in
    price stays; the [_default] row is always there. *)
Theorem getModelPricing_lookup remotePricing k :
  NoDup (obj_keys remotePricing) ->
  obj_get (getModelPricing remotePricing) k =
    match obj_get remotePricing k with
    | Some p => Some p
    | None => obj_get Pricing.DEFAULT_PRICING k
    end /\
  obj_get (getModelPricing remotePricing) "_default" <> None.
Proof.
  intro Hnd.
  assert (E : forall k',
    obj_get (getModelPricing remotePricing) k' =
    match obj_get remotePricing k' with
    | Some p => Some p
    | None => obj_get Pricing.DEFAULT_PRICING k'
    end).
  { intro k'. unfold getModelPricing. destruct remotePricing as [|kv rest].
    - reflexivity.
    - apply obj_get_spread. exact Hnd. }
  split; [apply E|].
  rewrite E. destruct (obj_get remotePricing "_default"); discriminate.
Qed.

Lemma getModelPricing_lookup_witness :
  obj_get (getModelPricing [("gpt-4", ModelPricing.mk 1 2)]) "gpt-4" =
    Some (ModelPricing.mk 1 2) /\
  obj_get (getModelPricing [("gpt-4", ModelPricing.mk 1 2)]) "o1" =
    Some (ModelPricing.mk 15 60).
Proof.
  split.
  - refine (proj1 (getModelPricing_lookup [("gpt-4", ModelPricing.mk 1 2)] "gpt-4" _)).
    constructor; [intros []|constructor].
  - refine (proj1 (getModelPricing_lookup [("gpt-4", ModelPricing.mk 1 2)] "o1" _)).
    constructor; [intros []|constructor].
Defined.

(** X3. On a table with a [_default] row [findPricingForModel] returns a
    row of that table for every model name but two: a name that in lower
    case is [constructor] or [__proto__], and is no key of the table, gets
    the member of [Object.prototype] of that name, which is no price. The
    literal of last resort is used only on a table without [_default]. A
    report with a model of such a name has a NaN cost: [storeUsageData]
    returns false, and of the report only the snapshot row is stored. *)
Theorem findPricingForModel_from_table modelName pricing :
  obj_get pricing "_default" <> None ->
  (obj_get pricing (toLowerCase modelName) <> None \/
   Pricing.inherited (toLowerCase modelName) = false ->
   exists k p,
     Pricing.findPricingForModel modelName pricing = Pricing.Priced p /\
     In (k, p) pricing) /\
  (obj_get pricing (toLowerCase modelName) = None ->
   Pricing.inherited (toLowerCase modelName) = true ->
   Pricing.findPricingForModel modelName pricing = Pricing.Inherited /\
   forall config now s usage apiEndpoint apiData modelData,
     In (apiEndpoint, apiData) (UsageData.apis usage) ->
     In (modelName, modelData) (ApiData.models apiData) ->
     let out := Collector.storeUsageData config pricing now s (Some usage) in
     fst out = false /\
     Db.model_usage (snd out) = Db.model_usage s /\
     Db.daily_stats (snd out) = Db.daily_stats s /\
     List.length (Db.usage_snapshots (snd out)) =
       S (List.length (Db.usage_snapshots s))).
Proof.
  intro Hd. split.
  - intro H. unfold Pricing.findPricingForModel.
    destruct (obj_get pricing (toLowerCase modelName)) as [p|] eqn:E1.
    { apply obj_get_In in E1. destruct E1 as (k & Hin). exists k, p.
      split; [reflexivity | exact Hin]. }
    destruct H as [H|H]; [contradiction|]. rewrite H.
    destruct (Pricing.partialMatch (toLowerCase modelName) pricing) as [p|] eqn:E2.
    { apply partialMatch_In in E2. destruct E2 as (k & Hin). exists k, p.
      split; [reflexivity | exact Hin]. }
    destruct (obj_get pricing "_default") as [p|] eqn:E3; [|contradiction].
    apply obj_get_In in E3. destruct E3 as (k & Hin). exists k, p.
    split; [reflexivity | exact Hin].
  - intros Hnone Hinh.
    assert (Ef : Pricing.findPricingForModel modelName pricing = Pricing.Inherited).
    { unfold Pricing.findPricingForModel. rewrite Hnone, Hinh. reflexivity. }
    split; [exact Ef|].
    intros config now s usage apiEndpoint apiData modelData Hapi Hmodel out.
    assert (Hnan : Collector.costIsNaN pricing usage = true).
    { unfold Collector.costIsNaN. apply existsb_exists.
      exists (apiEndpoint, apiData). split; [exact Hapi|].
      apply existsb_exists. exists (modelName, modelData).
      split; [exact Hmodel|]. cbn [fst]. rewrite Ef. reflexivity. }
    subst out. unfold Collector.storeUsageData, Db.insertUsageSnapshot.
    rewrite Hnan. cbn [fst snd]. unfold Db.with_snapshots.
    cbn [Db.model_usage Db.daily_stats Db.usage_snapshots List.length].
    repeat split.
Qed.

Lemma findPricingForModel_from_table_witness :
  (exists k p,
     Pricing.findPricingForModel "Some-Unknown-Model" Pricing.DEFAULT_PRICING =
       Pricing.Priced p /\
     In (k, p) Pricing.DEFAULT_PRICING) /\
  Pricing.findPricingForModel "Constructor" Pricing.DEFAULT_PRICING =
    Pricing.Inherited /\
  fst (Collector.storeUsageData Scenarios.config7 Pricing.DEFAULT_PRICING
         Scenarios.t1 Scenarios.afterS1 (Some Scenarios.reportConstructor)) =
    false.
Proof.
  split.
  - apply (proj1 (findPricingForModel_from_table "Some-Unknown-Model"
                    Pricing.DEFAULT_PRICING ltac:(discriminate))).
    right. reflexivity.
  - destruct (proj2 (findPricingForModel_from_table "Constructor"
                       Pricing.DEFAULT_PRICING ltac:(discriminate))
                eq_refl eq_refl) as (E & H).
    split; [exact E|].
    apply (H Scenarios.config7 Scenarios.t1 Scenarios.afterS1
             Scenarios.reportConstructor "chat"
             (ApiData.mk [("Constructor", ModelData.mk 1 10 [Scenarios.detail 6 4])])
             (ModelData.mk 1 10 [Scenarios.detail 6 4])).
    + left. reflexivity.
    + left. reflexivity.
Defined.

End MorePricing.

(** ** The keys of the granular comparison *)

Module Keys.

Import Db Collector Runs Sums QueryFacts Shapes.

Lemma split_no_sep sep a : hasChar sep a = false -> split sep a = [a].
Proof.
  induction a as [|c a IH]; cbn [hasChar split]; [reflexivity|].
  intro H. apply Bool.orb_false_iff in H. destruct H as [Hc Ha].
  rewrite Hc, (IH Ha). reflexivity.
Qed.

Lemma split_first sep a b :
  hasChar sep a = false ->
  split sep (a ++ String sep b)%string = a :: split sep b.
Proof.
  induction a as [|c a IH]; cbn [hasChar split String.append].
  - intros _. rewrite Ascii.eqb_refl. reflexivity.
  - intro H. apply Bool.orb_false_iff in H. destruct H as [Hc Ha].
    rewrite Hc, (IH Ha). reflexivity.
Qed.

(** X4. The key under which a row is compared splits back into the row's
    model name and endpoint when neither holds the separator; a separator
    inside the model name is enough to lose it: the granular path then files
    the delta under the part before it. *)
Theorem key_round_trip (r : ModelUsage.t) :
  (hasChar "|" (ModelUsage.model_name r) = false ->
   hasChar "|" (endpointOf r) = false ->
   split "|" (keyOf r) = [ModelUsage.model_name r; endpointOf r]) /\
  (hasChar "|" (ModelUsage.model_name r) = true ->
   at_index (split "|" (keyOf r)) 0 <> ModelUsage.model_name r).
Proof.
  split.
  - intros Hm He. unfold keyOf. cbn [String.append].
    rewrite (split_first "|" _ _ Hm), (split_no_sep "|" _ He). reflexivity.
  - unfold keyOf. generalize ("|" ++ endpointOf r)%string as rest.
    generalize (ModelUsage.model_name r) as m.
    assert (G : forall m rest, hasChar "|" (at_index (split "|" (m ++ rest)%string) 0) = false
                               \/ hasChar "|" m = false).
    { induction m as [|c m IH]; intro rest; [right; reflexivity|].
      cbn [String.append split hasChar].
      destruct (Ascii.eqb c "|") eqn:Ec; [left; reflexivity|].
      cbn [orb]. destruct (IH rest) as [H|H]; [left|right; exact H].
      unfold at_index in *. destruct (split "|" (m ++ rest)%string) as [|h t].
      - cbn [nth hasChar]. rewrite Ec. reflexivity.
      - cbn [nth hasChar] in *. rewrite Ec. exact H. }
    intros m rest Hm E. destruct (G m rest) as [H|H]; congruence.
Qed.

Lemma key_round_trip_witness :
  split "|" (keyOf (ModelUsage.mk 1 "gpt-4" 0 1 1 1 2 "/v1/chat" 0)) =
    ["gpt-4"; "/v1/chat"] /\
  at_index (split "|" (keyOf (ModelUsage.mk 1 "a|b" 0 1 1 1 2 "/v1/chat" 0))) 0 <>
    "a|b".
Proof.
  split.
  - apply (proj1 (key_round_trip (ModelUsage.mk 1 "gpt-4" 0 1 1 1 2 "/v1/chat" 0)));
      reflexivity.
  - apply (proj2 (key_round_trip (ModelUsage.mk 1 "a|b" 0 1 1 1 2 "/v1/chat" 0)));
      reflexivity.
Defined.

Lemma find_app_last {A : Type} (f : A -> bool) l a :
  find f (l ++ [a]) = match find f l with Some x => Some x | None => find f [a] end.
Proof.
  induction l as [|b l IH]; cbn [app find]; [reflexivity|].
  destruct (f b); [reflexivity | exact IH].
Qed.

Lemma obj_get_fold_keyed {V : Type} (key : V -> string) records :
  forall (o : Obj V) k,
  obj_get (fold_left (fun m r => obj_set m (key r) r) records o) k =
  match find (fun r => String.eqb (key r) k) (rev records) with
  | Some r => Some r
  | None => obj_get o k
  end.
Proof.
  induction records as [|a l IH]; intros o k; cbn [fold_left rev find]; [reflexivity|].
  rewrite IH, find_app_last, obj_get_set. cbn [find].
  destruct (find (fun r => String.eqb (key r) k) (rev l)); [reflexivity|].
  destruct (String.eqb (key a) k); reflexivity.
Qed.

Lemma obj_keys_set {V : Type} (o : Obj V) k v :
  obj_keys (obj_set o k v) = if mem k (obj_keys o) then obj_keys o else (obj_keys o ++ [k])%list.
Proof.
  unfold obj_keys, mem. induction o as [|[k0 v0] o IH]; cbn [obj_set map fst existsb app].
  - reflexivity.
  - rewrite (String.eqb_sym k k0). destruct (String.eqb k0 k) eqn:E; cbn [orb map fst].
    + reflexivity.
    + rewrite IH. destruct (existsb (String.eqb k) (map fst o)); reflexivity.
Qed.

Lemma NoDup_snoc (l : list string) k : NoDup l -> ~ In k l -> NoDup (l ++ [k]).
Proof.
  intros Hl Hk. apply NoDup_rev in Hl. rewrite <- (rev_involutive (l ++ [k])).
  apply NoDup_rev. rewrite rev_app_distr. cbn [rev app]. constructor; [|exact Hl].
  rewrite <- in_rev. exact Hk.
Qed.

Lemma NoDup_add_key (l : list string) k :
  NoDup l -> NoDup (if mem k l then l else (l ++ [k])%list).
Proof.
  intro Hl. destruct (mem k l) eqn:E; [exact Hl|].
  apply NoDup_snoc; [exact Hl|]. intro H. apply mem_In in H. congruence.
Qed.

Lemma NoDup_set_of_acc l : forall acc,
  NoDup acc ->
  NoDup (fold_left (fun acc k => if mem k acc then acc else (acc ++ [k])%list) l acc).
Proof.
  induction l as [|a l IH]; intros acc Hacc; cbn [fold_left]; [exact Hacc|].
  apply IH. apply NoDup_add_key. exact Hacc.
Qed.

Lemma NoDup_set_of l : NoDup (set_of l).
Proof. unfold set_of. apply NoDup_set_of_acc. constructor. Qed.

Lemma NoDup_fold_keyed {V : Type} (key : V -> string) records :
  forall o : Obj V, NoDup (obj_keys o) ->
  NoDup (obj_keys (fold_left (fun m r => obj_set m (key r) r) records o)).
Proof.
  induction records as [|a l IH]; intros o Ho; cbn [fold_left]; [exact Ho|].
  apply IH. rewrite obj_keys_set. apply NoDup_add_key. exact Ho.
Qed.

(** X5. The usage map of a list of rows has one entry per key, and under
    each key the last row of the list that has it. *)
Theorem usageMap_last_wins (records : list ModelUsage.t) :
  NoDup (obj_keys (usageMap records)) /\
  forall k,
    obj_get (usageMap records) k =
    find (fun r => String.eqb (keyOf r) k) (rev records).
Proof.
  split.
  - unfold usageMap. apply NoDup_fold_keyed. constructor.
  - intro k. unfold usageMap. rewrite obj_get_fold_keyed.
    destruct (find _ (rev records)); reflexivity.
Qed.

(** X6. The loop of the granular comparison visits every key of the
    previous or the current map, and each one once. *)
Theorem allKeys_once (prevUsageMap currUsageMap : Obj ModelUsage.t) :
  NoDup (allKeys prevUsageMap currUsageMap) /\
  forall k,
    In k (allKeys prevUsageMap currUsageMap) <->
    obj_get prevUsageMap k <> None \/ obj_get currUsageMap k <> None.
Proof.
  split; [apply NoDup_set_of|].
  intro k. unfold allKeys. rewrite In_set_of, in_app_iff.
  assert (K : forall o : Obj ModelUsage.t, In k (obj_keys o) <-> obj_get o k <> None).
  { intro o. split.
    - intros H E. revert H. induction o as [|[k0 v0] o IH]; cbn in *; [tauto|].
      destruct (String.eqb_spec k0 k) as [->|Hne]; [discriminate|].
      intros [H|H]; [congruence | exact (IH E H)].
    - intro H. destruct (obj_get o k) eqn:E; [|congruence].
      exact (obj_get_Some_keys o k _ E). }
  rewrite !K. reflexivity.
Qed.

End Keys.

(** ** The store *)

Module DbFacts.

Import Db Collector Runs Sums PassFacts SelfHealing QueryFacts Monotone ResetAnchor.

Lemma Passed_StoreOk config s : Shapes.Passed config s -> StoreOk s.
Proof.
  induction 1; [apply empty_StoreOk | apply pass_StoreOk; assumption].
Qed.

Lemma upsert_daily_NoDup rows stats :
  NoDup (map DailyStats.stat_date rows) ->
  NoDup (map DailyStats.stat_date (upsert_daily rows stats)).
Proof.
  induction rows as [|r rows IH]; cbn [upsert_daily map]; intro Hnd.
  - constructor; [intros []|constructor].
  - inversion Hnd as [|x l Hnot Hnd' E]; subst.
    destruct (Z.eqb_spec (DailyStats.stat_date r) (DailyStats.stat_date stats)) as [E|E];
      cbn [map].
    + rewrite <- E. constructor; assumption.
    + constructor; [|exact (IH Hnd')].
      intro Hin. apply in_map_iff in Hin. destruct Hin as (row & Hd & Hrow).
      apply In_upsert_daily in Hrow. destruct Hrow as [->|Hrow]; [congruence|].
      apply Hnot. rewrite <- Hd. apply in_map. exact Hrow.
Qed.

(** X7. After [upsertDailyStats] the day of the written row reads back as
    that row and every other day reads as before; a store built by passes
    never holds two rows for one day. *)
Theorem daily_stats_round_trip config s stats date :
  getDailyStats (upsertDailyStats s stats) date =
    (if DailyStats.stat_date stats =? date then Some stats
     else getDailyStats s date) /\
  (Shapes.Passed config s -> NoDup (map DailyStats.stat_date (daily_stats s))).
Proof.
  split.
  - unfold getDailyStats, upsertDailyStats. cbn [daily_stats with_daily_stats].
    apply find_upsert_daily.
  - intro HP. induction HP as [|s0 pricing now usage HP IH]; [constructor|].
    destruct (costIsNaN pricing usage) eqn:Hnan.
    { rewrite (pass_failed_daily _ _ _ _ _ Hnan). exact IH. }
    destruct (pass_shape config pricing now s0 usage (Passed_StoreOk _ _ HP) Hnan)
      as (_ & _ & Hd & _).
    rewrite Hd. apply upsert_daily_NoDup. exact IH.
Qed.

Lemma afterS2_passed : Shapes.Passed Scenarios.config7 Scenarios.afterS2.
Proof. repeat constructor. Defined.

Lemma daily_stats_round_trip_witness :
  NoDup (map DailyStats.stat_date (daily_stats Scenarios.afterS2)).
Proof.
  apply (proj2 (daily_stats_round_trip Scenarios.config7 Scenarios.afterS2
                  (DailyStats.mk 0 0 0 0 0 0 DailyStatsBreakdown.empty) 0)).
  apply afterS2_passed.
Defined.

Lemma before_total o a b : before o a b = false -> before o b a = true.
Proof.
  destruct o; cbn [before]; intro H; apply Z.leb_gt in H; apply Z.leb_le; lia.
Qed.

Lemma before_trans o a b c :
  before o a b = true -> before o b c = true -> before o a c = true.
Proof.
  destruct o; cbn [before]; intros H1 H2; apply Z.leb_le in H1; apply Z.leb_le in H2;
    apply Z.leb_le; lia.
Qed.

Lemma insert_by_sorted r l :
  StronglySorted (fun a b => before DESC a b = true) l ->
  StronglySorted (fun a b => before DESC a b = true) (insert_by r l).
Proof.
  induction 1 as [|x l Hl IH Hx]; cbn [insert_by].
  - repeat constructor.
  - destruct (before DESC r x) eqn:E.
    + constructor; [constructor; assumption|].
      constructor; [exact E|].
      apply Forall_forall. intros y Hy.
      rewrite Forall_forall in Hx. exact (before_trans DESC r x y E (Hx y Hy)).
    + constructor; [exact IH|].
      apply Forall_forall. intros y Hy. apply In_insert_by in Hy.
      destruct Hy as [->|Hy]; [exact (before_total DESC r x E)|].
      rewrite Forall_forall in Hx. exact (Hx y Hy).
Qed.

Lemma indexed_sorted l :
  StronglySorted (fun a b => before DESC a b = true) (fold_right insert_by [] l).
Proof.
  induction l as [|r l IH]; cbn [fold_right]; [constructor|].
  apply insert_by_sorted. exact IH.
Qed.

Lemma sorted_snoc {A : Type} (R : A -> A -> Prop) l x :
  StronglySorted R l -> (forall y, In y l -> R y x) -> StronglySorted R (l ++ [x]).
Proof.
  induction 1 as [|a l Hl IH Ha]; intro Hx; cbn [app].
  - repeat constructor.
  - constructor.
    + apply IH. intros y Hy. apply Hx. right. exact Hy.
    + apply Forall_forall. intros y Hy. apply in_app_or in Hy.
      destruct Hy as [Hy|[<-|[]]].
      * rewrite Forall_forall in Ha. exact (Ha y Hy).
      * apply Hx. left. reflexivity.
Qed.

Lemma sorted_rev l :
  StronglySorted (fun a b => before DESC a b = true) l ->
  StronglySorted (fun a b => before ASC a b = true) (rev l).
Proof.
  induction 1 as [|a l Hl IH Ha]; cbn [rev]; [constructor|].
  apply sorted_snoc; [exact IH|].
  intros y Hy. apply in_rev in Hy. rewrite Forall_forall in Ha.
  exact (Ha y Hy).
Qed.

Lemma order_by_sorted o l :
  StronglySorted (fun a b => before o a b = true) (order_by o l).
Proof.
  unfold order_by. destruct o.
  - apply sorted_rev, indexed_sorted.
  - apply indexed_sorted.
Qed.

Lemma firstn_sorted {A : Type} (R : A -> A -> Prop) n : forall l,
  StronglySorted R l -> StronglySorted R (firstn n l).
Proof.
  induction n as [|n IH]; intros l Hl; [constructor|].
  destruct Hl as [|x l Hl Hx]; cbn [firstn]; [constructor|].
  constructor; [exact (IH l Hl)|].
  apply Forall_forall. intros y Hy. rewrite Forall_forall in Hx.
  apply Hx. rewrite <- (firstn_skipn n l). apply in_or_app. left. exact Hy.
Qed.

(** The rows of one second keep their insertion order in the index. *)
Lemma filter_insert_by t r l :
  filter (fun x => ModelUsage.created_at x =? t) (insert_by r l) =
  ((if ModelUsage.created_at r =? t then [r] else []) ++
   filter (fun x => ModelUsage.created_at x =? t) l)%list.
Proof.
  induction l as [|x l IH]; cbn [insert_by before filter].
  - rewrite app_nil_r. reflexivity.
  - destruct (Z.leb_spec (ModelUsage.created_at x) (ModelUsage.created_at r))
      as [Hle|Hgt]; cbn [filter].
    + destruct (ModelUsage.created_at r =? t); reflexivity.
    + rewrite IH.
      destruct (Z.eqb_spec (ModelUsage.created_at r) t) as [Er|Er];
        [|reflexivity].
      destruct (Z.eqb_spec (ModelUsage.created_at x) t) as [Ex|Ex];
        [lia | reflexivity].
Qed.

Lemma filter_indexed t l :
  filter (fun x => ModelUsage.created_at x =? t) (fold_right insert_by [] l) =
  filter (fun x => ModelUsage.created_at x =? t) l.
Proof.
  induction l as [|r l IH]; cbn [fold_right]; [reflexivity|].
  rewrite filter_insert_by, IH. cbn [filter].
  destruct (ModelUsage.created_at r =? t); reflexivity.
Qed.

Lemma filter_rev_eq {A : Type} (f : A -> bool) l :
  filter f (rev l) = rev (filter f l).
Proof.
  induction l as [|a l IH]; cbn [rev filter]; [reflexivity|].
  rewrite filter_app, IH. cbn [filter].
  destruct (f a); cbn [rev]; [reflexivity | apply app_nil_r].
Qed.

(** X8. [getModelUsageByPattern] returns rows of the table that match the
    pattern and lie inside the bounds as SQLite compares them, the stored
    text of [created_at] against the text of a bound: a returned row has a
    date after the date of the lower bound, and a date that is the date of
    the upper bound or an earlier one. The rows come in the requested order
    of [created_at]; without a limit (or with limit 0) every such row is
    returned, the rows of one second in insertion order under DESC and in
    the reverse of it under ASC; with a limit at most that many rows are
    returned. *)
Theorem query_sorted_and_exact s pattern sinceTime beforeTime orderBy limit :
  let rows := getModelUsageByPattern s pattern sinceTime beforeTime orderBy limit in
  let inBounds (r : ModelUsage.t) :=
    (forall lo, sinceTime = Some lo -> dateOf lo < dateOf (ModelUsage.created_at r)) /\
    (forall hi, beforeTime = Some hi -> dateOf (ModelUsage.created_at r) <= dateOf hi) in
  StronglySorted (fun a b => before orderBy a b = true) rows /\
  (forall r, In r rows ->
     In r (model_usage s) /\ matchesPattern pattern r = true /\ inBounds r) /\
  (forall n, limit = Some (S n) -> (List.length rows <= S n)%nat) /\
  (limit = None \/ limit = Some 0%nat ->
   (forall r, In r (model_usage s) -> matchesPattern pattern r = true ->
      inBounds r -> In r rows) /\
   (forall t,
      let sameSecond :=
        filter (fun r => ModelUsage.created_at r =? t)
          (getModelUsageByPattern s pattern sinceTime beforeTime DESC None) in
      sameSecond =
        filter (fun r => (ModelUsage.created_at r =? t) &&
                         matchesPattern pattern r &&
                         match sinceTime with
                         | Some lo => dateOf lo <? dateOf (ModelUsage.created_at r)
                         | None => true
                         end &&
                         match beforeTime with
                         | Some hi => dateOf (ModelUsage.created_at r) <=? dateOf hi
                         | None => true
                         end)
          (model_usage s) /\
      filter (fun r => ModelUsage.created_at r =? t) rows =
        match orderBy with
        | DESC => sameSecond
        | ASC => rev sameSecond
        end)).
Proof.
  intros rows inBounds. unfold getModelUsageByPattern in rows.
  set (sel := fun r : ModelUsage.t =>
         matchesPattern pattern r &&
         match sinceTime with
         | Some t => textGe (ModelUsage.created_at r) t
         | None => true
         end &&
         match beforeTime with
         | Some t => textLt (ModelUsage.created_at r) t
         | None => true
         end) in rows.
  assert (Hsel : forall r, sel r = true <->
            matchesPattern pattern r = true /\ inBounds r).
  { intro r. unfold sel, inBounds, textGe, textLt. rewrite !Bool.andb_true_iff.
    destruct sinceTime as [lo|], beforeTime as [hi|];
      rewrite ?Z.leb_le, ?Z.ltb_lt; split.
    all: try (intros [[A B] C]; split; [exact A|];
              split; intros x E; try discriminate; injection E as <-; assumption).
    all: try (intros (A & B & C); split; [split|];
              try exact A; try reflexivity; try (apply B; reflexivity);
              try (apply C; reflexivity)). }
  assert (Hall : forall r, In r (order_by orderBy (filter sel (model_usage s))) <->
            In r (model_usage s) /\ sel r = true).
  { intro r. rewrite In_order_by, filter_In. reflexivity. }
  assert (Hsub : forall r, In r rows -> In r (order_by orderBy (filter sel (model_usage s)))).
  { intros r Hr. unfold rows in Hr. destruct limit as [[|n]|]; try exact Hr.
    rewrite <- (firstn_skipn (S n) (order_by _ _)). apply in_or_app. left. exact Hr. }
  split; [|split; [|split]].
  - unfold rows. destruct limit as [[|n]|]; try apply order_by_sorted.
    apply firstn_sorted. apply order_by_sorted.
  - intros r Hr. apply Hsub, Hall in Hr. destruct Hr as [Hin Hs].
    apply Hsel in Hs. split; [exact Hin | exact Hs].
  - intros n ->. unfold rows. apply firstn_le_length.
  - intros Hl.
    assert (Erows : rows = order_by orderBy (filter sel (model_usage s)))
      by (unfold rows; destruct Hl as [->| ->]; reflexivity).
    split.
    + intros r Hin Hm Hb. rewrite Erows. apply Hall. split; [exact Hin|].
      apply Hsel. split; assumption.
    + intros t sameSecond.
      assert (Es : sameSecond =
                   filter (fun r => ModelUsage.created_at r =? t)
                     (filter sel (model_usage s))).
      { unfold sameSecond, getModelUsageByPattern. fold sel.
        unfold order_by. apply filter_indexed. }
      split.
      * rewrite Es. clear. induction (model_usage s) as [|r l IH];
          cbn [filter]; [reflexivity|].
        unfold sel at 1, textGe, textLt.
        destruct (matchesPattern pattern r); cbn [andb];
          [|rewrite andb_false_r; cbn [andb]; exact IH].
        rewrite andb_true_r.
        destruct (match sinceTime with
                  | Some t0 => dateOf t0 <? dateOf (ModelUsage.created_at r)
                  | None => true
                  end); cbn [andb];
          [|rewrite andb_false_r; cbn [andb]; exact IH].
        rewrite andb_true_r.
        destruct (match beforeTime with
                  | Some t0 => dateOf (ModelUsage.created_at r) <=? dateOf t0
                  | None => true
                  end); cbn [andb filter];
          [|rewrite andb_false_r; exact IH].
        rewrite andb_true_r.
        destruct (ModelUsage.created_at r =? t); [f_equal|]; exact IH.
      * rewrite Erows, Es. unfold order_by. destruct orderBy.
        -- rewrite filter_rev_eq, filter_indexed. reflexivity.
        -- apply filter_indexed.
Qed.

Lemma query_sorted_and_exact_witness :
  (List.length
     (getModelUsageByPattern Scenarios.storeS5 "gpt" None None DESC (Some 1%nat))
   <= 1)%nat /\
  In (Scenarios.rowS5 Scenarios.passS5 10200 12)
    (getModelUsageByPattern Scenarios.storeS5 "gpt" (Some Scenarios.windowS5) None
       ASC None).
Proof.
  split.
  - apply (proj1 (proj2 (proj2
             (query_sorted_and_exact Scenarios.storeS5 "gpt" None None DESC
                (Some 1%nat)))) 0%nat).
    reflexivity.
  - apply (proj1 (proj2 (proj2 (proj2
             (query_sorted_and_exact Scenarios.storeS5 "gpt"
                (Some Scenarios.windowS5) None ASC None))) (or_introl eq_refl))).
    + right. right. left. reflexivity.
    + reflexivity.
    + split.
      * intros lo E. injection E as <-. vm_compute. reflexivity.
      * intros hi E. discriminate E.
Defined.

End DbFacts.

(** ** The reconciler *)

Module Limits.

Import Db RateLimiter Windows Runs QueryFacts ResetAnchor WindowFacts Gap.

Lemma deltaStep_nonneg currentMap baselineMap acc modelName :
  0 <= UsageCalculation.total_tokens acc /\ 0 <= UsageCalculation.request_count acc ->
  0 <= UsageCalculation.total_tokens (deltaStep currentMap baselineMap acc modelName) /\
  0 <= UsageCalculation.request_count (deltaStep currentMap baselineMap acc modelName).
Proof.
  intros [Ht Hr]. unfold deltaStep. cbv zeta.
  match goal with
  | |- context [if ?c then acc else _] => destruct c
  end; cbn [UsageCalculation.total_tokens UsageCalculation.request_count]; lia.
Qed.

Lemma fold_deltaStep_nonneg currentMap baselineMap keys : forall acc,
  0 <= UsageCalculation.total_tokens acc /\ 0 <= UsageCalculation.request_count acc ->
  0 <= UsageCalculation.total_tokens
         (fold_left (deltaStep currentMap baselineMap) keys acc) /\
  0 <= UsageCalculation.request_count
         (fold_left (deltaStep currentMap baselineMap) keys acc).
Proof.
  induction keys as [|k keys IH]; intros acc H; cbn [fold_left]; [exact H|].
  apply IH. apply deltaStep_nonneg. exact H.
Qed.

Lemma calculateDelta_nonneg s modelPattern latestTime baselineTime baselineOverride :
  0 <= UsageCalculation.total_tokens
         (calculateDeltaFromSnapshots s modelPattern latestTime baselineTime
            baselineOverride) /\
  0 <= UsageCalculation.request_count
         (calculateDeltaFromSnapshots s modelPattern latestTime baselineTime
            baselineOverride).
Proof.
  unfold calculateDeltaFromSnapshots. cbv zeta. apply fold_deltaStep_nonneg.
  cbn. lia.
Qed.

(** X9. The usage of a window is never negative, whatever the rows hold:
    restarts, false starts and the gap interpolation included. *)
Theorem usage_never_negative s modelPattern since :
  0 <= UsageCalculation.total_tokens (calculateUsage s modelPattern since) /\
  0 <= UsageCalculation.request_count (calculateUsage s modelPattern since).
Proof.
  unfold calculateUsage. cbv zeta.
  repeat match goal with
         | |- context [match ?x with _ => _ end] =>
             match x with
             | calculateDeltaFromSnapshots _ _ _ _ _ => fail 1
             | _ => destruct x
             end
         end;
    try apply calculateDelta_nonneg; cbn; lia.
Qed.

(** X10. A pattern whose rows were all created before the window start has
    used nothing in that window; so has a pattern without rows. *)
Theorem usage_zero_before_window s modelPattern since :
  (forall r, In r (model_usage s) -> matchesPattern modelPattern r = true ->
     ModelUsage.created_at r < since) ->
  calculateUsage s modelPattern since = UsageCalculation.zero.
Proof.
  intro Hold. unfold calculateUsage.
  destruct (firstTime (getModelUsageByPattern s modelPattern None None DESC
                         (Some 1%nat))) as [latestTime|] eqn:E; [|reflexivity].
  apply firstTime_query_In in E. destruct E as (r & Hin & Hm & Ht & _).
  specialize (Hold r Hin Hm). rewrite Ht in Hold.
  apply Z.ltb_lt in Hold. rewrite Hold. reflexivity.
Qed.

Lemma usage_zero_before_window_witness :
  calculateUsage Scenarios.storeS5 "gpt" (Scenarios.passS5 + 1) =
  UsageCalculation.zero.
Proof.
  apply usage_zero_before_window.
  intros r Hin _. cbn in Hin.
  repeat (destruct Hin as [<-|Hin]; [vm_compute; reflexivity|]).
  destruct Hin.
Defined.

Lemma floor_ratio r l :
  0 < l -> Math_floor (inject_Z r / inject_Z l * 100) = (100 * r) / l.
Proof.
  intro Hl. destruct l as [|p|p]; try lia. unfold Math_floor.
  assert (E : (inject_Z r / inject_Z (Z.pos p) * 100 == (100 * r) # p)%Q).
  { unfold Qeq, Qdiv, Qmult, Qinv, inject_Z. cbn [Qnum Qden]. lia. }
  rewrite E. reflexivity.
Qed.

Lemma clamp_id x : 0 <= x <= 100 -> clampPercentage x = x.
Proof. unfold clampPercentage. lia. Qed.

Lemma percentage_of_remaining used l :
  0 < l ->
  (l <= used ->
   clampPercentage (Math_floor (inject_Z (Z.max 0 (l - used)) / inject_Z l * 100)) = 0) /\
  (used <= 0 ->
   clampPercentage (Math_floor (inject_Z (Z.max 0 (l - used)) / inject_Z l * 100)) = 100).
Proof.
  intro Hl. rewrite floor_ratio by exact Hl. unfold clampPercentage. split; intro Hu.
  - replace (Z.max 0 (l - used)) with 0 by lia. rewrite Z.mul_0_r, Z.div_0_l by lia.
    reflexivity.
  - assert (100 <= 100 * Z.max 0 (l - used) / l)
      by (apply Z.div_le_lower_bound; lia).
    lia.
Qed.

(** X11. The status written for a configuration has a percentage between 0
    and 100 and no negative remainder. Under a positive token limit the
    remainder is the limit less the tokens used, not below 0; the percentage
    is 0 once the limit is used up and 100 while nothing is used. Without a
    positive token limit a positive request limit is treated the same way,
    and without either the percentage is 100. *)
Theorem status_percentage now configId usedTokens usedRequests windowStart
  nextReset tokenLimit requestLimit :
  let st := statusOf now configId usedTokens usedRequests windowStart nextReset
              tokenLimit requestLimit in
  0 <= RateLimitStatus.percentage st <= 100 /\
  0 <= RateLimitStatus.remaining_tokens st /\
  0 <= RateLimitStatus.remaining_requests st /\
  (forall l, tokenLimit = Some l -> 0 < l ->
     RateLimitStatus.remaining_tokens st = Z.max 0 (l - usedTokens) /\
     RateLimitStatus.remaining_requests st = 0 /\
     (l <= usedTokens -> RateLimitStatus.percentage st = 0) /\
     (usedTokens <= 0 -> RateLimitStatus.percentage st = 100)) /\
  (forall l, positiveLimit tokenLimit = None -> requestLimit = Some l -> 0 < l ->
     RateLimitStatus.remaining_requests st = Z.max 0 (l - usedRequests) /\
     RateLimitStatus.remaining_tokens st = 0 /\
     (l <= usedRequests -> RateLimitStatus.percentage st = 0) /\
     (usedRequests <= 0 -> RateLimitStatus.percentage st = 100)) /\
  (positiveLimit tokenLimit = None -> positiveLimit requestLimit = None ->
   RateLimitStatus.percentage st = 100).
Proof.
  intro st.
  assert (C : forall x, 0 <= clampPercentage x <= 100)
    by (intro x; unfold clampPercentage; lia).
  split; [|split; [|split; [|split; [|split]]]].
  - unfold st, statusOf.
    destruct (positiveLimit tokenLimit), (positiveLimit requestLimit);
      cbn [RateLimitStatus.percentage]; apply C.
  - unfold st, statusOf.
    destruct (positiveLimit tokenLimit), (positiveLimit requestLimit);
      cbn [RateLimitStatus.remaining_tokens]; lia.
  - unfold st, statusOf.
    destruct (positiveLimit tokenLimit), (positiveLimit requestLimit);
      cbn [RateLimitStatus.remaining_requests]; lia.
  - intros l -> Hl. unfold st, statusOf. cbn [positiveLimit].
    apply Z.ltb_lt in Hl as Hb. rewrite Hb.
    cbn [RateLimitStatus.remaining_tokens RateLimitStatus.remaining_requests
         RateLimitStatus.percentage].
    split; [reflexivity|]. split; [reflexivity|].
    apply percentage_of_remaining. exact Hl.
  - intros l Hn -> Hl. unfold st, statusOf. rewrite Hn. cbn [positiveLimit].
    apply Z.ltb_lt in Hl as Hb. rewrite Hb.
    cbn [RateLimitStatus.remaining_tokens RateLimitStatus.remaining_requests
         RateLimitStatus.percentage].
    split; [reflexivity|]. split; [reflexivity|].
    apply percentage_of_remaining. exact Hl.
  - intros Ht Hr. unfold st, statusOf. rewrite Ht, Hr. reflexivity.
Qed.

Lemma status_percentage_witness :
  RateLimitStatus.remaining_tokens
    (statusOf 0 5 12500 30 0 None (Some 10000) None) = Z.max 0 (10000 - 12500) /\
  RateLimitStatus.remaining_requests
    (statusOf 0 5 12500 30 0 None (Some 10000) None) = 0 /\
  (10000 <= 12500 ->
   RateLimitStatus.percentage (statusOf 0 5 12500 30 0 None (Some 10000) None) = 0) /\
  (12500 <= 0 ->
   RateLimitStatus.percentage (statusOf 0 5 12500 30 0 None (Some 10000) None) = 100).
Proof.
  apply (proj1 (proj2 (proj2 (proj2
           (status_percentage 0 5 12500 30 0 None (Some 10000) None)))) 10000);
    [reflexivity | lia].
Defined.

End Limits.

(** ** One configuration after another *)

Module SyncFacts.

Import Db RateLimiter Windows Runs QueryFacts ResetAnchor WindowFacts.

Lemma upsert_status_other rows st i :
  RateLimitStatus.config_id st <> i ->
  find (fun r => RateLimitStatus.config_id r =? i) (upsert_status rows st) =
  find (fun r => RateLimitStatus.config_id r =? i) rows.
Proof.
  intro Hne. induction rows as [|r rows IH]; cbn [upsert_status find].
  - destruct (Z.eqb_spec (RateLimitStatus.config_id st) i); [contradiction|reflexivity].
  - destruct (Z.eqb_spec (RateLimitStatus.config_id r) (RateLimitStatus.config_id st))
      as [E|E]; cbn [find].
    + destruct (Z.eqb_spec (RateLimitStatus.config_id st) i); [contradiction|].
      destruct (Z.eqb_spec (RateLimitStatus.config_id r) i); [congruence|reflexivity].
    + rewrite IH. reflexivity.
Qed.

Lemma In_upsert_status rows st row :
  In row (upsert_status rows st) -> row = st \/ In row rows.
Proof.
  induction rows as [|r rows IH]; cbn [upsert_status].
  - intros [<-|[]]. left. reflexivity.
  - destruct (RateLimitStatus.config_id r =? RateLimitStatus.config_id st).
    + intros [<-|H]; [left; reflexivity | right; right; exact H].
    + intros [<-|H]; [right; left; reflexivity|].
      destruct (IH H) as [->|H']; [left; reflexivity | right; right; exact H'].
Qed.

Lemma upsert_status_NoDup rows st :
  NoDup (map RateLimitStatus.config_id rows) ->
  NoDup (map RateLimitStatus.config_id (upsert_status rows st)).
Proof.
  induction rows as [|r rows IH]; cbn [upsert_status map]; intro Hnd.
  - constructor; [intros []|constructor].
  - inversion Hnd as [|x l Hnot Hnd' E]; subst.
    destruct (Z.eqb_spec (RateLimitStatus.config_id r) (RateLimitStatus.config_id st))
      as [E|E]; cbn [map].
    + rewrite <- E. constructor; assumption.
    + constructor; [|exact (IH Hnd')].
      intro Hin. apply in_map_iff in Hin. destruct Hin as (row & Hd & Hrow).
      apply In_upsert_status in Hrow. destruct Hrow as [->|Hrow]; [congruence|].
      apply Hnot. rewrite <- Hd. apply in_map. exact Hrow.
Qed.

(** A configuration is either skipped or has one status row written under
    its own id. *)
Lemma processConfig_shape config now s c :
  processConfig config now s c = s \/
  exists st,
    RateLimitStatus.config_id st = RateLimitConfig.id c /\
    processConfig config now s c =
      with_status s (upsert_status (rate_limit_status s) st).
Proof.
  unfold processConfig. destruct (incomplete c); [left; reflexivity|].
  destruct (naturalWindow _ _ _) as [[ws nr]|]; [|left; reflexivity].
  right. eexists. split; [|unfold updateStatus, upsertRateLimitStatus; reflexivity].
  apply statusOf_window.
Qed.

Lemma calculateUsage_ext s s' modelPattern since :
  model_usage s = model_usage s' ->
  calculateUsage s modelPattern since = calculateUsage s' modelPattern since.
Proof.
  intro E.
  assert (Q : forall a b o l,
            getModelUsageByPattern s modelPattern a b o l =
            getModelUsageByPattern s' modelPattern a b o l)
    by (intros; unfold getModelUsageByPattern; rewrite E; reflexivity).
  unfold calculateUsage, calculateDeltaFromSnapshots, buildSnapshotMap.
  rewrite !Q. reflexivity.
Qed.

Lemma processConfig_frame config now s c :
  usage_snapshots (processConfig config now s c) = usage_snapshots s /\
  model_usage (processConfig config now s c) = model_usage s /\
  daily_stats (processConfig config now s c) = daily_stats s /\
  rate_limit_configs (processConfig config now s c) = rate_limit_configs s /\
  (forall i, i <> RateLimitConfig.id c ->
     getRateLimitStatus (processConfig config now s c) i = getRateLimitStatus s i) /\
  (NoDup (map RateLimitStatus.config_id (rate_limit_status s)) ->
   NoDup (map RateLimitStatus.config_id
            (rate_limit_status (processConfig config now s c)))).
Proof.
  destruct (processConfig_shape config now s c) as [E|(st & Hid & E)]; rewrite E.
  - repeat split; auto.
  - cbn [usage_snapshots model_usage daily_stats rate_limit_configs rate_limit_status
         with_status].
    repeat split; try reflexivity.
    + intros i Hi. unfold getRateLimitStatus. cbn [rate_limit_status with_status].
      apply upsert_status_other. congruence.
    + apply upsert_status_NoDup.
Qed.

Lemma fold_processConfig_frame config now cs : forall s,
  usage_snapshots (fold_left (processConfig config now) cs s) = usage_snapshots s /\
  model_usage (fold_left (processConfig config now) cs s) = model_usage s /\
  daily_stats (fold_left (processConfig config now) cs s) = daily_stats s /\
  rate_limit_configs (fold_left (processConfig config now) cs s) =
    rate_limit_configs s /\
  (forall i, (forall c, In c cs -> RateLimitConfig.id c <> i) ->
     getRateLimitStatus (fold_left (processConfig config now) cs s) i =
     getRateLimitStatus s i) /\
  (NoDup (map RateLimitStatus.config_id (rate_limit_status s)) ->
   NoDup (map RateLimitStatus.config_id
            (rate_limit_status (fold_left (processConfig config now) cs s)))).
Proof.
  induction cs as [|c cs IH]; intro s; cbn [fold_left].
  - repeat split; auto.
  - destruct (IH (processConfig config now s c)) as (A1 & A2 & A3 & A4 & A5 & A6).
    destruct (processConfig_frame config now s c) as (B1 & B2 & B3 & B4 & B5 & B6).
    rewrite A1, A2, A3, A4, B1, B2, B3, B4. repeat split.
    + intros i Hi. rewrite A5 by (intros c' Hc'; apply Hi; right; exact Hc').
      apply B5. intro E. apply (Hi c); [left; reflexivity | symmetry; exact E].
    + intro Hnd. apply A6, B6, Hnd.
Qed.

Lemma storeUsageData_limits config pricing now s data :
  rate_limit_configs (snd (Collector.storeUsageData config pricing now s data)) =
    rate_limit_configs s /\
  rate_limit_status (snd (Collector.storeUsageData config pricing now s data)) =
    rate_limit_status s.
Proof.
  destruct data as [usage|]; [|split; reflexivity].
  unfold Collector.storeUsageData, insertUsageSnapshot. cbv zeta.
  destruct (Collector.costIsNaN pricing usage); [split; reflexivity|].
  cbn [fst snd]. unfold Collector.calculateDailyDelta. cbv zeta.
  match goal with
  | |- context [let '(a, b) := ?x in _] => destruct x
  end.
  split; reflexivity.
Qed.

(** X12. A full sync never changes a rate-limit configuration, never writes
    a status for an id that no configuration has, and keeps one status row
    per configuration; when the fetch gave nothing to store it leaves the
    snapshots, the model rows and the daily rows as they were, and it still
    reconciles the limits: the result is that of [syncLimits] on the store
    it started from. *)
Theorem full_sync_writes config remotePricing nowStore nowSync s data :
  let s' := FullSync.runFullSync config remotePricing nowStore nowSync s data in
  rate_limit_configs s' = rate_limit_configs s /\
  (forall i, (forall c, In c (rate_limit_configs s) -> RateLimitConfig.id c <> i) ->
     getRateLimitStatus s' i = getRateLimitStatus s i) /\
  (NoDup (map RateLimitStatus.config_id (rate_limit_status s)) ->
   NoDup (map RateLimitStatus.config_id (rate_limit_status s'))) /\
  (data = None \/ data = Some None ->
   usage_snapshots s' = usage_snapshots s /\ model_usage s' = model_usage s /\
   daily_stats s' = daily_stats s) /\
  (data = None \/ data = Some None -> s' = syncLimits config nowSync s).
Proof.
  intro s'. unfold FullSync.runFullSync in s'. cbv zeta in s'.
  set (s1 := match data with
             | Some d =>
                 snd (Collector.storeUsageData config
                        (PricingTable.getModelPricing remotePricing) nowStore s d)
             | None => s
             end) in s'.
  assert (H1 : rate_limit_configs s1 = rate_limit_configs s /\
               rate_limit_status s1 = rate_limit_status s).
  { unfold s1. destruct data as [d|]; [apply storeUsageData_limits | split; reflexivity]. }
  destruct H1 as [Hc Hs].
  unfold s', syncLimits, getAllRateLimitConfigs.
  destruct (fold_processConfig_frame config nowSync (rate_limit_configs s1) s1)
    as (A1 & A2 & A3 & A4 & A5 & A6).
  split; [rewrite A4; exact Hc|]. split; [|split; [|split]].
  - intros i Hi. rewrite A5 by (rewrite Hc; exact Hi).
    unfold getRateLimitStatus. rewrite Hs. reflexivity.
  - intro Hnd. apply A6. rewrite Hs. exact Hnd.
  - intro Hd. rewrite A1, A2, A3. unfold s1.
    destruct Hd as [-> | ->]; repeat split; reflexivity.
  - intro Hd. unfold s1. destruct Hd as [-> | ->]; reflexivity.
Qed.

Lemma full_sync_writes_witness :
  (usage_snapshots
     (FullSync.runFullSync Scenarios.configUtc [] 0 Scenarios.nextPassS6
        Scenarios.storeS6 None) = usage_snapshots Scenarios.storeS6 /\
   model_usage
     (FullSync.runFullSync Scenarios.configUtc [] 0 Scenarios.nextPassS6
        Scenarios.storeS6 None) = model_usage Scenarios.storeS6 /\
   daily_stats
     (FullSync.runFullSync Scenarios.configUtc [] 0 Scenarios.nextPassS6
        Scenarios.storeS6 None) = daily_stats Scenarios.storeS6) /\
  FullSync.runFullSync Scenarios.configUtc [] 0 Scenarios.nextPassS6
    Scenarios.storeS6 None =
  syncLimits Scenarios.configUtc Scenarios.nextPassS6 Scenarios.storeS6.
Proof.
  split.
  - apply (proj1 (proj2 (proj2 (proj2
             (full_sync_writes Scenarios.configUtc [] 0 Scenarios.nextPassS6
                Scenarios.storeS6 None))))).
    left. reflexivity.
  - apply (proj2 (proj2 (proj2 (proj2
             (full_sync_writes Scenarios.configUtc [] 0 Scenarios.nextPassS6
                Scenarios.storeS6 None))))).
    left. reflexivity.
Defined.

Lemma find_upsert_status_id rows st i :
  RateLimitStatus.config_id st = i ->
  find (fun r => RateLimitStatus.config_id r =? i) (upsert_status rows st) = Some st.
Proof. intros <-. apply find_upsert_status. Qed.

Lemma processConfig_own config now s s' c :
  model_usage s = model_usage s' ->
  getRateLimitStatus s (RateLimitConfig.id c) =
    getRateLimitStatus s' (RateLimitConfig.id c) ->
  getRateLimitStatus (processConfig config now s c) (RateLimitConfig.id c) =
    getRateLimitStatus (processConfig config now s' c) (RateLimitConfig.id c).
Proof.
  intros Em Es. unfold processConfig. destruct (incomplete c); [exact Es|].
  destruct (naturalWindow _ _ _) as [[ws nr]|]; [|exact Es].
  rewrite (calculateUsage_ext s s' _ _ Em).
  unfold updateStatus, upsertRateLimitStatus, getRateLimitStatus.
  cbn [rate_limit_status with_status].
  rewrite !find_upsert_status_id by apply statusOf_window. reflexivity.
Qed.

Lemma fold_processConfig_own config now cs :
  NoDup (map RateLimitConfig.id cs) ->
  forall s c, In c cs ->
    getRateLimitStatus (fold_left (processConfig config now) cs s)
      (RateLimitConfig.id c) =
    getRateLimitStatus (processConfig config now s c) (RateLimitConfig.id c).
Proof.
  induction cs as [|a cs IH]; intros Hnd s c Hin; [destruct Hin|].
  cbn [map] in Hnd. inversion Hnd as [|x l Hnot Hnd' E]; subst.
  cbn [fold_left]. destruct Hin as [->|Hin].
  - apply fold_processConfig_frame. intros c' Hc' E. apply Hnot. rewrite <- E.
    apply in_map. exact Hc'.
  - rewrite (IH Hnd' _ c Hin).
    destruct (processConfig_frame config now s a) as (_ & B2 & _ & _ & B5 & _).
    apply processConfig_own; [exact B2|]. apply B5.
    intro E. apply Hnot. rewrite <- E. apply in_map. exact Hin.
Qed.

(** X13. When no two configurations share an id, the status a full
    reconciliation leaves for a configuration is the one that processing
    this configuration alone would have written: the configurations do not
    influence each other. *)
Theorem sync_configs_independent config now s c :
  NoDup (map RateLimitConfig.id (rate_limit_configs s)) ->
  In c (rate_limit_configs s) ->
  getRateLimitStatus (syncLimits config now s) (RateLimitConfig.id c) =
  getRateLimitStatus (processConfig config now s c) (RateLimitConfig.id c).
Proof.
  intros Hnd Hin. unfold syncLimits, getAllRateLimitConfigs.
  apply fold_processConfig_own; assumption.
Qed.

Lemma sync_configs_independent_witness :
  getRateLimitStatus
    (syncLimits Scenarios.configUtc Scenarios.nextPassS6 Scenarios.storeS6) 5 =
  getRateLimitStatus
    (processConfig Scenarios.configUtc Scenarios.nextPassS6 Scenarios.storeS6
       Scenarios.configS6) 5.
Proof.
  apply (sync_configs_independent Scenarios.configUtc Scenarios.nextPassS6
           Scenarios.storeS6 Scenarios.configS6).
  - cbn. constructor; [intros []|constructor].
  - left. reflexivity.
Defined.

End SyncFacts.

(** ** The interpolated baseline *)

Module Interpolation.

Import Db RateLimiter Windows Runs QueryFacts ResetAnchor Gap.

Lemma gapRatio_unit since baseline firstInner :
  (0 <= gapRatio since baseline firstInner)%Q /\
  (gapRatio since baseline firstInner <= 1)%Q.
Proof.
  unfold gapRatio. cbv zeta. split.
  - apply Q.le_max_l.
  - apply Q.max_lub; [discriminate | apply Q.le_min_l].
Qed.

Lemma Math_round_between (b e : Z) (ratio : Q) :
  (0 <= ratio)%Q -> (ratio <= 1)%Q ->
  Z.min b e <= Math_round (inject_Z b + ratio * inject_Z (e - b)) <= Z.max b e.
Proof.
  intros H0 H1. unfold Math_round.
  set (x := (inject_Z b + ratio * inject_Z (e - b))%Q).
  assert (Hx : (inject_Z (Z.min b e) <= x)%Q /\ (x <= inject_Z (Z.max b e))%Q).
  { unfold x. unfold Z.sub. rewrite inject_Z_plus, inject_Z_opp.
    destruct (Z.le_ge_cases b e) as [Hbe|Hbe].
    - rewrite Z.min_l, Z.max_r by exact Hbe. rewrite Zle_Qle in Hbe.
      split; nra.
    - rewrite Z.min_r, Z.max_l by exact Hbe. rewrite Zle_Qle in Hbe.
      split; nra. }
  destruct Hx as [Hlo Hhi]. split.
  - rewrite <- (Qfloor_half (Z.min b e)). apply Qfloor_resp_le. lra.
  - rewrite <- (Qfloor_half (Z.max b e)). apply Qfloor_resp_le. lra.
Qed.

(** X14. Whatever the three times are, each interpolated counter of a model
    lies between its counter in the baseline map and its counter in the map
    of the first inner snapshot, a model that the first inner snapshot lacks
    keeps its baseline counters, and the interpolated map has an entry for
    exactly the models of the two maps. *)
Theorem interpolation_between baselineMap firstInnerMap since baseline firstInner
  modelName :
  let ratio := gapRatio since baseline firstInner in
  let b := countersOf baselineMap modelName in
  let e := match obj_get firstInnerMap modelName with Some x => x | None => b end in
  let r := interpolateRecord baselineMap firstInnerMap ratio modelName in
  Z.min (UsageCalculation.total_tokens b) (UsageCalculation.total_tokens e) <=
    UsageCalculation.total_tokens r <=
    Z.max (UsageCalculation.total_tokens b) (UsageCalculation.total_tokens e) /\
  Z.min (UsageCalculation.request_count b) (UsageCalculation.request_count e) <=
    UsageCalculation.request_count r <=
    Z.max (UsageCalculation.request_count b) (UsageCalculation.request_count e) /\
  (obj_get firstInnerMap modelName = None -> r = b) /\
  obj_get (interpolateSnapshotMap baselineMap firstInnerMap ratio) modelName =
    (if mem modelName (obj_keys baselineMap ++ obj_keys firstInnerMap)
     then Some r else None).
Proof.
  intros ratio b e r.
  destruct (gapRatio_unit since baseline firstInner) as [H0 H1].
  split; [|split; [|split]].
  - unfold r, interpolateRecord. cbv zeta.
    cbn [UsageCalculation.total_tokens]. apply Math_round_between; assumption.
  - unfold r, interpolateRecord. cbv zeta.
    cbn [UsageCalculation.request_count]. apply Math_round_between; assumption.
  - intro Hn. unfold r, interpolateRecord, b, countersOf. cbv zeta. rewrite Hn.
    rewrite !Math_round_same.
    destruct (match obj_get baselineMap modelName with
              | Some r0 => r0
              | None => UsageCalculation.zero
              end); reflexivity.
  - unfold interpolateSnapshotMap.
    rewrite (obj_get_fold_set
               (interpolateRecord baselineMap firstInnerMap ratio)).
    destruct (mem modelName (obj_keys baselineMap ++ obj_keys firstInnerMap)) eqn:M.
    + assert (M' : mem modelName
                     (set_of (obj_keys baselineMap ++ obj_keys firstInnerMap)) = true)
        by (apply mem_In, In_set_of, (proj1 (mem_In _ _)); exact M).
      rewrite M'. reflexivity.
    + destruct (mem modelName
                  (set_of (obj_keys baselineMap ++ obj_keys firstInnerMap))) eqn:M';
        [|reflexivity].
      apply (proj1 (mem_In _ _)) in M'. apply (proj1 (In_set_of _ _)) in M'.
      apply (proj2 (mem_In _ _)) in M'. congruence.
Qed.

Lemma interpolation_between_witness :
  interpolateRecord [("gpt-4", UsageCalculation.mk 10000 10)] [] (gapRatio 5 0 10) "gpt-4" =
  countersOf [("gpt-4", UsageCalculation.mk 10000 10)] "gpt-4".
Proof.
  apply (proj1 (proj2 (proj2
           (interpolation_between [("gpt-4", UsageCalculation.mk 10000 10)] []
              5 0 10 "gpt-4")))).
  reflexivity.
Defined.

End Interpolation.

(** ** Snapshot maps *)

Module SnapshotMaps.

Import Db RateLimiter Windows Runs Sums QueryFacts Keys.


Section Field.

Variable g : ModelUsage.t -> Z.
Variable h : UsageCalculation.t -> Z.
Hypothesis h_add : forall rec e, h (addRecord rec e) = h e + g rec.
Hypothesis h_zero : h UsageCalculation.zero = 0.






End Field.



End SnapshotMaps.

(** ** Calendar windows *)

Module Calendar.

Import Db RateLimiter Windows Runs WindowFacts.

Lemma daily_tile now t :
  setHours0 now <= t < addDays (setHours0 now) 1 -> setHours0 t = setHours0 now.
Proof.
  unfold setHours0, addDays, msPerDay. intro H. Z.div_mod_to_equations. lia.
Qed.

Lemma weekly_of wm d :
  naturalWindow "weekly" wm d =
  Some (addDays (setHours0 d)
          (- (if getDay (setHours0 d) =? 0 then 6 else getDay (setHours0 d) - 1)),
        addDays
          (addDays (setHours0 d)
             (- (if getDay (setHours0 d) =? 0 then 6 else getDay (setHours0 d) - 1)))
          7).
Proof. reflexivity. Qed.

Lemma monday_unique a b :
  a mod msPerDay = 0 -> getDay a = 1 -> a <= b < a + 7 * msPerDay ->
  b mod msPerDay = 0 -> getDay b = 1 -> a = b.
Proof.
  unfold getDay, msPerDay. intros Ha Da Hab Hb Db.
  Z.div_mod_to_equations. lia.
Qed.

Lemma weekly_tile wm now t ws nr :
  naturalWindow "weekly" wm now = Some (ws, nr) ->
  ws <= t < nr -> naturalWindow "weekly" wm t = Some (ws, nr).
Proof.
  rewrite !weekly_of. intros E Ht. injection E as Ews Enr.
  pose proof (weekly_start now) as Hn. pose proof (weekly_start t) as Hw.
  cbv zeta in Hn, Hw. rewrite Ews in Hn, Enr.
  set (wt := addDays (setHours0 t)
               (- (if getDay (setHours0 t) =? 0 then 6
                   else getDay (setHours0 t) - 1))) in *.
  destruct Hn as (Mn & Dn & Bn). destruct Hw as (Mw & Dw & Bw).
  assert (Hnr : nr = ws + 7 * msPerDay) by (rewrite <- Enr; unfold addDays; lia).
  assert (E : ws = wt).
  { destruct (Z.le_ge_cases ws wt) as [H|H].
    - apply monday_unique; try assumption. lia.
    - symmetry. apply monday_unique; try assumption. lia. }
  rewrite <- E. rewrite Hnr. unfold addDays. reflexivity.
Qed.

(** X16. The daily and the weekly windows tile the time line: the window
    computed at an instant holds that instant, every instant inside it gets
    the same window, and the window computed at its next reset starts
    there. *)
Theorem calendar_windows_tile strategy windowMinutes now ws nr :
  strategy = "daily" \/ strategy = "weekly" ->
  naturalWindow strategy windowMinutes now = Some (ws, nr) ->
  ws <= now < nr /\
  (forall t, ws <= t < nr ->
     naturalWindow strategy windowMinutes t = Some (ws, nr)) /\
  (exists nr', naturalWindow strategy windowMinutes nr = Some (nr, nr')).
Proof.
  intros [-> | ->] E.
  - change (naturalWindow "daily" windowMinutes now)
      with (Some (setHours0 now, addDays (setHours0 now) 1)) in E.
    injection E as <- <-.
    pose proof (setHours0_midnight now) as [M B].
    split; [unfold addDays; lia|]. split.
    + intros t Ht.
      change (naturalWindow "daily" windowMinutes t)
        with (Some (setHours0 t, addDays (setHours0 t) 1)).
      rewrite (daily_tile now t Ht). reflexivity.
    + eexists.
      change (naturalWindow "daily" windowMinutes (addDays (setHours0 now) 1))
        with (Some (setHours0 (addDays (setHours0 now) 1),
                    addDays (setHours0 (addDays (setHours0 now) 1)) 1)).
      replace (setHours0 (addDays (setHours0 now) 1))
        with (addDays (setHours0 now) 1); [reflexivity|].
      unfold setHours0, addDays, msPerDay in *. Z.div_mod_to_equations. lia.
  - pose proof E as E'. rewrite weekly_of in E'. injection E' as Ews Enr.
    pose proof (weekly_start now) as Hn. cbv zeta in Hn. rewrite Ews in Hn, Enr.
    destruct Hn as (Mn & Dn & Bn).
    assert (Hnr : nr = ws + 7 * msPerDay) by (rewrite <- Enr; unfold addDays; lia).
    split; [lia|]. split.
    + intros t Ht. exact (weekly_tile windowMinutes now t ws nr E Ht).
    + exists (nr + 7 * msPerDay).
      pose proof (weekly_start nr) as Hw. cbv zeta in Hw. rewrite weekly_of.
      set (wt := addDays (setHours0 nr)
                   (- (if getDay (setHours0 nr) =? 0 then 6
                       else getDay (setHours0 nr) - 1))) in *.
      destruct Hw as (Mw & Dw & Bw).
      assert (Mnr : nr mod msPerDay = 0 /\ getDay nr = 1).
      { rewrite Hnr. unfold getDay, msPerDay in *. Z.div_mod_to_equations. lia. }
      assert (Ew : wt = nr) by (apply monday_unique; try apply Mnr; try assumption; lia).
      rewrite Ew. unfold addDays. reflexivity.
Qed.

Lemma calendar_windows_tile_witness :
  Scenarios.midnightS6 <= Scenarios.resetTimeS6 < Scenarios.midnightS6 + 86400000.
Proof.
  refine (proj1 (calendar_windows_tile "daily" 1440 Scenarios.resetTimeS6
                   Scenarios.midnightS6 (Scenarios.midnightS6 + 86400000) _ _)).
  - left. reflexivity.
  - vm_compute. reflexivity.
Defined.

(** X17. The daily window of the reconciler and the day of the collector's
    daily row are the same local day: the window computed at an instant
    starts at the midnight that begins the collector's local date of that
    instant and ends at the next one. *)
Theorem daily_window_is_collector_day config windowMinutes now :
  naturalWindow "daily" windowMinutes (getLocalDateTime config now) =
  Some (Collector.getLocalDate config now * msPerDay,
        (Collector.getLocalDate config now + 1) * msPerDay).
Proof.
  change (naturalWindow "daily" windowMinutes (getLocalDateTime config now))
    with (Some (setHours0 (getLocalDateTime config now),
                addDays (setHours0 (getLocalDateTime config now)) 1)).
  unfold setHours0, addDays, getLocalDateTime, Collector.getLocalDate, msPerDay.
  f_equal. f_equal; Z.div_mod_to_equations; lia.
Qed.

End Calendar.

(** ** The fallback handler *)

Module FallbackFacts.

Import Db RateLimiter Server Fallback.

Lemma isDigit_cases c :
  isDigit c = true ->
  In c ["0"; "1"; "2"; "3"; "4"; "5"; "6"; "7"; "8"; "9"]%char.
Proof.
  destruct c as [[] [] [] [] [] [] [] []]; intro H; vm_compute in H;
    try discriminate H; cbn; tauto.
Qed.

Lemma allDigits_cons c s :
  allDigits (String c s) = true ->
  isDigit c = true /\ (s = EmptyString \/ allDigits s = true).
Proof.
  cbn [allDigits]. destruct s as [|c' s'].
  - intro H. split; [exact H | left; reflexivity].
  - intro H. apply andb_true_iff in H. destruct H as [H1 H2].
    split; [exact H1 | right; exact H2].
Qed.

Lemma digits_allDigits s : forall a,
  s = EmptyString \/ allDigits s = true ->
  exists n, digits 10 (Some a) s = Some n.
Proof.
  induction s as [|c s IH]; intros a H.
  - exists a. reflexivity.
  - destruct H as [H|H]; [discriminate|].
    apply allDigits_cons in H. destruct H as [Hc Hs].
    apply isDigit_cases in Hc. cbn in Hc.
    repeat (destruct Hc as [<-|Hc]; [cbn [digits]; apply IH; exact Hs|]).
    destruct Hc.
Qed.

Lemma parseInt_allDigits ds :
  allDigits ds = true -> exists n, parseInt ds = Some n.
Proof.
  destruct ds as [|c s]; [discriminate|]. intro H.
  apply allDigits_cons in H. destruct H as [Hc Hs].
  assert (P : forall a, exists n, digits 10 (Some a) s = Some n)
    by (intro a; apply digits_allDigits; exact Hs).
  assert (Z0 : exists n, parseInt (String "0" s) = Some n).
  { destruct s as [|c2 s2].
    - exists 0. reflexivity.
    - destruct Hs as [Hs|Hs]; [discriminate|].
      apply allDigits_cons in Hs. destruct Hs as [Hc2 Hs2].
      pose proof (fun a => digits_allDigits s2 a Hs2) as P2.
      apply isDigit_cases in Hc2. cbn in Hc2.
      repeat (destruct Hc2 as [<-|Hc2];
              [match goal with
               | |- exists n, parseInt (String _ (String ?d ?r)) = Some n =>
                   destruct (P2 (Z.of_nat (nat_of_ascii d) - 48)) as [n Hn];
                   exists (1 * n);
                   change (parseInt (String "0" (String d r)))
                     with (match digits 10 (Some (Z.of_nat (nat_of_ascii d) - 48)) r with
                           | Some n0 => Some (1 * n0)
                           | None => None
                           end);
                   rewrite Hn; reflexivity
               end|]).
      destruct Hc2. }
  apply isDigit_cases in Hc. cbn in Hc.
  destruct Hc as [<-|Hc]; [exact Z0|].
  repeat (destruct Hc as [<-|Hc];
          [match goal with
           | |- exists n, parseInt (String ?d ?r) = Some n =>
               destruct (P (Z.of_nat (nat_of_ascii d) - 48)) as [n Hn];
               exists (1 * n);
               change (parseInt (String d r))
                 with (match digits 10 (Some (Z.of_nat (nat_of_ascii d) - 48)) r with
                       | Some n0 => Some (1 * n0)
                       | None => None
                       end);
               rewrite Hn; reflexivity
           end|]).
  destruct Hc.
Qed.

Lemma resetMatch_reset ds :
  resetMatch ("/api/collector/reset/" ++ ds) =
  if allDigits ds then Some ds else None.
Proof. reflexivity. Qed.

Lemma fetch_reset config fault now sch s method ds :
  fetch config fault now sch s method ("/api/collector/reset/" ++ ds) =
  match resetMatch ("/api/collector/reset/" ++ ds) with
  | Some digits =>
      if isPost method then
        let result :=
          match parseInt digits with
          | Some configId => resetLimit config fault now s configId
          | None => (resetLimitNaN fault, s)
          end in
        if success (fst result)
        then (mkResponse 200
                (ResetBody (message (fst result)) (newStatus (fst result))),
              sch, snd result)
        else (mkResponse
                (if includes (message (fst result)) "not found" then 404 else 500)
                (ErrorBody (message (fst result))),
              sch, snd result)
      else (notFound, sch, s)
  | None => (notFound, sch, s)
  end.
Proof. reflexivity. Qed.

(** X18. On a reset path the fallback handler answers a POST whose id is
    all digits exactly as the route handler does and leaves the scheduler
    alone; an id with any other character, or any other method, gets 404
    "Not found" and the store is not touched. *)
Theorem fallback_reset config fault now sch s method ds :
  (allDigits ds = true ->
   fetch config fault now sch s POST ("/api/collector/reset/" ++ ds) =
   (fst (postReset config fault now s ds), sch,
    snd (postReset config fault now s ds))) /\
  (allDigits ds = false \/ isPost method = false ->
   fetch config fault now sch s method ("/api/collector/reset/" ++ ds) =
   (notFound, sch, s)).
Proof.
  split.
  - intro Hd. rewrite fetch_reset, resetMatch_reset, Hd. cbn [isPost].
    destruct (parseInt_allDigits ds Hd) as [n Hn].
    unfold postReset. rewrite Hn. cbv zeta.
    destruct (success (fst (resetLimit config fault now s n))); reflexivity.
  - intro H. rewrite fetch_reset, resetMatch_reset.
    destruct H as [-> | ->]; [reflexivity|].
    destruct (allDigits ds); reflexivity.
Qed.

Lemma fallback_reset_witness :
  fetch Scenarios.configUtc NoFault Scenarios.resetTimeS6 (Scheduler.create 300)
    Scenarios.storeS6 POST ("/api/collector/reset/" ++ "5") =
  (fst (postReset Scenarios.configUtc NoFault Scenarios.resetTimeS6
          Scenarios.storeS6 "5"),
   Scheduler.create 300,
   snd (postReset Scenarios.configUtc NoFault Scenarios.resetTimeS6
          Scenarios.storeS6 "5")) /\
  fetch Scenarios.configUtc NoFault Scenarios.resetTimeS6 (Scheduler.create 300)
    Scenarios.storeS6 POST ("/api/collector/reset/" ++ "5abc") =
  (notFound, Scheduler.create 300, Scenarios.storeS6).
Proof.
  split.
  - apply (proj1 (fallback_reset Scenarios.configUtc NoFault Scenarios.resetTimeS6
                    (Scheduler.create 300) Scenarios.storeS6 POST "5")).
    reflexivity.
  - apply (proj2 (fallback_reset Scenarios.configUtc NoFault Scenarios.resetTimeS6
                    (Scheduler.create 300) Scenarios.storeS6 POST "5abc")).
    left. reflexivity.
Defined.

End FallbackFacts.

(** ** The scheduler *)

Module SchedulerFacts.

Import Server Loop.

Lemma run_cons sch e events : run sch (e :: events) = run (handle sch e) events.
Proof. reflexivity. Qed.

(** X19. [start()] on a running scheduler changes nothing. Once [stop()]
    has run, no pass is started by the timer: as long as nobody calls
    [start()] or the manual trigger, the number of passes started stays what
    it was, the timer stays cleared and the passes in flight can only
    finish; [stop()] itself ends no pass. *)
Theorem stopped_scheduler_starts_nothing :
  (forall now now' sch,
     Scheduler.start now' (Scheduler.start now sch) = Scheduler.start now sch) /\
  (forall sch, Scheduler.inFlight (Scheduler.stop sch) = Scheduler.inFlight sch) /\
  (forall sch events,
     forallb (fun e => match e with Start _ | Trigger => false | _ => true end)
       events = true ->
     Scheduler.started (run (Scheduler.stop sch) events) = Scheduler.started sch /\
     Scheduler.intervalId (run (Scheduler.stop sch) events) = None /\
     (Scheduler.inFlight (run (Scheduler.stop sch) events) <=
      Scheduler.inFlight sch)%nat).
Proof.
  split; [|split].
  - intros now now' sch. unfold Scheduler.start.
    destruct (Scheduler.intervalId sch) eqn:E.
    + rewrite E. reflexivity.
    + reflexivity.
  - reflexivity.
  - intros sch events.
    assert (G : forall events sch0,
      Scheduler.intervalId sch0 = None ->
      forallb (fun e => match e with Start _ | Trigger => false | _ => true end)
        events = true ->
      Scheduler.started (run sch0 events) = Scheduler.started sch0 /\
      Scheduler.intervalId (run sch0 events) = None /\
      (Scheduler.inFlight (run sch0 events) <= Scheduler.inFlight sch0)%nat).
    { clear. induction events as [|e events IH]; intros sch0 Hid Hall.
      - repeat split; [exact Hid | apply Nat.le_refl].
      - cbn [forallb] in Hall. apply andb_true_iff in Hall.
        destruct Hall as [He Hall]. rewrite run_cons.
        assert (Hstep : Scheduler.started (handle sch0 e) = Scheduler.started sch0 /\
                        Scheduler.intervalId (handle sch0 e) = None /\
                        (Scheduler.inFlight (handle sch0 e) <=
                         Scheduler.inFlight sch0)%nat).
        { destruct e; try discriminate He; cbn [handle].
          - unfold Scheduler.tick. rewrite Hid.
            repeat split; [exact Hid | apply Nat.le_refl].
          - unfold Scheduler.settle.
            cbn [Scheduler.started Scheduler.intervalId Scheduler.inFlight].
            repeat split; [exact Hid | apply Nat.le_pred_l].
          - unfold Scheduler.stop.
            cbn [Scheduler.started Scheduler.intervalId Scheduler.inFlight].
            repeat split. apply Nat.le_refl. }
        destruct Hstep as (S1 & S2 & S3).
        destruct (IH (handle sch0 e) S2 Hall) as (I1 & I2 & I3).
        rewrite I1, S1. repeat split; [exact I2|].
        eapply Nat.le_trans; [exact I3 | exact S3]. }
    intro Hall. destruct (G events (Scheduler.stop sch) eq_refl Hall) as (A & B & C).
    repeat split; assumption.
Qed.

Lemma stopped_scheduler_starts_nothing_witness :
  Scheduler.started
    (run (Scheduler.stop (Scheduler.start 0 (Scheduler.create 300)))
       [TimerFires; PassSettles; TimerFires]) =
  Scheduler.started (Scheduler.start 0 (Scheduler.create 300)).
Proof.
  apply (proj2 (proj2 stopped_scheduler_starts_nothing)
           (Scheduler.start 0 (Scheduler.create 300))
           [TimerFires; PassSettles; TimerFires]).
  reflexivity.
Defined.

End SchedulerFacts.

(** ** Endpoints and models of a daily row *)

Module EndpointFacts.

Import Db Collector Runs Sums PassFacts SelfHealing Shapes DbFacts.


Section Merge.

Context {V : Type}.
Variable mrg : V -> V -> V.
Variable zero : V.




End Merge.












End EndpointFacts.

(** ** Requests and tokens of a day across restarts *)

Module CountsFacts.

Import Db Collector Runs Sums PassFacts SelfHealing Monotone Shapes Keys.











End CountsFacts.

(** ** What a normal pass adds to the day *)

Module LossFree.

Import Db Collector Runs Sums PassFacts SelfHealing Monotone Shapes Scenarios.









End LossFree.

(** ** The rate limits shown in the UI *)

Module UiFacts.

Import Db RateLimiter DataApi QueryFacts Limits.

Lemma obj_get_upd {V : Type} (o : Obj V) k (f : V -> V) dflt k' :
  obj_get (obj_upd o k f dflt) k' =
  if String.eqb k k'
  then Some (f (match obj_get o k with Some v => v | None => dflt end))
  else obj_get o k'.
Proof.
  induction o as [|[k0 v0] o IH]; cbn [obj_upd obj_get].
  - destruct (String.eqb k k'); reflexivity.
  - destruct (String.eqb_spec k0 k) as [->|Hne]; cbn [obj_get].
    + destruct (String.eqb k k'); reflexivity.
    + rewrite IH. destruct (String.eqb_spec k k') as [E|Hne'].
      * subst k'. destruct (String.eqb_spec k0 k); [contradiction|reflexivity].
      * reflexivity.
Qed.

Lemma In_flat_upd (providers : Providers) key l dflt x :
  UiProvider.limits dflt = [] ->
  In x (flat_map (fun p => UiProvider.limits (snd p))
          (obj_upd providers key (pushLimit l) dflt)) <->
  x = l \/ In x (flat_map (fun p => UiProvider.limits (snd p)) providers).
Proof.
  intro Hd. induction providers as [|[k0 p0] providers IH];
    cbn [obj_upd flat_map snd pushLimit UiProvider.limits].
  - rewrite Hd. cbn. intuition congruence.
  - destruct (String.eqb k0 key); cbn [flat_map snd pushLimit UiProvider.limits].
    + rewrite !in_app_iff. cbn [In]. intuition congruence.
    + rewrite !in_app_iff, IH. tauto.
Qed.

Lemma length_flat_upd (providers : Providers) key l dflt :
  UiProvider.limits dflt = [] ->
  List.length (flat_map (fun p => UiProvider.limits (snd p))
                 (obj_upd providers key (pushLimit l) dflt)) =
  S (List.length (flat_map (fun p => UiProvider.limits (snd p)) providers)).
Proof.
  intro Hd. induction providers as [|[k0 p0] providers IH];
    cbn [obj_upd flat_map snd pushLimit UiProvider.limits].
  - rewrite Hd. reflexivity.
  - destruct (String.eqb k0 key); cbn [flat_map snd pushLimit UiProvider.limits].
    + rewrite !length_app. cbn [List.length]. lia.
    + rewrite !length_app, IH. lia.
Qed.

Section Fold.

Variable statuses : list RateLimitStatus.t.

Lemma fold_limits_In configs : forall (acc : Providers) x,
  In x (flat_map (fun p => UiProvider.limits (snd p)) (fold_left (addConfig statuses) configs acc)) <->
  In x (flat_map (fun p => UiProvider.limits (snd p)) acc) \/
  exists c, In c configs /\
            x = uiLimitOf c (statusFor statuses (RateLimitConfig.id c)).
Proof.
  induction configs as [|c configs IH]; intros acc x; cbn [fold_left].
  - split; [intro H; left; exact H | intros [H|(c & [] & _)]; exact H].
  - rewrite IH. unfold addConfig. rewrite In_flat_upd by reflexivity. split.
    + intros [[->|H]|(c' & Hc' & E)].
      * right. exists c. split; [left; reflexivity | reflexivity].
      * left. exact H.
      * right. exists c'. split; [right; exact Hc' | exact E].
    + intros [H|(c' & [<-|Hc'] & E)].
      * left. right. exact H.
      * left. left. exact E.
      * right. exists c'. split; [exact Hc' | exact E].
Qed.

Lemma fold_limits_length configs : forall acc : Providers,
  List.length
    (flat_map (fun p => UiProvider.limits (snd p)) (fold_left (addConfig statuses) configs acc)) =
  (List.length (flat_map (fun p => UiProvider.limits (snd p)) acc) +
   List.length configs)%nat.
Proof.
  induction configs as [|c configs IH]; intro acc; cbn [fold_left List.length].
  - lia.
  - rewrite IH. unfold addConfig. rewrite length_flat_upd by reflexivity. lia.
Qed.

Lemma step_keeps (providers : Providers) conf key l :
  (exists p, obj_get providers key = Some p /\ In l (UiProvider.limits p)) ->
  exists p, obj_get (addConfig statuses providers conf) key = Some p /\ In l (UiProvider.limits p).
Proof.
  intros (p & Hp & Hl). unfold addConfig. rewrite obj_get_upd.
  destruct (String.eqb_spec (providerKeyOf (RateLimitConfig.model_pattern conf)) key)
    as [E|E].
  - rewrite E, Hp. eexists. split; [reflexivity|].
    cbn [pushLimit UiProvider.limits]. apply in_or_app. left. exact Hl.
  - exists p. split; assumption.
Qed.

Lemma fold_placement configs : forall (acc : Providers) c,
  In c configs ->
  exists p,
    obj_get (fold_left (addConfig statuses) configs acc)
      (providerKeyOf (RateLimitConfig.model_pattern c)) = Some p /\
    In (uiLimitOf c (statusFor statuses (RateLimitConfig.id c))) (UiProvider.limits p).
Proof.
  assert (K : forall configs (acc : Providers) key l,
    (exists p, obj_get acc key = Some p /\ In l (UiProvider.limits p)) ->
    exists p, obj_get (fold_left (addConfig statuses) configs acc) key = Some p /\
              In l (UiProvider.limits p)).
  { induction configs0 as [|c0 configs0 IH]; intros acc key l H; cbn [fold_left];
      [exact H|].
    apply IH. apply step_keeps. exact H. }
  induction configs as [|c0 configs IH]; intros acc c Hin; [destruct Hin|].
  cbn [fold_left]. destruct Hin as [->|Hin]; [|apply IH; exact Hin].
  apply K. unfold addConfig. rewrite obj_get_upd, String.eqb_refl.
  eexists. split; [reflexivity|].
  cbn [pushLimit UiProvider.limits]. apply in_or_app. right. left. reflexivity.
Qed.

End Fold.

(** X23. The answer of [getRateLimits] shows every configuration once:
    the limits of all providers together are as many as the configurations
    and are exactly their UI entries, and the entry of a configuration
    stands under the provider its model pattern selects ([gpt] before
    [claude] before [gemini], else [unknown]). *)
Theorem ui_limits_cover_configs s :
  let limits := flat_map (fun p => UiProvider.limits (snd p)) (getRateLimits s) in
  List.length limits = List.length (rate_limit_configs s) /\
  (forall l, In l limits <->
     exists c, In c (rate_limit_configs s) /\
       l = uiLimitOf c (statusFor (rate_limit_status s) (RateLimitConfig.id c))) /\
  (forall c, In c (rate_limit_configs s) ->
     exists p,
       obj_get (getRateLimits s) (providerKeyOf (RateLimitConfig.model_pattern c))
         = Some p /\
       In (uiLimitOf c (statusFor (rate_limit_status s) (RateLimitConfig.id c)))
         (UiProvider.limits p)).
Proof.
  intro limits. unfold limits, getRateLimits. split; [|split].
  - rewrite (fold_limits_length (rate_limit_status s)). reflexivity.
  - intro l. rewrite (fold_limits_In (rate_limit_status s)). cbn [flat_map].
    split; [intros [[]|H]; exact H | intro H; right; exact H].
  - intros c Hc. apply (fold_placement (rate_limit_status s)). exact Hc.
Qed.

Lemma ui_limits_cover_configs_witness :
  exists p,
    obj_get (getRateLimits Scenarios.storeS6)
      (providerKeyOf (RateLimitConfig.model_pattern Scenarios.configS6)) = Some p /\
    In (uiLimitOf Scenarios.configS6
          (statusFor (rate_limit_status Scenarios.storeS6)
             (RateLimitConfig.id Scenarios.configS6)))
      (UiProvider.limits p).
Proof.
  apply (proj2 (proj2 (ui_limits_cover_configs Scenarios.storeS6))).
  left. reflexivity.
Defined.

Lemma round_near_floor (x : Q) :
  Math_floor x <= Math_round x <= Math_floor x + 1.
Proof.
  unfold Math_floor, Math_round. split.
  - apply Qfloor_resp_le. lra.
  - pose proof (Qfloor_le (x + (1 # 2))) as H1.
    pose proof (Qlt_floor x) as H2.
    assert (H : (inject_Z (Qfloor (x + (1 # 2))) < inject_Z (Qfloor x + 1 + 1))%Q).
    { rewrite (inject_Z_plus (Qfloor x + 1) 1). change (inject_Z 1) with 1%Q. lra. }
    rewrite <- Zlt_Qlt in H. lia.
Qed.

Lemma ui_near (used l : Z) :
  0 < l -> 0 <= used ->
  clampPercentage (Math_floor (inject_Z (Z.max 0 (l - used)) / inject_Z l * 100)) <=
    Math_round (inject_Z (Z.max 0 (l - used)) / inject_Z l * 100) <=
  clampPercentage (Math_floor (inject_Z (Z.max 0 (l - used)) / inject_Z l * 100)) + 1.
Proof.
  intros Hl Hu.
  rewrite clamp_id; [apply round_near_floor|].
  rewrite floor_ratio by exact Hl. split.
  - apply Z.div_pos; lia.
  - apply Z.div_le_upper_bound; lia.
Qed.

(** X24. The percentage that [getRateLimits] recomputes for the UI from the
    stored remainder is the percentage the reconciler stored, or one more:
    the UI rounds to the nearest integer where the reconciler rounds down.
    This holds under a positive token limit and, without a token limit,
    under a positive request limit; with neither both show 100. *)
Theorem ui_percentage_near_status conf now usedTokens usedRequests windowStart
  nextReset :
  let st :=
    statusOf now (RateLimitConfig.id conf) usedTokens usedRequests windowStart
      nextReset (RateLimitConfig.token_limit conf)
      (RateLimitConfig.request_limit conf) in
  let ui := BackendStatus.percentage (backendStatusOf conf (Some st)) in
  (forall tl, RateLimitConfig.token_limit conf = Some tl -> 0 < tl ->
     0 <= usedTokens ->
     RateLimitStatus.percentage st <= ui <= RateLimitStatus.percentage st + 1) /\
  (forall rl, truthy (RateLimitConfig.token_limit conf) = None ->
     RateLimitConfig.request_limit conf = Some rl -> 0 < rl -> 0 <= usedRequests ->
     RateLimitStatus.percentage st <= ui <= RateLimitStatus.percentage st + 1) /\
  (truthy (RateLimitConfig.token_limit conf) = None ->
   truthy (RateLimitConfig.request_limit conf) = None ->
   ui = 100).
Proof.
  intros st ui. split; [|split].
  - intros tl Et Hl Hu. unfold ui, st, backendStatusOf, statusOf. rewrite Et.
    cbn [truthy positiveLimit].
    destruct (Z.eqb_spec tl 0) as [E0|_]; [lia|].
    apply Z.ltb_lt in Hl as Hb. rewrite Hb.
    cbn [RateLimitStatus.remaining_tokens RateLimitStatus.percentage
         BackendStatus.percentage].
    apply ui_near; assumption.
  - intros rl Et Er Hl Hu. unfold ui, st, backendStatusOf, statusOf. rewrite Et, Er.
    assert (Ep : positiveLimit (RateLimitConfig.token_limit conf) = None).
    { unfold truthy in Et. destruct (RateLimitConfig.token_limit conf) as [t|];
        [|reflexivity].
      destruct (Z.eqb_spec t 0) as [->|_]; [reflexivity | discriminate]. }
    rewrite Ep. cbn [truthy positiveLimit].
    destruct (Z.eqb_spec rl 0) as [E0|_]; [lia|].
    apply Z.ltb_lt in Hl as Hb. rewrite Hb.
    cbn [RateLimitStatus.remaining_requests RateLimitStatus.percentage
         BackendStatus.percentage].
    apply ui_near; assumption.
  - intros Et Er. unfold ui, backendStatusOf. rewrite Et, Er. reflexivity.
Qed.

Lemma ui_percentage_near_status_witness :
  RateLimitStatus.percentage
    (statusOf 0 5 2450 30 0 None (Some 10000) None) <=
  BackendStatus.percentage
    (backendStatusOf Scenarios.configS6
       (Some (statusOf 0 5 2450 30 0 None (Some 10000) None))) <=
  RateLimitStatus.percentage
    (statusOf 0 5 2450 30 0 None (Some 10000) None) + 1.
Proof.
  apply (proj1 (ui_percentage_near_status Scenarios.configS6 0 2450 30 0 None) 10000);
    [reflexivity | lia | lia].
Defined.

End UiFacts.

(** ** Saving the configuration *)

Module SaveFacts.

Import Db RateLimiter DataApi SaveLimits SaveShapes.

Lemma rowsPersist_refl rows : rowsPersist rows rows.
Proof. intros c Hc. exists c. repeat split. exact Hc. Qed.

Lemma rowsPersist_trans r0 r1 r2 :
  rowsPersist r0 r1 -> rowsPersist r1 r2 -> rowsPersist r0 r2.
Proof.
  intros H01 H12 c Hc. destruct (H01 c Hc) as (c1 & Hc1 & I1 & A1).
  destruct (H12 c1 Hc1) as (c2 & Hc2 & I2 & A2).
  exists c2. split; [exact Hc2|]. split; congruence.
Qed.

Lemma rowsFrom_refl rows : rowsFrom rows rows.
Proof. intros c Hc. left. exists c. repeat split. exact Hc. Qed.

Lemma rowsFrom_trans r0 r1 r2 :
  rowsPersist r0 r1 -> rowsFrom r0 r1 -> rowsFrom r1 r2 -> rowsFrom r0 r2.
Proof.
  intros P01 F01 F12 c2 Hc2. destruct (F12 c2 Hc2) as [(c1 & Hc1 & I1 & A1)|(A2 & Hnew)].
  - destruct (F01 c1 Hc1) as [(c0 & Hc0 & I0 & A0)|(A1' & Hnew)].
    + left. exists c0. split; [exact Hc0|]. split; congruence.
    + right. split; [congruence|]. intros c Hc. rewrite <- I1. exact (Hnew c Hc).
  - right. split; [exact A2|]. intros c Hc.
    destruct (P01 c Hc) as (c1 & Hc1 & I1 & _). rewrite <- I1. exact (Hnew c1 Hc1).
Qed.

Lemma maxId_ge rows : forall c, In c rows -> RateLimitConfig.id c <= maxId rows.
Proof.
  unfold maxId.
  assert (G : forall rows a,
    a <= fold_left (fun m c => Z.max m (RateLimitConfig.id c)) rows a /\
    forall c, In c rows ->
      RateLimitConfig.id c <=
      fold_left (fun m c => Z.max m (RateLimitConfig.id c)) rows a).
  { induction rows0 as [|r rows0 IH]; intro a; cbn [fold_left].
    - split; [lia | intros c []].
    - destruct (IH (Z.max a (RateLimitConfig.id r))) as [H1 H2]. split; [lia|].
      intros c [<-|Hc]; [lia | exact (H2 c Hc)]. }
  intros c Hc. apply (G rows 0). exact Hc.
Qed.

Lemma updateConfig_effect s id row s' :
  updateConfig s id row = Some s' ->
  usage_snapshots s' = usage_snapshots s /\ model_usage s' = model_usage s /\
  daily_stats s' = daily_stats s /\ rate_limit_status s' = rate_limit_status s /\
  rowsPersist (rate_limit_configs s) (rate_limit_configs s') /\
  rowsFrom (rate_limit_configs s) (rate_limit_configs s').
Proof.
  unfold updateConfig. destruct (hasId id (rate_limit_configs s)).
  - destruct (validStrategy (reset_strategy row)); [|discriminate].
    intro H. injection H as <-.
    cbn [usage_snapshots model_usage daily_stats rate_limit_status rate_limit_configs
         with_configs].
    repeat (split; [reflexivity|]). split.
    + intros c Hc.
      exists (if RateLimitConfig.id c =? id then setRow row c else c).
      split; [apply in_map with (f := fun c0 =>
                if RateLimitConfig.id c0 =? id then setRow row c0 else c0); exact Hc|].
      destruct (RateLimitConfig.id c =? id); split; reflexivity.
    + intros c' Hc'. apply in_map_iff in Hc'. destruct Hc' as (c & <- & Hc).
      left. exists c. split; [exact Hc|].
      destruct (RateLimitConfig.id c =? id); split; reflexivity.
  - intro H. injection H as <-. repeat (split; [reflexivity|]).
    split; [apply rowsPersist_refl | apply rowsFrom_refl].
Qed.

Lemma insertConfig_effect seq s row id seq' s' :
  insertConfig seq s row = Some (id, seq', s') ->
  usage_snapshots s' = usage_snapshots s /\ model_usage s' = model_usage s /\
  daily_stats s' = daily_stats s /\ rate_limit_status s' = rate_limit_status s /\
  rowsPersist (rate_limit_configs s) (rate_limit_configs s') /\
  rowsFrom (rate_limit_configs s) (rate_limit_configs s') /\
  seq < seq' /\ seq' = id /\
  forall c, In c (rate_limit_configs s) -> RateLimitConfig.id c < id.
Proof.
  unfold insertConfig. destruct (validStrategy (reset_strategy row)); [|discriminate].
  intro H. injection H as <- <- <-.
  cbn [usage_snapshots model_usage daily_stats rate_limit_status rate_limit_configs
       with_configs].
  assert (Hnew : forall c, In c (rate_limit_configs s) ->
            RateLimitConfig.id c < Z.max seq (maxId (rate_limit_configs s)) + 1).
  { intros c Hc. pose proof (maxId_ge _ c Hc). lia. }
  repeat (split; [reflexivity|]). split; [|split; [|split; [lia|split; [reflexivity|exact Hnew]]]].
  - intros c Hc. exists c. split; [apply in_or_app; left; exact Hc|].
    split; reflexivity.
  - intros c' Hc'. apply in_app_or in Hc'. destruct Hc' as [Hc'|[<-|[]]].
    + left. exists c'. split; [exact Hc'|]. split; reflexivity.
    + right. split; [reflexivity|]. exact Hnew.
Qed.

Lemma saveLimit_effect l seq s keptIds seq' s' keptIds' :
  saveLimit l seq s keptIds = Some (seq', s', keptIds') ->
  usage_snapshots s' = usage_snapshots s /\ model_usage s' = model_usage s /\
  daily_stats s' = daily_stats s /\ rate_limit_status s' = rate_limit_status s /\
  rowsPersist (rate_limit_configs s) (rate_limit_configs s') /\
  rowsFrom (rate_limit_configs s) (rate_limit_configs s') /\
  seq <= seq' /\
  exists k, keptIds' = (keptIds ++ [k])%list /\
    (UiLimit.id l = IdNumber k \/
     ((forall n, UiLimit.id l <> IdNumber n) /\
      forall c, In c (rate_limit_configs s) -> RateLimitConfig.id c < k)).
Proof.
  unfold saveLimit. destruct (UiLimit.id l) as [n|t].
  - destruct (updateConfig s n (rowOf l)) as [s1|] eqn:E; [|discriminate].
    intro H. injection H as <- <- <-.
    destruct (updateConfig_effect s n (rowOf l) s1 E) as (A & B & C & D & P & F).
    repeat (split; [assumption|]). split; [lia|].
    exists n. split; [reflexivity | left; reflexivity].
  - destruct (insertConfig seq s (rowOf l)) as [[[id seq1] s1]|] eqn:E; [|discriminate].
    intro H. injection H as <- <- <-.
    destruct (insertConfig_effect seq s (rowOf l) id seq1 s1 E)
      as (A & B & C & D & P & F & Hs & _ & Hnew).
    repeat (split; [assumption|]). split; [lia|].
    exists id. split; [reflexivity|]. right. split; [discriminate | exact Hnew].
Qed.

Lemma saveLimit_fails l seq s keptIds :
  saveLimit l seq s keptIds = None -> limitValid l = false.
Proof.
  unfold saveLimit, limitValid, updateConfig, insertConfig.
  destruct (UiLimit.id l) as [n|t].
  - destruct (hasId n (rate_limit_configs s)); [|discriminate].
    destruct (validStrategy (reset_strategy (rowOf l))); [discriminate|reflexivity].
  - destruct (validStrategy (reset_strategy (rowOf l))); [discriminate|reflexivity].
Qed.

Lemma saveLimit_valid l seq s keptIds :
  limitValid l = true -> saveLimit l seq s keptIds <> None.
Proof.
  unfold saveLimit, limitValid, updateConfig, insertConfig. intro Hv. rewrite Hv.
  destruct (UiLimit.id l) as [n|t]; [|discriminate].
  destruct (hasId n (rate_limit_configs s)); discriminate.
Qed.

Lemma saveLimits_effect limits : forall seq s keptIds b seq' s' keptIds',
  saveLimits limits seq s keptIds = (b, seq', s', keptIds') ->
  usage_snapshots s' = usage_snapshots s /\ model_usage s' = model_usage s /\
  daily_stats s' = daily_stats s /\ rate_limit_status s' = rate_limit_status s /\
  rowsPersist (rate_limit_configs s) (rate_limit_configs s') /\
  rowsFrom (rate_limit_configs s) (rate_limit_configs s') /\
  (b = false -> exists l, In l limits /\ limitValid l = false) /\
  ((forall l, In l limits -> limitValid l = true) -> b = true) /\
  (b = true ->
   (forall k, In k keptIds' ->
      In k keptIds \/ mentioned limits k \/
      forall c, In c (rate_limit_configs s) -> RateLimitConfig.id c < k) /\
   (forall k, In k keptIds -> In k keptIds') /\
   (forall n, mentioned limits n -> In n keptIds')).
Proof.
  induction limits as [|l limits IH]; intros seq s keptIds b seq' s' keptIds';
    cbn [saveLimits].
  - intro H. injection H as <- <- <- <-.
    repeat (split; [reflexivity|]).
    split; [apply rowsPersist_refl|]. split; [apply rowsFrom_refl|].
    split; [discriminate|]. split; [reflexivity|]. intros _.
    split; [intros k Hk; left; exact Hk|]. split; [auto|].
    intros n (l & [] & _).
  - destruct (saveLimit l seq s keptIds) as [[[seq1 s1] kept1]|] eqn:E.
    + intro H. apply IH in H.
      destruct H as (A & B & C & D & P & F & Hf & Hv & Hk).
      destruct (saveLimit_effect _ _ _ _ _ _ _ E)
        as (A1 & B1 & C1 & D1 & P1 & F1 & _ & k1 & Ek & Hk1).
      split; [congruence|]. split; [congruence|]. split; [congruence|].
      split; [congruence|].
      split; [exact (rowsPersist_trans _ _ _ P1 P)|].
      split; [exact (rowsFrom_trans _ _ _ P1 F1 F)|].
      split; [|split].
      * intro Hb. destruct (Hf Hb) as (l0 & Hl0 & Hv0). exists l0.
        split; [right; exact Hl0 | exact Hv0].
      * intro Hall. apply Hv. intros l0 Hl0. apply Hall. right. exact Hl0.
      * intro Hb. destruct (Hk Hb) as (K1 & K2 & K3). subst kept1.
        split; [|split].
        -- intros k Hkin. destruct (K1 k Hkin) as [Hin|[(l0 & Hl0 & Hid)|Hnew]].
           ++ apply in_app_or in Hin. destruct Hin as [Hin|[<-|[]]];
                [left; exact Hin|].
              destruct Hk1 as [Hid|[_ Hnew]].
              ** right. left. exists l. split; [left; reflexivity | exact Hid].
              ** right. right. exact Hnew.
           ++ right. left. exists l0. split; [right; exact Hl0 | exact Hid].
           ++ right. right. intros c Hc.
              destruct (P1 c Hc) as (c1 & Hc1 & I1 & _). rewrite <- I1.
              exact (Hnew c1 Hc1).
        -- intros k Hkin. apply K2. apply in_or_app. left. exact Hkin.
        -- intros n (l0 & [<-|Hl0] & Hid).
           ++ apply K2. apply in_or_app. right.
              destruct Hk1 as [Hid1|[Hno _]].
              ** rewrite Hid in Hid1. injection Hid1 as ->. left. reflexivity.
              ** destruct (Hno n Hid).
           ++ apply K3. exists l0. split; assumption.
    + intro H. injection H as <- <- <- <-.
      repeat (split; [reflexivity|]).
      split; [apply rowsPersist_refl|]. split; [apply rowsFrom_refl|].
      split; [|split; [|discriminate]].
      * intros _. exists l. split; [left; reflexivity|].
        exact (saveLimit_fails _ _ _ _ E).
      * intro Hall. exfalso.
        apply (saveLimit_valid l seq s keptIds); [apply Hall; left; reflexivity|exact E].
Qed.

Lemma hasZ_In id ids : hasZ id ids = true <-> In id ids.
Proof.
  unfold hasZ. rewrite existsb_exists. split.
  - intros (x & Hx & E). apply Z.eqb_eq in E. subst x. exact Hx.
  - intro H. exists id. split; [exact H | apply Z.eqb_refl].
Qed.

Lemma fold_deleteConfig ids : forall s,
  usage_snapshots (fold_left deleteConfig ids s) = usage_snapshots s /\
  model_usage (fold_left deleteConfig ids s) = model_usage s /\
  daily_stats (fold_left deleteConfig ids s) = daily_stats s /\
  (forall c, In c (rate_limit_configs (fold_left deleteConfig ids s)) <->
     In c (rate_limit_configs s) /\ ~ In (RateLimitConfig.id c) ids) /\
  (forall st, In st (rate_limit_status (fold_left deleteConfig ids s)) <->
     In st (rate_limit_status s) /\ ~ In (RateLimitStatus.config_id st) ids).
Proof.
  induction ids as [|id ids IH]; intro s; cbn [fold_left].
  - repeat (split; [reflexivity|]). split; intro x; cbn [In]; tauto.
  - destruct (IH (deleteConfig s id)) as (A & B & C & D & E).
    split; [exact A|]. split; [exact B|]. split; [exact C|]. split.
    + intro c. rewrite D.
      change (rate_limit_configs (deleteConfig s id))
        with (filter (fun c => negb (RateLimitConfig.id c =? id))
                (rate_limit_configs s)).
      rewrite filter_In, Bool.negb_true_iff, Z.eqb_neq. cbn [In].
      split; [intros [[H1 H2] H3]|intros [H1 H2]]; repeat split; auto.
      intros [H|H]; [apply H2; symmetry; exact H | exact (H3 H)].
    + intro st. rewrite E.
      change (rate_limit_status (deleteConfig s id))
        with (filter (fun st => negb (RateLimitStatus.config_id st =? id))
                (rate_limit_status s)).
      rewrite filter_In, Bool.negb_true_iff, Z.eqb_neq. cbn [In].
      split; [intros [[H1 H2] H3]|intros [H1 H2]]; repeat split; auto.
      intros [H|H]; [apply H2; symmetry; exact H | exact (H3 H)].
Qed.

(** X25. [saveRateLimits] never touches snapshots, model rows or daily
    rows, never changes a reset anchor and gives a new row an id above
    every id of the table. When it succeeds, a configuration whose id the
    payload names is kept, with its anchor, and every other configuration is
    deleted together with its status row. It fails only on a limit whose
    reset strategy the table refuses, and then keeps what the statements
    before that one did: no configuration and no status row is deleted. *)
Theorem save_rate_limits_effect seq s config res seq' s' :
  saveRateLimits seq s config = (res, seq', s') ->
  usage_snapshots s' = usage_snapshots s /\ model_usage s' = model_usage s /\
  daily_stats s' = daily_stats s /\
  rowsFrom (rate_limit_configs s) (rate_limit_configs s') /\
  (res = SaveFailed ->
   rate_limit_status s' = rate_limit_status s /\
   rowsPersist (rate_limit_configs s) (rate_limit_configs s') /\
   exists l, In l (payloadLimits config) /\ limitValid l = false) /\
  (res = SaveOk ->
   forall c, In c (rate_limit_configs s) ->
     (mentioned (payloadLimits config) (RateLimitConfig.id c) ->
      exists c', In c' (rate_limit_configs s') /\
        RateLimitConfig.id c' = RateLimitConfig.id c /\
        RateLimitConfig.reset_anchor_timestamp c' =
          RateLimitConfig.reset_anchor_timestamp c) /\
     (~ mentioned (payloadLimits config) (RateLimitConfig.id c) ->
      (forall c', In c' (rate_limit_configs s') ->
         RateLimitConfig.id c' <> RateLimitConfig.id c) /\
      getRateLimitStatus s' (RateLimitConfig.id c) = None)) /\
  ((forall l, In l (payloadLimits config) -> limitValid l = true) -> res = SaveOk).
Proof.
  unfold saveRateLimits. cbv zeta. fold (payloadLimits config).
  destruct (saveLimits (payloadLimits config) seq s [])
    as [[[b seq1] s1] kept] eqn:E.
  destruct (saveLimits_effect _ _ _ _ _ _ _ _ E)
    as (A & B & C & D & P & F & Hf & Hv & Hk).
  destruct b.
  - intro H. injection H as <- <- <-.
    destruct (Hk eq_refl) as (K1 & _ & K3).
    set (ids := filter (fun id => negb (hasZ id kept))
                  (map RateLimitConfig.id (rate_limit_configs s))).
    destruct (fold_deleteConfig ids s1) as (A' & B' & C' & D' & E').
    assert (Hids : forall c, In c (rate_limit_configs s) ->
              (In (RateLimitConfig.id c) ids <->
               ~ mentioned (payloadLimits config) (RateLimitConfig.id c))).
    { intros c Hc. unfold ids. rewrite filter_In, Bool.negb_true_iff. split.
      - intros [_ Hn] Hm. apply K3 in Hm. apply hasZ_In in Hm. congruence.
      - intro Hn. split; [apply in_map; exact Hc|].
        destruct (hasZ (RateLimitConfig.id c) kept) eqn:Eh; [|reflexivity].
        apply hasZ_In in Eh. destruct (K1 _ Eh) as [[]|[Hm|Hnew]].
        + contradiction.
        + specialize (Hnew c Hc). lia. }
    split; [congruence|]. split; [congruence|]. split; [congruence|].
    split; [|split; [discriminate|split; [|reflexivity]]].
    + intros c' Hc'. apply D' in Hc'. apply F. apply Hc'.
    + intros _ c Hc. split.
      * intro Hm. destruct (P c Hc) as (c1 & Hc1 & I1 & A1).
        exists c1. split; [|split; assumption].
        apply D'. split; [exact Hc1|]. rewrite I1. intro Hin.
        apply (Hids c Hc) in Hin. contradiction.
      * intro Hn. apply (Hids c Hc) in Hn. split.
        -- intros c' Hc' Eid. apply D' in Hc'. destruct Hc' as [_ Hnot].
           rewrite Eid in Hnot. contradiction.
        -- unfold getRateLimitStatus.
           destruct (find _ _) as [st|] eqn:Ef; [|reflexivity].
           apply find_some in Ef. destruct Ef as [Hst Heq].
           apply Z.eqb_eq in Heq. apply E' in Hst. destruct Hst as [_ Hnot].
           rewrite Heq in Hnot. contradiction.
  - intro H. injection H as <- <- <-.
    split; [exact A|]. split; [exact B|]. split; [exact C|]. split; [exact F|].
    split; [|split; [discriminate|]].
    + intros _. split; [exact D|]. split; [exact P | exact (Hf eq_refl)].
    + intro Hall. specialize (Hv Hall). discriminate.
Qed.

Lemma save_rate_limits_effect_witness :
  usage_snapshots
    (snd (saveRateLimits 5 Scenarios.storeS6 (getRateLimits Scenarios.storeS6))) =
  usage_snapshots Scenarios.storeS6.
Proof.
  refine (proj1 (save_rate_limits_effect 5 Scenarios.storeS6
                   (getRateLimits Scenarios.storeS6)
                   (fst (fst (saveRateLimits 5 Scenarios.storeS6
                                (getRateLimits Scenarios.storeS6))))
                   (snd (fst (saveRateLimits 5 Scenarios.storeS6
                                (getRateLimits Scenarios.storeS6))))
                   (snd (saveRateLimits 5 Scenarios.storeS6
                           (getRateLimits Scenarios.storeS6))) _)).
  vm_compute. reflexivity.
Defined.

End SaveFacts.

(** ** Through the UI and back *)

Module RoundTrip.

Import Db RateLimiter DataApi SaveLimits SaveShapes QueryFacts UiFacts SaveFacts.

Lemma setRow_setRow r r' c : setRow r (setRow r' c) = setRow r c.
Proof. reflexivity. Qed.

Lemma applyLimit_id c l : RateLimitConfig.id (applyLimit c l) = RateLimitConfig.id c.
Proof. unfold applyLimit. destruct (_ =? _); reflexivity. Qed.

Lemma applyLimits_settled limits : forall r c,
  (forall l, In l limits -> numberOf l = RateLimitConfig.id c -> rowOf l = r) ->
  applyLimits limits (setRow r c) = setRow r c.
Proof.
  induction limits as [|l limits IH]; intros r c H; [reflexivity|].
  unfold applyLimits in *. cbn [fold_left]. unfold applyLimit at 2.
  cbn [setRow RateLimitConfig.id].
  destruct (Z.eqb_spec (RateLimitConfig.id c) (numberOf l)) as [E|E].
  - rewrite (H l (or_introl eq_refl) (eq_sym E)), setRow_setRow.
    apply IH. intros l0 Hl0. apply H. right. exact Hl0.
  - apply IH. intros l0 Hl0. apply H. right. exact Hl0.
Qed.

Lemma applyLimits_same limits : forall r c,
  (forall l, In l limits -> numberOf l = RateLimitConfig.id c -> rowOf l = r) ->
  (exists l, In l limits /\ numberOf l = RateLimitConfig.id c) ->
  applyLimits limits c = setRow r c.
Proof.
  induction limits as [|l limits IH]; intros r c H (l0 & Hl0 & E0); [destruct Hl0|].
  unfold applyLimits in *. cbn [fold_left]. unfold applyLimit at 2.
  destruct (Z.eqb_spec (RateLimitConfig.id c) (numberOf l)) as [E|E].
  - rewrite (H l (or_introl eq_refl) (eq_sym E)).
    apply (applyLimits_settled limits r c).
    intros l1 Hl1. apply H. right. exact Hl1.
  - apply IH; [intros l1 Hl1; apply H; right; exact Hl1|].
    destruct Hl0 as [<-|Hl0]; [congruence|].
    exists l0. split; assumption.
Qed.

Lemma hasId_false id rows c :
  hasId id rows = false -> In c rows -> (RateLimitConfig.id c =? id) = false.
Proof.
  unfold hasId. intros H Hc.
  destruct (RateLimitConfig.id c =? id) eqn:E; [|reflexivity].
  assert (T : existsb (fun c0 => RateLimitConfig.id c0 =? id) rows = true)
    by (apply existsb_exists; exists c; split; assumption).
  congruence.
Qed.

Lemma saveLimits_updates limits : forall seq a b c d e keptIds,
  (forall l, In l limits ->
     (exists n, UiLimit.id l = IdNumber n) /\ limitValid l = true) ->
  saveLimits limits seq (mkStore a b c d e) keptIds =
  (true, seq, mkStore a b c (map (applyLimits limits) d) e,
   (keptIds ++ map numberOf limits)%list).
Proof.
  induction limits as [|l limits IH]; intros seq a b c d e keptIds H;
    cbn [saveLimits map].
  - rewrite app_nil_r. unfold applyLimits. cbn [fold_left]. rewrite map_id.
    reflexivity.
  - destruct (H l (or_introl eq_refl)) as ((n & Hid) & Hv).
    assert (Hrest : forall l0, In l0 limits ->
              (exists n0, UiLimit.id l0 = IdNumber n0) /\ limitValid l0 = true)
      by (intros l0 Hl0; apply H; right; exact Hl0).
    assert (Hn : numberOf l = n) by (unfold numberOf; rewrite Hid; reflexivity).
    unfold saveLimit. rewrite Hid. unfold updateConfig.
    cbn [rate_limit_configs]. unfold limitValid in Hv. rewrite Hv.
    destruct (hasId n d) eqn:Eh.
    + unfold with_configs.
      cbn [usage_snapshots model_usage daily_stats rate_limit_configs
           rate_limit_status].
      rewrite (IH seq a b c _ e (keptIds ++ [n])%list Hrest).
      rewrite map_map, <- app_assoc, Hn. cbn [app].
      assert (Em : map (fun x => applyLimits limits
                                   (if RateLimitConfig.id x =? n
                                    then setRow (rowOf l) x else x)) d =
                   map (applyLimits (l :: limits)) d).
      { apply map_ext. intro c0.
        unfold applyLimits. cbn [fold_left].
        change (applyLimit c0 l)
          with (if RateLimitConfig.id c0 =? numberOf l
                then setRow (rowOf l) c0 else c0).
        rewrite Hn. reflexivity. }
      rewrite Em. reflexivity.
    + rewrite (IH seq a b c d e (keptIds ++ [n])%list Hrest).
      rewrite <- app_assoc, Hn. cbn [app].
      assert (Em : map (applyLimits limits) d = map (applyLimits (l :: limits)) d).
      { apply map_ext_in. intros c0 Hc0.
        unfold applyLimits. cbn [fold_left].
        change (applyLimit c0 l)
          with (if RateLimitConfig.id c0 =? numberOf l
                then setRow (rowOf l) c0 else c0).
        rewrite Hn, (hasId_false n d c0 Eh Hc0). reflexivity. }
      rewrite Em. reflexivity.
Qed.

Lemma orText_valid strategy :
  validStrategy strategy = true -> validStrategy (orText strategy "rolling") = true.
Proof.
  intro H. unfold orText. destruct (String.eqb strategy ""); [reflexivity | exact H].
Qed.

Lemma filter_nil {A : Type} (f : A -> bool) l :
  (forall x, In x l -> f x = false) -> filter f l = [].
Proof.
  induction l as [|a l IH]; intro H; [reflexivity|]. cbn [filter].
  rewrite (H a (or_introl eq_refl)). apply IH. intros x Hx. apply H. right. exact Hx.
Qed.

Lemma same_id_same_row (rows : list RateLimitConfig.t) :
  NoDup (map RateLimitConfig.id rows) ->
  forall c c', In c rows -> In c' rows ->
    RateLimitConfig.id c = RateLimitConfig.id c' -> c = c'.
Proof.
  induction rows as [|r rows IH]; intros Hnd c c' Hc Hc' E; [destruct Hc|].
  cbn [map] in Hnd. inversion Hnd as [|x l Hnot Hnd' Ex]; subst.
  destruct Hc as [<-|Hc], Hc' as [<-|Hc'].
  - reflexivity.
  - exfalso. apply Hnot. rewrite E. apply in_map. exact Hc'.
  - exfalso. apply Hnot. rewrite <- E. apply in_map. exact Hc.
  - exact (IH Hnd' c c' Hc Hc' E).
Qed.

Lemma round_hours h : Math_round (inject_Z (60 * h) / 60) = h.
Proof.
  unfold Math_round.
  assert (E : (inject_Z (60 * h) / 60 + (1 # 2) == inject_Z h + (1 # 2))%Q).
  { rewrite inject_Z_mult. change (inject_Z 60) with 60%Q. field. }
  rewrite E. apply Qfloor_half.
Qed.

Lemma valid_not_empty strategy :
  validStrategy strategy = true -> orText strategy "rolling" = strategy.
Proof.
  unfold orText. destruct (String.eqb_spec strategy "") as [->|_];
    [discriminate | reflexivity].
Qed.

Lemma viaUi_fixed statuses c h :
  RateLimitConfig.window_minutes c = 60 * h -> 0 < h ->
  RateLimitConfig.model_pattern c <> "" ->
  validStrategy (RateLimitConfig.reset_strategy c) = true ->
  ((exists tl, RateLimitConfig.token_limit c = Some tl /\ tl <> 0 /\
               RateLimitConfig.request_limit c = None) \/
   (RateLimitConfig.token_limit c = None /\
    exists rl, RateLimitConfig.request_limit c = Some rl)) ->
  viaUi statuses c = c.
Proof.
  destruct c as [id pattern wm strategy tl rl anchor].
  cbn [RateLimitConfig.window_minutes RateLimitConfig.model_pattern
       RateLimitConfig.reset_strategy RateLimitConfig.token_limit
       RateLimitConfig.request_limit].
  intros -> Hh Hp Hv Hl.
  unfold viaUi, setRow, rowOf, uiLimitOf.
  cbn [UiLimit.name UiLimit.resetType UiLimit.windowHours UiLimit.unit UiLimit.limit
       RateLimitConfig.id RateLimitConfig.model_pattern RateLimitConfig.window_minutes
       RateLimitConfig.reset_strategy RateLimitConfig.token_limit
       RateLimitConfig.request_limit RateLimitConfig.reset_anchor_timestamp
       model_pattern reset_strategy window_minutes token_limit request_limit].
  rewrite round_hours, (valid_not_empty strategy Hv).
  assert (Ep : orText pattern "All Models" = pattern).
  { unfold orText. destruct (String.eqb_spec pattern ""); [contradiction|reflexivity]. }
  rewrite !Ep.
  destruct (Z.eqb_spec h 0) as [E0|_]; [lia|].
  replace (h * 60) with (60 * h) by lia.
  destruct Hl as [(t & -> & Ht & ->)|(-> & r & ->)].
  - cbn [truthy]. destruct (Z.eqb_spec t 0) as [E0|_]; [contradiction|].
    reflexivity.
  - cbn [truthy]. destruct (Z.eqb_spec r 0) as [->|_]; reflexivity.
Qed.

(** X26. Sending the answer of [getRateLimits] back to [saveRateLimits]
    unchanged, on a table with distinct ids and accepted reset strategies,
    succeeds, deletes nothing, inserts nothing and leaves the status rows
    alone; but it rewrites every row from what the UI shows. The id, the
    strategy and the reset anchor survive; the window comes back as a whole
    number of hours, and under a token limit the request limit is dropped.
    A row comes back unchanged when its pattern is not empty, its window is
    a positive number of whole hours and it has a non-zero token limit and
    no request limit, or a request limit and no token limit. *)
Theorem ui_round_trip seq s :
  NoDup (map RateLimitConfig.id (rate_limit_configs s)) ->
  (forall c, In c (rate_limit_configs s) ->
     validStrategy (RateLimitConfig.reset_strategy c) = true) ->
  saveRateLimits seq s (getRateLimits s) =
    (SaveOk, seq,
     with_configs s
       (map (viaUi (rate_limit_status s)) (rate_limit_configs s))) /\
  (forall c, In c (rate_limit_configs s) ->
     let c' := viaUi (rate_limit_status s) c in
     RateLimitConfig.id c' = RateLimitConfig.id c /\
     RateLimitConfig.reset_strategy c' = RateLimitConfig.reset_strategy c /\
     RateLimitConfig.reset_anchor_timestamp c' =
       RateLimitConfig.reset_anchor_timestamp c /\
     RateLimitConfig.window_minutes c' mod 60 = 0 /\
     (truthy (RateLimitConfig.token_limit c) <> None ->
      RateLimitConfig.request_limit c' = None) /\
     (forall h, RateLimitConfig.window_minutes c = 60 * h -> 0 < h ->
        RateLimitConfig.model_pattern c <> "" ->
        (exists tl, RateLimitConfig.token_limit c = Some tl /\ tl <> 0 /\
                    RateLimitConfig.request_limit c = None) \/
        (RateLimitConfig.token_limit c = None /\
         exists rl, RateLimitConfig.request_limit c = Some rl) ->
        c' = c)).
Proof.
  intros Hnd Hvalid. split.
  - destruct s as [a b c d e].
    cbn [rate_limit_configs rate_limit_status] in *.
    unfold saveRateLimits. cbv zeta. unfold with_configs.
    cbn [rate_limit_configs rate_limit_status usage_snapshots model_usage daily_stats].
    set (L := flat_map (fun p => UiProvider.limits (snd p))
                (getRateLimits (mkStore a b c d e))).
    assert (HL : forall l, In l L <->
              exists c0, In c0 d /\
                l = uiLimitOf c0 (statusFor e (RateLimitConfig.id c0))).
    { intro l. unfold L, getRateLimits. cbn [rate_limit_configs rate_limit_status].
      rewrite (fold_limits_In e). cbn [flat_map defaultProviders].
      split; [intros [[]|H]; exact H | intro H; right; exact H]. }
    assert (Hupd : forall l, In l L ->
              (exists n, UiLimit.id l = IdNumber n) /\ limitValid l = true).
    { intros l Hl. apply HL in Hl. destruct Hl as (c0 & Hc0 & ->). split.
      - eexists. reflexivity.
      - unfold limitValid, rowOf, uiLimitOf. cbn [reset_strategy UiLimit.resetType].
        apply orText_valid. exact (Hvalid c0 Hc0). }
    rewrite (saveLimits_updates L seq a b c d e [] Hupd). cbn [app].
    assert (Hkeep : filter (fun id => negb (hasZ id (map numberOf L)))
                      (map RateLimitConfig.id d) = []).
    { apply filter_nil. intros id Hid. apply in_map_iff in Hid.
      destruct Hid as (c0 & <- & Hc0). apply Bool.negb_false_iff, hasZ_In.
      apply in_map_iff.
      exists (uiLimitOf c0 (statusFor e (RateLimitConfig.id c0))).
      split; [reflexivity|]. apply HL. exists c0. split; [exact Hc0 | reflexivity]. }
    rewrite Hkeep. cbn [fold_left].
    assert (Em : map (applyLimits L) d = map (viaUi e) d).
    { apply map_ext_in. intros c0 Hc0. unfold viaUi.
      apply applyLimits_same.
      - intros l Hl En. apply HL in Hl. destruct Hl as (c1 & Hc1 & ->).
        assert (E1 : c1 = c0) by (apply (same_id_same_row d Hnd); assumption).
        rewrite E1. reflexivity.
      - exists (uiLimitOf c0 (statusFor e (RateLimitConfig.id c0))).
        split; [apply HL; exists c0; split; [exact Hc0 | reflexivity] | reflexivity]. }
    rewrite Em. reflexivity.
  - intros c Hc c'. subst c'. split; [reflexivity|].
    split; [unfold viaUi, setRow, rowOf, uiLimitOf;
            cbn [RateLimitConfig.reset_strategy reset_strategy UiLimit.resetType];
            apply valid_not_empty; exact (Hvalid c Hc)|].
    split; [reflexivity|]. split.
    { unfold viaUi, setRow, rowOf. cbn [RateLimitConfig.window_minutes window_minutes].
      apply Z.mod_mul. discriminate. }
    split.
    { intro Ht. unfold viaUi, setRow, rowOf, uiLimitOf.
      cbn [RateLimitConfig.request_limit request_limit UiLimit.unit].
      destruct (truthy (RateLimitConfig.token_limit c)); [reflexivity|contradiction]. }
    intros h Hw Hh Hp Hl.
    exact (viaUi_fixed (rate_limit_status s) c h Hw Hh Hp (Hvalid c Hc) Hl).
Qed.

Lemma ui_round_trip_witness :
  saveRateLimits 5 Scenarios.storeS6 (getRateLimits Scenarios.storeS6) =
  (SaveOk, 5,
   with_configs Scenarios.storeS6
     (map (viaUi (rate_limit_status Scenarios.storeS6))
        (rate_limit_configs Scenarios.storeS6))).
Proof.
  refine (proj1 (ui_round_trip 5 Scenarios.storeS6 _ _)).
  - constructor; [intros []|constructor].
  - intros c [<-|[]]. reflexivity.
Defined.

End RoundTrip.

(** ** Which price a model gets *)

Module PricingMatch.

Import Pricing.

Lemma lower_ascii_idem c : lower_ascii (lower_ascii c) = lower_ascii c.
Proof. destruct c as [[] [] [] [] [] [] [] []]; reflexivity. Qed.

Lemma toLowerCase_idem s : toLowerCase (toLowerCase s) = toLowerCase s.
Proof.
  induction s as [|c s IH]; cbn [toLowerCase]; [reflexivity|].
  rewrite lower_ascii_idem, IH. reflexivity.
Qed.

Lemma partialMatch_first modelLower pre : forall k p post,
  k <> "_default" ->
  (includes k modelLower || includes modelLower k) = true ->
  (forall k' p', In (k', p') pre ->
     k' = "_default" \/ (includes k' modelLower || includes modelLower k') = false) ->
  partialMatch modelLower (pre ++ (k, p) :: post) = Some p.
Proof.
  induction pre as [|[k0 p0] pre IH]; intros k p post Hk Hm Hpre;
    cbn [app partialMatch].
  - destruct (String.eqb_spec k "_default"); [contradiction|].
    rewrite Hm. reflexivity.
  - destruct (Hpre k0 p0 (or_introl eq_refl)) as [->|Hno].
    + cbn [String.eqb Ascii.eqb Bool.eqb andb].
      apply IH; try assumption. intros k' p' H. apply (Hpre k' p'). right. exact H.
    + rewrite Hno. destruct (String.eqb k0 "_default");
        (apply IH; try assumption; intros k' p' H; apply (Hpre k' p'); right; exact H).
Qed.

(** A name that contains [gpt-4o] is no member of [Object.prototype]. *)
Lemma gpt4o_not_inherited modelLower :
  includes modelLower "gpt-4o" = true -> inherited modelLower = false.
Proof.
  intro Hin. destruct (inherited modelLower) eqn:E; [|reflexivity].
  unfold inherited in E. apply orb_true_iff in E.
  destruct E as [E|E]; apply String.eqb_eq in E; rewrite E in Hin;
    vm_compute in Hin; discriminate Hin.
Qed.

(** X27. The price of a model does not depend on the case of its name. A
    name that is no key of the table, and in lower case neither
    [constructor] nor [__proto__], gets the price of the first entry, in
    the order of the table, whose key contains the name or is contained in
    it. In the built-in table that entry is [gpt-4o] for every name that
    contains [gpt-4o] and is not a key itself, the dated variants of
    [gpt-4o-mini] among them. *)
Theorem pricing_first_match :
  (forall modelName pricing,
     findPricingForModel (toLowerCase modelName) pricing =
     findPricingForModel modelName pricing) /\
  (forall modelName pricing pre k p post,
     obj_get pricing (toLowerCase modelName) = None ->
     inherited (toLowerCase modelName) = false ->
     pricing = (pre ++ (k, p) :: post)%list ->
     k <> "_default" ->
     (includes k (toLowerCase modelName) || includes (toLowerCase modelName) k)
       = true ->
     (forall k' p', In (k', p') pre ->
        k' = "_default" \/
        (includes k' (toLowerCase modelName) ||
         includes (toLowerCase modelName) k') = false) ->
     findPricingForModel modelName pricing = Priced p) /\
  (forall modelName,
     includes (toLowerCase modelName) "gpt-4o" = true ->
     obj_get DEFAULT_PRICING (toLowerCase modelName) = None ->
     findPricingForModel modelName DEFAULT_PRICING =
       Priced (ModelPricing.mk (5 # 2) 10)).
Proof.
  split; [|split].
  - intros modelName pricing. unfold findPricingForModel.
    rewrite toLowerCase_idem. reflexivity.
  - intros modelName pricing pre k p post Hnone Hinh -> Hk Hm Hpre.
    unfold findPricingForModel. rewrite Hnone, Hinh.
    rewrite (partialMatch_first _ pre k p post Hk Hm Hpre). reflexivity.
  - intros modelName Hin Hnone. unfold findPricingForModel. rewrite Hnone.
    rewrite (gpt4o_not_inherited _ Hin).
    change DEFAULT_PRICING
      with ([] ++ ("gpt-4o", ModelPricing.mk (5 # 2) 10) :: tl DEFAULT_PRICING)%list.
    rewrite (partialMatch_first (toLowerCase modelName) [] "gpt-4o"
               (ModelPricing.mk (5 # 2) 10) (tl DEFAULT_PRICING)).
    + reflexivity.
    + discriminate.
    + rewrite Hin. apply Bool.orb_true_r.
    + intros k' p' [].
Qed.

Lemma pricing_first_match_witness :
  findPricingForModel "gpt-4o-mini-2024-07-18" DEFAULT_PRICING =
  Priced (ModelPricing.mk (5 # 2) 10).
Proof.
  apply (proj2 (proj2 pricing_first_match) "gpt-4o-mini-2024-07-18");
    vm_compute; reflexivity.
Defined.

End PricingMatch.

(** ** What a reset touches *)

Module ResetFacts.

Import Db RateLimiter SyncFacts ResetAnchor.

Lemma anchor_other rows configId timestamp i :
  i <> configId ->
  find (fun c => RateLimitConfig.id c =? i)
    (map (fun c =>
            if RateLimitConfig.id c =? configId
            then RateLimitConfig.mk (RateLimitConfig.id c)
                   (RateLimitConfig.model_pattern c)
                   (RateLimitConfig.window_minutes c)
                   (RateLimitConfig.reset_strategy c)
                   (RateLimitConfig.token_limit c)
                   (RateLimitConfig.request_limit c)
                   (Some (Instant timestamp))
            else c) rows) =
  find (fun c => RateLimitConfig.id c =? i) rows.
Proof.
  intro Hne. induction rows as [|r rows IH]; cbn [map find]; [reflexivity|].
  destruct (Z.eqb_spec (RateLimitConfig.id r) configId) as [E|E];
    cbn [RateLimitConfig.id].
  - destruct (Z.eqb_spec (RateLimitConfig.id r) i) as [E'|E']; [congruence|exact IH].
  - destruct (RateLimitConfig.id r =? i); [reflexivity | exact IH].
Qed.

Lemma anchor_ids rows configId timestamp :
  map RateLimitConfig.id
    (map (fun c =>
            if RateLimitConfig.id c =? configId
            then RateLimitConfig.mk (RateLimitConfig.id c)
                   (RateLimitConfig.model_pattern c)
                   (RateLimitConfig.window_minutes c)
                   (RateLimitConfig.reset_strategy c)
                   (RateLimitConfig.token_limit c)
                   (RateLimitConfig.request_limit c)
                   (Some (Instant timestamp))
            else c) rows) =
  map RateLimitConfig.id rows.
Proof.
  rewrite map_map. apply map_ext. intro c.
  destruct (RateLimitConfig.id c =? configId); reflexivity.
Qed.

(** X28. A reset touches one configuration: it leaves the snapshots, the
    model rows and the daily rows alone, adds or removes no configuration,
    and changes neither the status nor the configuration of any other id.
    It is not atomic: when it reports a failure no reset anchor has moved,
    yet if the statement that moves the anchor is the one that failed, the
    status row already shows the limit as unused. *)
Theorem reset_touches_one config fault now s configId :
  let r := fst (resetLimit config fault now s configId) in
  let s' := snd (resetLimit config fault now s configId) in
  usage_snapshots s' = usage_snapshots s /\ model_usage s' = model_usage s /\
  daily_stats s' = daily_stats s /\
  map RateLimitConfig.id (rate_limit_configs s') =
    map RateLimitConfig.id (rate_limit_configs s) /\
  (forall i, i <> configId ->
     getRateLimitStatus s' i = getRateLimitStatus s i /\
     getRateLimitConfig s' i = getRateLimitConfig s i) /\
  (success r = false -> rate_limit_configs s' = rate_limit_configs s) /\
  (success r = true ->
   fault = NoFault /\ getRateLimitConfig s configId <> None) /\
  (fault = UpdateAnchorFails -> getRateLimitConfig s configId <> None ->
   success r = false /\
   exists st, getRateLimitStatus s' configId = Some st /\
     RateLimitStatus.percentage st = 100 /\ RateLimitStatus.used_tokens st = 0 /\
     RateLimitStatus.used_requests st = 0).
Proof.
  intros r s'. subst r s'. unfold resetLimit.
  destruct (getRateLimitConfig s configId) as [c|] eqn:Ec.
  - destruct fault;
      cbn [fst snd success usage_snapshots model_usage daily_stats
           rate_limit_configs rate_limit_status upsertRateLimitStatus
           updateRateLimitConfigAnchor with_status with_configs internalError].
    + repeat (split; [reflexivity|]). split; [apply anchor_ids|]. split.
      * intros i Hi. unfold getRateLimitStatus, getRateLimitConfig.
        cbn [rate_limit_status rate_limit_configs with_status with_configs].
        split; [apply upsert_status_other; cbn [RateLimitStatus.config_id]; congruence
               |apply anchor_other; exact Hi].
      * split; [discriminate|]. split; [|discriminate].
        intros _. split; [reflexivity | discriminate].
    + repeat (split; [reflexivity|]). split; [intros i Hi; split; reflexivity|].
      split; [reflexivity|]. split; discriminate.
    + repeat (split; [reflexivity|]). split; [intros i Hi; split; reflexivity|].
      split; [reflexivity|]. split; discriminate.
    + repeat (split; [reflexivity|]). split.
      * intros i Hi. unfold getRateLimitStatus, getRateLimitConfig.
        cbn [rate_limit_status rate_limit_configs with_status].
        split; [apply upsert_status_other; cbn [RateLimitStatus.config_id]; congruence
               |reflexivity].
      * split; [reflexivity|]. split; [discriminate|].
        intros _ _. split; [reflexivity|].
        eexists. split.
        -- unfold getRateLimitStatus. cbn [rate_limit_status with_status].
           apply find_upsert_status_id. reflexivity.
        -- repeat split.
  - destruct fault; cbn [fst snd success internalError];
      repeat (split; [reflexivity|]);
      (split; [intros i Hi; split; reflexivity|]);
      (split; [reflexivity|]); split; try discriminate;
      intros; contradiction.
Qed.

Lemma reset_touches_one_witness :
  success (fst (resetLimit Scenarios.configUtc UpdateAnchorFails
                  Scenarios.resetTimeS6 Scenarios.storeS6 5)) = false /\
  exists st,
    getRateLimitStatus
      (snd (resetLimit Scenarios.configUtc UpdateAnchorFails
              Scenarios.resetTimeS6 Scenarios.storeS6 5)) 5 = Some st /\
    RateLimitStatus.percentage st = 100 /\ RateLimitStatus.used_tokens st = 0 /\
    RateLimitStatus.used_requests st = 0.
Proof.
  apply (proj2 (proj2 (proj2 (proj2 (proj2 (proj2 (proj2
           (reset_touches_one Scenarios.configUtc UpdateAnchorFails
              Scenarios.resetTimeS6 Scenarios.storeS6 5)))))))).
  - reflexivity.
  - vm_compute. discriminate.
Defined.

End ResetFacts.

(** ** The rows of a snapshot *)

Module SnapshotRows.

Import Db Collector Runs PassFacts Shapes DbFacts.

Lemma Passed_ids config s :
  Passed config s -> NoDup (map UsageSnapshot.id (usage_snapshots s)).
Proof.
  induction 1 as [|s pricing now usage HP IH]; [constructor|].
  pose proof (Passed_StoreOk _ _ HP) as Hok.
  destruct (pass_tables config pricing now s usage Hok)
    as ((snap & Hs & Hid) & _).
  cbv zeta in Hs. rewrite Hs. cbn [map]. rewrite Hid.
  constructor; [|exact IH].
  intro Hin. apply in_map_iff in Hin. destruct Hin as (x & Ex & Hx).
  destruct Hok as (Hids & _). specialize (Hids x Hx).
  unfold next_snapshot_id in Ex. lia.
Qed.

Lemma storeUsageData_fst config pricing now s usage :
  fst (storeUsageData config pricing now s (Some usage)) =
  negb (costIsNaN pricing usage).
Proof.
  unfold storeUsageData, insertUsageSnapshot.
  destruct (costIsNaN pricing usage); reflexivity.
Qed.

(** X29. A pass stores one new snapshot, under an id that no snapshot had.
    When [storeUsageData] returns true the rows read back for that id are
    exactly the records computed from the report, in their order; when it
    returns false, a cost of the report being NaN, no row is read back for
    it. The rows of every other snapshot id read as before. *)
Theorem snapshot_rows_round_trip config pricing now s usage :
  Passed config s ->
  let s' := pass config pricing now s usage in
  (exists snap,
     usage_snapshots s' = snap :: usage_snapshots s /\
     UsageSnapshot.id snap = next_snapshot_id s) /\
  NoDup (map UsageSnapshot.id (usage_snapshots s')) /\
  getModelUsageBySnapshot s' (next_snapshot_id s) =
    (if fst (storeUsageData config pricing now s (Some usage))
     then modelRecordsOf pricing (next_snapshot_id s) now usage
     else []) /\
  (forall id, id <> next_snapshot_id s ->
     getModelUsageBySnapshot s' id = getModelUsageBySnapshot s id).
Proof.
  intros HP s'. pose proof (Passed_StoreOk _ _ HP) as Hok.
  destruct (pass_tables config pricing now s usage Hok) as (Hs & Hm & _).
  cbv zeta in Hs, Hm. fold s' in Hs, Hm.
  split; [exact Hs|].
  split; [apply (Passed_ids config); apply Passed_pass; exact HP|].
  rewrite storeUsageData_fst.
  assert (Hold : filter (fun r => ModelUsage.snapshot_id r =? next_snapshot_id s)
                   (model_usage s) = []).
  { apply filter_none. intros r Hr. destruct Hok as (_ & Hrows & _).
    specialize (Hrows r Hr). unfold next_snapshot_id. lia. }
  split.
  - unfold getModelUsageBySnapshot. rewrite Hm, filter_app, Hold.
    destruct (costIsNaN pricing usage); cbn [negb app filter]; [reflexivity|].
    apply filter_all. intros r Hr. exact (records_snapshot_id _ _ _ _ _ Hr).
  - intros id Hid. unfold getModelUsageBySnapshot. rewrite Hm.
    apply filter_app_none. intros r Hr.
    destruct (costIsNaN pricing usage); [destruct Hr|].
    rewrite (records_snapshot_id _ _ _ _ _ Hr). congruence.
Qed.

Lemma snapshot_rows_round_trip_witness :
  getModelUsageBySnapshot
    (pass Scenarios.config7 Pricing.DEFAULT_PRICING Scenarios.t2 Scenarios.afterS2
       Scenarios.reportS3) (next_snapshot_id Scenarios.afterS2) =
  modelRecordsOf Pricing.DEFAULT_PRICING (next_snapshot_id Scenarios.afterS2)
    Scenarios.t2 Scenarios.reportS3.
Proof.
  apply (proj1 (proj2 (proj2
           (snapshot_rows_round_trip Scenarios.config7 Pricing.DEFAULT_PRICING
              Scenarios.t2 Scenarios.afterS2 Scenarios.reportS3 afterS2_passed)))).
Defined.

End SnapshotRows.
